(** * Task orchestration core of the RAGFlow HTTP handlers

    A shallow embedding of the handlers of [api/apps/kb_app.py] and
    [api/apps/document_app.py] that decide when pipeline jobs are
    dispatched, how documents are cancelled, rerun and deleted, and how
    the knowledge-graph view is ranked and truncated.

    The persistence layer is a record store: every table is a list of
    rows in creation order.  The search index, the blob store, the
    dispatch queue and the log are further components of the [World].
    Finite numbers (progress, pagerank, weight) are rationals. *)

From Stdlib Require Import QArith Ascii String.
From stdpp Require Import base strings list gmap sorting.

Local Open Scope string_scope.

(** ** Python values *)

(** [if s:] on a [str]: the empty string is falsy. *)
Definition truthy (s : string) : bool := negb (String.eqb s "").

(** [if s:] on a nullable [str] column: [None] and [""] are falsy. *)
Definition truthy_opt (s : option string) : bool :=
  match s with
  | Some s => truthy s
  | None => false
  end.

(** The double quote character, for messages such as [Lack of "KB ID"]. *)
Definition dq : string := String "034"%char EmptyString.

(** [sep.join(l)] *)
Fixpoint join (sep : string) (l : list string) : string :=
  match l with
  | [] => ""
  | [s] => s
  | s :: l' => s ++ sep ++ join sep l'
  end.

(** ** Stable descending sort

    [sorted(l, key=key, reverse=True)]: Python's sort is stable, and with
    [reverse=True] elements of equal key keep their original order. *)

Section Sorted.
Context {A : Type} (key : A → Q).

(** [x] goes before the first element whose key does not exceed its own. *)
Fixpoint insert_desc (x : A) (l : list A) : list A :=
  match l with
  | [] => [x]
  | y :: l' =>
      if Qle_bool (key y) (key x) then x :: y :: l'
      else y :: insert_desc x l'
  end.

Definition sorted_desc (l : list A) : list A := foldr insert_desc [] l.

(** [a] may stand before [b] in a descending list. *)
Definition desc (a b : A) : Prop := (key b <= key a)%Q.
End Sorted.

(** ** Data model *)

(** [api.db.TaskStatus]: the run-states of a document. *)
Inductive TaskStatus := UNSTART | RUNNING | CANCEL | DONE | FAIL.

(** The members of [settings.RetCode] that the handlers name. *)
Inductive RetCode :=
  | SUCCESS | AUTHENTICATION_ERROR | ARGUMENT_ERROR | SERVER_ERROR.

Record Document := {
  doc_id : string;
  doc_kb_id : string;
  doc_parser_id : string;
  doc_pipeline_id : option string;
  doc_run : string;
  doc_status : string;
  doc_progress : Q;
  doc_progress_msg : string;
  doc_chunk_num : Z;
  doc_token_num : Z;
  doc_process_duration : Q;
  doc_location : string;
}.

Record Task := {
  task_id : string;
  task_doc_id : string;
  task_type : string;
  task_priority : Z;
  task_progress : Q;
  task_doc_ids : list string;
}.

Record Knowledgebase := {
  kbase_id : string;
  kb_tenant_id : string;
  kb_chunk_num : Z;
  kb_token_num : Z;
  kb_field_map : list (string * string);
  graphrag_task_id : option string;
  graphrag_task_finish_at : option string;
  raptor_task_id : option string;
  raptor_task_finish_at : option string;
  mindmap_task_id : option string;
  mindmap_task_finish_at : option string;
}.

(** A record of the search index, stored in the partition
    [(ie_index, ie_kb_id)]. *)
Record IndexEntry := {
  ie_index : string;
  ie_kb_id : string;
  ie_doc_id : string;
  ie_knowledge_graph_kwd : option string;
  ie_available_int : Z;
  ie_content_with_weight : string;
}.

Record File := {
  file_id : string;
  file_parent_id : string;
  file_location : string;
  file_source_type : string;
}.

Record File2Document := {
  f2d_file_id : string;
  f2d_document_id : string;
}.

(** What the dispatch queues receive. *)
Inductive QueueMsg :=
  | QParse (doc : Document) (tenant_id bucket name : string) (priority : Z)
  | QPipeline (tenant_id flow_id task_id doc_id : string)
  | QAggregate (task_id ty : string) (doc_ids : list string).

Record World := {
  documents : list Document;
  tasks : list Task;
  knowledgebases : list Knowledgebase;
  index_partitions : list (string * string);
  index_entries : list IndexEntry;
  files : list File;
  file2documents : list File2Document;
  blobs : list (string * string);
  queue : list QueueMsg;
  warnings : list string;
  uuids : nat;
}.

Definition set_documents (f : list Document → list Document) (w : World) : World :=
  {| documents := f (documents w); tasks := tasks w;
     knowledgebases := knowledgebases w;
     index_partitions := index_partitions w; index_entries := index_entries w;
     files := files w; file2documents := file2documents w; blobs := blobs w;
     queue := queue w; warnings := warnings w; uuids := uuids w |}.

Definition set_tasks (f : list Task → list Task) (w : World) : World :=
  {| documents := documents w; tasks := f (tasks w);
     knowledgebases := knowledgebases w;
     index_partitions := index_partitions w; index_entries := index_entries w;
     files := files w; file2documents := file2documents w; blobs := blobs w;
     queue := queue w; warnings := warnings w; uuids := uuids w |}.

Definition set_knowledgebases
    (f : list Knowledgebase → list Knowledgebase) (w : World) : World :=
  {| documents := documents w; tasks := tasks w;
     knowledgebases := f (knowledgebases w);
     index_partitions := index_partitions w; index_entries := index_entries w;
     files := files w; file2documents := file2documents w; blobs := blobs w;
     queue := queue w; warnings := warnings w; uuids := uuids w |}.

Definition set_index_entries
    (f : list IndexEntry → list IndexEntry) (w : World) : World :=
  {| documents := documents w; tasks := tasks w;
     knowledgebases := knowledgebases w;
     index_partitions := index_partitions w;
     index_entries := f (index_entries w);
     files := files w; file2documents := file2documents w; blobs := blobs w;
     queue := queue w; warnings := warnings w; uuids := uuids w |}.

Definition set_files (f : list File → list File) (w : World) : World :=
  {| documents := documents w; tasks := tasks w;
     knowledgebases := knowledgebases w;
     index_partitions := index_partitions w; index_entries := index_entries w;
     files := f (files w); file2documents := file2documents w; blobs := blobs w;
     queue := queue w; warnings := warnings w; uuids := uuids w |}.

Definition set_file2documents
    (f : list File2Document → list File2Document) (w : World) : World :=
  {| documents := documents w; tasks := tasks w;
     knowledgebases := knowledgebases w;
     index_partitions := index_partitions w; index_entries := index_entries w;
     files := files w; file2documents := f (file2documents w); blobs := blobs w;
     queue := queue w; warnings := warnings w; uuids := uuids w |}.

Definition set_blobs
    (f : list (string * string) → list (string * string)) (w : World) : World :=
  {| documents := documents w; tasks := tasks w;
     knowledgebases := knowledgebases w;
     index_partitions := index_partitions w; index_entries := index_entries w;
     files := files w; file2documents := file2documents w; blobs := f (blobs w);
     queue := queue w; warnings := warnings w; uuids := uuids w |}.

Definition push_queue (m : QueueMsg) (w : World) : World :=
  {| documents := documents w; tasks := tasks w;
     knowledgebases := knowledgebases w;
     index_partitions := index_partitions w; index_entries := index_entries w;
     files := files w; file2documents := file2documents w; blobs := blobs w;
     queue := queue w ++ [m]; warnings := warnings w; uuids := uuids w |}.

(** [logging.warning(msg)] *)
Definition logging_warning (msg : string) (w : World) : World :=
  {| documents := documents w; tasks := tasks w;
     knowledgebases := knowledgebases w;
     index_partitions := index_partitions w; index_entries := index_entries w;
     files := files w; file2documents := file2documents w; blobs := blobs w;
     queue := queue w; warnings := warnings w ++ [msg]; uuids := uuids w |}.

Definition next_uuid (w : World) : World :=
  {| documents := documents w; tasks := tasks w;
     knowledgebases := knowledgebases w;
     index_partitions := index_partitions w; index_entries := index_entries w;
     files := files w; file2documents := file2documents w; blobs := blobs w;
     queue := queue w; warnings := warnings w; uuids := S (uuids w) |}.

(** ** JSON values

    What [json.loads] returns: [None], [bool], numbers, [str], [list] and
    [dict].  An [int] or a finite [float] is a rational; the floats
    [Infinity], [-Infinity] and [NaN], which [json.loads] accepts, stand
    apart, and every [NaN] of a parse is one and the same object.  A
    [dict] is the list of its items in insertion order; its keys are
    distinct. *)

Inductive Number :=
  | Finite (q : Q)
  | PosInf
  | NegInf
  | NaN.

#[warnings="-register-all"] Inductive Json :=
  | JNull
  | JBool (b : bool)
  | JNum (x : Number)
  | JStr (s : string)
  | JArr (l : list Json)
  | JObj (items : list (string * Json)).

(** The empty object [{}]. *)
Definition empty_graph : Json := JObj [].

(** [d.get(k)]; [None] when [k not in d]. *)
Definition dict_get (k : string) (items : list (string * Json)) : option Json :=
  snd <$> List.find (λ kv, String.eqb kv.1 k) items.

(** [d[k] = v]: a key that is there keeps its place. *)
Fixpoint dict_set (k : string) (v : Json) (items : list (string * Json))
    : list (string * Json) :=
  match items with
  | [] => [(k, v)]
  | (k', v') :: items' =>
      if String.eqb k' k then (k, v) :: items'
      else (k', v') :: dict_set k v items'
  end.

(** [x == y] on numbers: [NaN] equals nothing. *)
Definition num_eq (x y : Number) : bool :=
  match x, y with
  | Finite p, Finite q => Qeq_bool p q
  | PosInf, PosInf => true
  | NegInf, NegInf => true
  | _, _ => false
  end.

(** A [bool] is the number 0 or 1. *)
Definition as_number (v : Json) : option Number :=
  match v with
  | JBool b => Some (Finite (if b then 1 else 0))
  | JNum x => Some x
  | _ => None
  end.

(** [a is b or a == b], the test of containers ([x in l], [x in s],
    [l == l'], [d == d']) on their elements. *)
Fixpoint py_same (a b : Json) {struct a} : bool :=
  match a, b with
  | JNull, JNull => true
  | JStr s, JStr t => String.eqb s t
  | JArr l, JArr l' =>
      (fix go (l l' : list Json) {struct l} : bool :=
         match l, l' with
         | [], [] => true
         | x :: l, y :: l' => py_same x y && go l l'
         | _, _ => false
         end) l l'
  | JObj items, JObj items' =>
      Nat.eqb (length items) (length items')
      && forallb
           (λ kv, match kv with
                  | (k, v) =>
                      match dict_get k items' with
                      | Some v' => py_same v v'
                      | None => false
                      end
                  end) items
  | JNum NaN, JNum NaN => true
  | JBool b, JBool b' => Bool.eqb b b'
  | JBool b, JNum y => num_eq (Finite (if b then 1 else 0)) y
  | JNum x, JBool b' => num_eq x (Finite (if b' then 1 else 0))
  | JNum x, JNum y => num_eq x y
  | _, _ => false
  end.

(** [a == b] *)
Definition py_eq (a b : Json) : bool :=
  match a, b with
  | JNum NaN, JNum NaN => false
  | _, _ => py_same a b
  end.

(** Whether [hash(v)] is defined: a [list] or a [dict] is unhashable. *)
Definition hashable (v : Json) : bool :=
  match v with
  | JArr _ | JObj _ => false
  | _ => true
  end.

(** ** Expressions that may raise

    The value of an expression that reads no store: an exception, by its
    name, or a value. *)

Definition Exc (A : Type) : Type := (string + A)%type.

Definition exc_bind {A B} (m : Exc A) (k : A → Exc B) : Exc B :=
  match m with
  | inl e => inl e
  | inr a => k a
  end.

Notation "'let!' x ':=' m 'in' k" := (exc_bind m (λ x, k))
  (at level 10, x name, m at level 100, k at level 200, only parsing).

(** [[f(x) for x in l]]: the first exception ends the comprehension. *)
Fixpoint exc_map {A B} (f : A → Exc B) (l : list A) : Exc (list B) :=
  match l with
  | [] => inr []
  | x :: l' =>
      let! y := f x in
      let! ys := exc_map f l' in
      inr (y :: ys)
  end.

(** [[x for x in l if f(x)]] *)
Fixpoint exc_filter {A} (f : A → Exc bool) (l : list A) : Exc (list A) :=
  match l with
  | [] => inr []
  | x :: l' =>
      let! keep := f x in
      let! xs := exc_filter f l' in
      inr (if keep then x :: xs else xs)
  end.

(** ** Responses *)

Inductive Data :=
  | DBool (b : bool)
  | DGraph (obj : gmap string Json)
  | DField (field value : string)
  | DResult (result : gmap string (gmap string string))
  | DLogs (total : Z) (logs : list string).

(** The response builders of [api.utils.api_utils].  An argument the
    caller leaves out is [None]. *)
Inductive Response :=
  | get_json_result (data : Data) (message : option string) (code : option RetCode)
  | get_data_error_result (message : string)
  | get_error_data_result (message : string)
  | server_error_response (e : string).

(** ** The environment

    Constants and collaborators that the handlers import from modules
    outside this core: enumerations and settings, identifier generation,
    JSON parsing, authorization, ranking, and the outcome of writes to the
    external stores. *)

Record LogQuery := {
  lq_kb_id : string;
  lq_page_number : Z;
  lq_items_per_page : Z;
  lq_orderby : string;
  lq_desc : bool;
  lq_keywords : string;
  lq_operation_status : list string;
  lq_types : list string;
  lq_suffix : list string;
  lq_create_date_from : string;
  lq_create_date_to : string;
}.

Class Env := {
  (** [TaskStatus.X.value] *)
  TaskStatus_value : TaskStatus → string;
  TaskStatus_value_inj :: Inj (=) (=) TaskStatus_value;
  ParserType_TABLE : string;
  PipelineTaskType_GRAPH_RAG : string;
  PipelineTaskType_RAPTOR : string;
  PipelineTaskType_MINDMAP : string;
  FileSource_KNOWLEDGEBASE : string;
  GRAPH_RAPTOR_FAKE_DOC_ID : string;
  VALID_TASK_STATUS : list string;
  VALID_FILE_TYPES : list string;
  (** [search.index_name(tenant_id)] *)
  index_name : string → string;
  (** [str(x)] of a float, as an f-string prints it *)
  str_float : Q → string;
  (** [get_uuid()]: the [n]-th identifier drawn *)
  get_uuid : nat → string;
  (** [json.loads]; [None] when it raises *)
  json_loads : string → option Json;
  (** [sorted(l, key=..., reverse=True)] on keys whose order is left to
      the language: numbers with a [NaN] or an infinity among them, or
      all [str], or all [list].  The answer is the order of the result,
      as positions in [l], or [None] when a comparison raises
      [TypeError]. *)
  sorted_irregular : list Json → option (list nat);
  (** [DocumentService.accessible(doc_id, user_id)] *)
  doc_accessible : World → string → string → bool;
  (** [DocumentService.accessible4deletion(doc_id, user_id)] *)
  doc_accessible4deletion : World → string → string → bool;
  (** [KnowledgebaseService.accessible(kb_id, user_id)] *)
  kb_accessible : World → string → string → bool;
  (** [settings.retrievaler.search(req, index, [kb_id])]: the hits for
      [knowledge_graph_kwd] in [kwds], best first *)
  retrievaler_search : World → list string → string → string → list IndexEntry;
  (** whether a write to the row of that id is reported as done *)
  kb_update_ok : string → bool;
  doc_update_ok : string → bool;
  doc_delete_ok : string → bool;
  (** whether [docStoreConn.update] reports success for that document *)
  docstore_update_ok : string → bool;
  (** [STORAGE_IMPL.rm(bucket, name)] raises this exception, if any *)
  storage_rm_raises : string → string → option string;
  (** [FileService.get_root_folder(user_id)] and then
      [FileService.init_knowledgebase_docs(pf_id, user_id)], on the file table *)
  init_knowledgebase_docs : string → list File → list File;
  (** the log queries: an exception message, or the logs and their total *)
  get_file_logs_by_kb_id : LogQuery → string + list string * Z;
  get_dataset_logs_by_kb_id : LogQuery → string + list string * Z;
}.

(** ** Handler control flow

    A statement either falls through with a value, returns a response
    from the handler, or raises an exception; the world is threaded
    through. *)

Inductive Outcome (A : Type) :=
  | Next (a : A) (w : World)
  | Return (r : Response) (w : World)
  | Raise (e : string) (w : World).
Arguments Next {A} a w.
Arguments Return {A} r w.
Arguments Raise {A} e w.

Definition M (A : Type) : Type := World → Outcome A.

Definition pure {A} (a : A) : M A := λ w, Next a w.

Definition bind {A B} (m : M A) (k : A → M B) : M B :=
  λ w, match m w with
       | Next a w' => k a w'
       | Return r w' => Return r w'
       | Raise e w' => Raise e w'
       end.

Notation "'let*' x ':=' m 'in' k" := (bind m (λ x, k))
  (at level 10, x name, m at level 100, k at level 200, only parsing).
Notation "'run*' m 'in' k" := (bind m (λ _, k))
  (at level 10, m at level 100, k at level 200, only parsing).

(** [return r] *)
Definition return_ {A} (r : Response) : M A := λ w, Return r w.
(** [raise e] *)
Definition raise {A} (e : string) : M A := λ w, Raise e w.
(** an expression that reads no store *)
Definition of_exc {A} (m : Exc A) : M A :=
  λ w, match m with
       | inl e => Raise e w
       | inr a => Next a w
       end.
(** a read of the stores *)
Definition read {A} (f : World → A) : M A := λ w, Next (f w) w.
(** a write to the stores *)
Definition write (f : World → World) : M unit := λ w, Next tt (f w).
(** a call that answers and writes *)
Definition call {A} (f : World → A * World) : M A :=
  λ w, let '(a, w') := f w in Next a w'.
(** [if c: m] *)
Definition when (c : bool) (m : M unit) : M unit := if c then m else pure tt.

(** [for x in l: s = body(x, s)] *)
Fixpoint for_each {A S} (l : list A) (body : A → S → M S) (s : S) : M S :=
  match l with
  | [] => pure s
  | x :: l' => let* s' := body x s in for_each l' body s'
  end.

(** [try: m  except Exception as e: h(e)] *)
Definition try_except {A} (m : M A) (h : string → M A) : M A :=
  λ w, match m w with
       | Raise e w' => h e w'
       | o => o
       end.

(** What the caller of a handler receives.  An exception that leaves the
    handler is answered by the framework. *)
Inductive Reply :=
  | Responded (r : Response)
  | Unhandled (e : string).

Definition handle (m : M Response) (w : World) : Reply * World :=
  match m w with
  | Next r w' => (Responded r, w')
  | Return r w' => (Responded r, w')
  | Raise e w' => (Unhandled e, w')
  end.

(** ** The stores

    The services below are imported by the handlers from modules that are
    not part of the sources at hand; each is written from the contract
    the specification gives for it. *)

(** A field of the [info] dictionary passed to
    [DocumentService.update_by_id]. *)
Inductive DocField :=
  | F_run (v : string)
  | F_progress (v : Q)
  | F_progress_msg (v : string)
  | F_chunk_num (v : Z)
  | F_token_num (v : Z)
  | F_status (v : string).

Definition set_doc_field (fld : DocField) (d : Document) : Document :=
  {| doc_id := doc_id d; doc_kb_id := doc_kb_id d;
     doc_parser_id := doc_parser_id d; doc_pipeline_id := doc_pipeline_id d;
     doc_run := match fld with F_run v => v | _ => doc_run d end;
     doc_status := match fld with F_status v => v | _ => doc_status d end;
     doc_progress := match fld with F_progress v => v | _ => doc_progress d end;
     doc_progress_msg :=
       match fld with F_progress_msg v => v | _ => doc_progress_msg d end;
     doc_chunk_num := match fld with F_chunk_num v => v | _ => doc_chunk_num d end;
     doc_token_num := match fld with F_token_num v => v | _ => doc_token_num d end;
     doc_process_duration := doc_process_duration d;
     doc_location := doc_location d |}.

Definition set_doc_fields (info : list DocField) (d : Document) : Document :=
  foldl (λ d fld, set_doc_field fld d) d info.

(** A field of the dictionary passed to
    [KnowledgebaseService.update_by_id], by column name. *)
Definition set_kb_field (fld : string * option string) (kb : Knowledgebase)
    : Knowledgebase :=
  let upd name old := if String.eqb fld.1 name then fld.2 else old in
  {| kbase_id := kbase_id kb; kb_tenant_id := kb_tenant_id kb;
     kb_chunk_num := kb_chunk_num kb; kb_token_num := kb_token_num kb;
     kb_field_map := kb_field_map kb;
     graphrag_task_id := upd "graphrag_task_id" (graphrag_task_id kb);
     graphrag_task_finish_at :=
       upd "graphrag_task_finish_at" (graphrag_task_finish_at kb);
     raptor_task_id := upd "raptor_task_id" (raptor_task_id kb);
     raptor_task_finish_at :=
       upd "raptor_task_finish_at" (raptor_task_finish_at kb);
     mindmap_task_id := upd "mindmap_task_id" (mindmap_task_id kb);
     mindmap_task_finish_at :=
       upd "mindmap_task_finish_at" (mindmap_task_finish_at kb) |}.

Definition set_kb_fields (flds : list (string * option string))
    (kb : Knowledgebase) : Knowledgebase :=
  foldl (λ kb fld, set_kb_field fld kb) kb flds.

Module docStoreConn.
(** Modelled from the spec: the Search Index contract
    [indexExists(partition, kb_id) → bool]; the connector is not among
    the sources. *)
Definition indexExist (index kb : string) (w : World) : bool :=
  bool_decide ((index, kb) ∈ index_partitions w).

Definition in_partition (index kb : string) (e : IndexEntry) : bool :=
  bool_decide (ie_index e = index) && bool_decide (ie_kb_id e = kb).

(** Modelled from the spec: the Search Index contract
    [delete(filter, partition, kb_id)]: the records of the partition
    that match the filter are removed; the connector is not among the
    sources. *)
Definition delete (cond : IndexEntry → bool) (index kb : string) (w : World)
    : World :=
  set_index_entries
    (List.filter (λ e, negb (in_partition index kb e && cond e))) w.

Definition set_available_int (v : Z) (e : IndexEntry) : IndexEntry :=
  {| ie_index := ie_index e; ie_kb_id := ie_kb_id e; ie_doc_id := ie_doc_id e;
     ie_knowledge_graph_kwd := ie_knowledge_graph_kwd e;
     ie_available_int := v;
     ie_content_with_weight := ie_content_with_weight e |}.

(** Modelled from the spec: the Search Index contract
    [update(filter, patch, partition, kb_id)], here with the filter
    [{"doc_id": doc_id}] and the patch [{"available_int": v}]; the
    connector, which answers whether the update was done, is not among
    the sources. *)
Definition update {E : Env} (doc : string) (v : Z) (index kb : string) (w : World)
    : bool * World :=
  if docstore_update_ok doc then
    (true,
     set_index_entries
       (map (λ e, if in_partition index kb e && bool_decide (ie_doc_id e = doc)
                  then set_available_int v e else e)) w)
  else (false, w).
End docStoreConn.

Module TaskService.
(** Modelled from the spec: the Task Ledger contract
    [getTask(task_id) → Task|NotFound]; [TaskService] is not among the
    sources. *)
Definition get_by_id (tid : string) (w : World) : option Task :=
  List.find (λ t, bool_decide (task_id t = tid)) (tasks w).

(** Modelled from the spec: the Task Ledger contract
    [deleteTasks(filter)], with the filter [Task.doc_id == doc_id];
    [TaskService] is not among the sources. *)
Definition filter_delete (doc : string) (w : World) : World :=
  set_tasks (List.filter (λ t, negb (bool_decide (task_doc_id t = doc)))) w.

(** Modelled from the spec: [Cancellation deletes all outstanding Task
    rows for the document]; [cancel_all_task_of] is not among the
    sources. *)
Definition cancel_all_task_of (doc : string) (w : World) : World :=
  set_tasks (List.filter (λ t, negb (bool_decide (task_doc_id t = doc)))) w.

Definition new_task (tid doc ty : string) (priority : Z) (ids : list string)
    : Task :=
  {| task_id := tid; task_doc_id := doc; task_type := ty;
     task_priority := priority; task_progress := 0; task_doc_ids := ids |}.

(** Modelled from the spec: per-document dispatch [enqueues exactly one
    Task] and routes it to the direct parse queue,
    [enqueueParse(document_snapshot, bucket, key, priority)];
    [queue_tasks] is not among the sources. *)
Definition queue_tasks {E : Env} (doc : Document) (tenant_id bucket name : string)
    (priority : Z) (w : World) : World :=
  let tid := get_uuid (uuids w) in
  push_queue (QParse doc tenant_id bucket name priority)
    (set_tasks (λ ts, (ts ++ [new_task tid (doc_id doc) "parse" priority []])%list)
       (next_uuid w)).

(** Modelled from the spec: a document with a pipeline id is routed to
    the pipeline queue with the job id its caller generated,
    [enqueuePipeline(tenant_id, pipeline_id, task_id, doc_id)];
    [queue_dataflow] is not among the sources. *)
Definition queue_dataflow (tenant_id flow_id tid doc : string) (w : World)
    : World :=
  push_queue (QPipeline tenant_id flow_id tid doc)
    (set_tasks (λ ts, (ts ++ [new_task tid doc "parse" 0 []])%list) w).
End TaskService.

Module KnowledgebaseService.
(** Modelled from the spec: the Knowledgebase Store contract
    [getKB(id) → KB|NotFound]; [KnowledgebaseService] is not among the
    sources. *)
Definition get_by_id (id : string) (w : World) : option Knowledgebase :=
  List.find (λ kb, bool_decide (kbase_id kb = id)) (knowledgebases w).

Definition update_row (id : string) (f : Knowledgebase → Knowledgebase)
    (kb : Knowledgebase) : Knowledgebase :=
  if bool_decide (kbase_id kb = id) then f kb else kb.

(** Modelled from the spec: the Knowledgebase Store contract
    [updateKB(id, fields)]; the answer is falsy when no row was
    written.  [KnowledgebaseService] is not among the sources. *)
Definition update_by_id {E : Env} (id : string)
    (flds : list (string * option string)) (w : World) : bool * World :=
  if kb_update_ok id && bool_decide (is_Some (get_by_id id w)) then
    (true, set_knowledgebases (map (update_row id (set_kb_fields flds))) w)
  else (false, w).

Definition clear_field_map (kb : Knowledgebase) : Knowledgebase :=
  {| kbase_id := kbase_id kb; kb_tenant_id := kb_tenant_id kb;
     kb_chunk_num := kb_chunk_num kb; kb_token_num := kb_token_num kb;
     kb_field_map := [];
     graphrag_task_id := graphrag_task_id kb;
     graphrag_task_finish_at := graphrag_task_finish_at kb;
     raptor_task_id := raptor_task_id kb;
     raptor_task_finish_at := raptor_task_finish_at kb;
     mindmap_task_id := mindmap_task_id kb;
     mindmap_task_finish_at := mindmap_task_finish_at kb |}.

(** Modelled from the spec: [clear the knowledge base's cached
    field-map (schema cache invalidation)]; [delete_field_map] is not
    among the sources. *)
Definition delete_field_map (id : string) (w : World) : World :=
  set_knowledgebases (map (update_row id clear_field_map)) w.

Definition add_counters (dchunk dtoken : Z) (kb : Knowledgebase)
    : Knowledgebase :=
  {| kbase_id := kbase_id kb; kb_tenant_id := kb_tenant_id kb;
     kb_chunk_num := kb_chunk_num kb + dchunk;
     kb_token_num := kb_token_num kb + dtoken;
     kb_field_map := kb_field_map kb;
     graphrag_task_id := graphrag_task_id kb;
     graphrag_task_finish_at := graphrag_task_finish_at kb;
     raptor_task_id := raptor_task_id kb;
     raptor_task_finish_at := raptor_task_finish_at kb;
     mindmap_task_id := mindmap_task_id kb;
     mindmap_task_finish_at := mindmap_task_finish_at kb |}.
End KnowledgebaseService.

Module DocumentService.
(** Modelled from the spec: the Document Store contract
    [getDocument(id) → Document|NotFound]; [DocumentService] is not
    among the sources. *)
Definition get_by_id (id : string) (w : World) : option Document :=
  List.find (λ d, bool_decide (doc_id d = id)) (documents w).

Definition update_row (id : string) (f : Document → Document) (d : Document)
    : Document :=
  if bool_decide (doc_id d = id) then f d else d.

(** Modelled from the spec: the Document Store contract
    [updateDocument(id, fields)]; the answer is falsy when no row was
    written.  [DocumentService] is not among the sources. *)
Definition update_by_id {E : Env} (id : string) (info : list DocField) (w : World)
    : bool * World :=
  if doc_update_ok id && bool_decide (is_Some (get_by_id id w)) then
    (true, set_documents (map (update_row id (set_doc_fields info))) w)
  else (false, w).

(** Modelled from the spec: a Document carries its owning
    knowledge-base id and a Knowledgebase its tenant id;
    [get_tenant_id] is not among the sources. *)
Definition get_tenant_id (id : string) (w : World) : option string :=
  match get_by_id id w with
  | Some d =>
      match KnowledgebaseService.get_by_id (doc_kb_id d) w with
      | Some kb => Some (kb_tenant_id kb)
      | None => None
      end
  | None => None
  end.

(** Modelled from the spec: the Document Store contract
    [listDocumentsByKB(kb_id, filters…) → (list, total)], with no filter
    and an unbounded page, oldest first; [get_by_kb_id] is not among the
    sources. *)
Definition get_by_kb_id (kb : string) (w : World) : list Document :=
  List.filter (λ d, bool_decide (doc_kb_id d = kb)) (documents w).

(** Modelled from the spec: the number of documents of the knowledge
    base whose run-state is among [run_status]; [count_by_kb_id] is not
    among the sources. *)
Definition count_by_kb_id (kb : string) (run_status : list string) (w : World)
    : Z :=
  Z.of_nat (length (List.filter
    (λ d, bool_decide (doc_kb_id d = kb) && bool_decide (doc_run d ∈ run_status))
    (documents w))).

(** Modelled from the spec: [the knowledge base's aggregate counters are
    decremented by exactly the amounts previously attributed to that
    document], its chunk and token counts; [clear_chunk_num_when_rerun]
    is not among the sources. *)
Definition clear_chunk_num_when_rerun (id : string) (w : World) : World :=
  match get_by_id id w with
  | Some d =>
      set_knowledgebases
        (map (KnowledgebaseService.update_row (doc_kb_id d)
                (KnowledgebaseService.add_counters
                   (- doc_chunk_num d) (- doc_token_num d)))) w
  | None => w
  end.

(** Modelled from the spec: deletion removes the Task rows of the
    document and [all index entries scoped to doc_id within the tenant's
    index partition for that knowledge base], then the document row; the
    answer is falsy when no row was removed.  [remove_document] is not
    among the sources. *)
Definition remove_document {E : Env} (doc : Document) (tenant_id : string)
    (w : World) : bool * World :=
  let w1 := TaskService.filter_delete (doc_id doc) w in
  let w2 :=
    docStoreConn.delete (λ e, bool_decide (ie_doc_id e = doc_id doc))
      (index_name tenant_id) (doc_kb_id doc) w1 in
  if doc_delete_ok (doc_id doc)
     && bool_decide (is_Some (get_by_id (doc_id doc) w2)) then
    (true,
     set_documents
       (List.filter (λ d, negb (bool_decide (doc_id d = doc_id doc)))) w2)
  else (false, w2).

(** Modelled from the spec: [Create one Task addressed at a
    knowledge-base-wide synthetic document id, carrying the full list of
    real document ids as its unit of work]; the answer is the id of that
    Task.  [queue_raptor_o_graphrag_tasks] is not among the sources. *)
Definition queue_raptor_o_graphrag_tasks {E : Env} (doc : Document) (ty : string)
    (priority : Z) (fake_doc_id : string) (doc_ids : list string) (w : World)
    : string * World :=
  let tid := get_uuid (uuids w) in
  (tid,
   push_queue (QAggregate tid ty doc_ids)
     (set_tasks
        (λ ts, (ts ++ [TaskService.new_task tid fake_doc_id ty priority doc_ids])%list)
        (next_uuid w))).
End DocumentService.

Module File2DocumentService.
(** Modelled from the spec: the file-linkage records of a document;
    [File2DocumentService] is not among the sources. *)
Definition get_by_document_id (doc : string) (w : World) : list File2Document :=
  List.filter (λ l, bool_decide (f2d_document_id l = doc)) (file2documents w).

(** Modelled from the spec: [resolve the document's storage
    bucket/object name via its file-linkage record]; a document without
    linkage is stored under its knowledge base.
    [get_storage_address] is not among the sources. *)
Definition get_storage_address (doc : string) (w : World) : string * string :=
  let linked :=
    match get_by_document_id doc w with
    | l :: _ => List.find (λ f, bool_decide (file_id f = f2d_file_id l)) (files w)
    | [] => None
    end in
  match linked, DocumentService.get_by_id doc w with
  | Some f, _ => (file_parent_id f, file_location f)
  | None, Some d => (doc_kb_id d, doc_location d)
  | None, None => ("", "")
  end.

(** Modelled from the spec: [delete the file-linkage record];
    [delete_by_document_id] is not among the sources. *)
Definition delete_by_document_id (doc : string) (w : World) : World :=
  set_file2documents
    (List.filter (λ l, negb (bool_decide (f2d_document_id l = doc)))) w.
End File2DocumentService.

Module FileService.
(** Modelled from the spec: deleting the shared-file reference, with the
    filter [File.source_type == source_type, File.id == id]; the answer
    is the number of rows removed.  [FileService] is not among the
    sources. *)
Definition filter_delete (source_type id : string) (w : World) : Z * World :=
  let hit f :=
    bool_decide (file_source_type f = source_type)
    && bool_decide (file_id f = id) in
  (Z.of_nat (length (List.filter hit (files w))),
   set_files (List.filter (λ f, negb (hit f))) w).
End FileService.

Module STORAGE_IMPL.
(** Modelled from the spec: the Blob Store contract
    [delete(bucket, key)], whose failures are surfaced; the blob store
    is not among the sources. *)
Definition rm {E : Env} (bucket name : string) : M unit :=
  match storage_rm_raises bucket name with
  | Some e => raise e
  | None =>
      write (set_blobs
        (List.filter (λ b, negb (bool_decide (b = (bucket, name))))))
  end.
End STORAGE_IMPL.

(** ** [api/apps/kb_app.py] *)

(** [a > b] on [str]: lexicographic order of the code points, which is the
    order of the UTF-8 bytes. *)
Definition str_gt (a b : string) : bool :=
  match String.compare a b with
  | Gt => true
  | _ => false
  end.

(** [x in [-1, 1]] on a number *)
Definition in_terminal (x : Q) : bool := Qeq_bool x (-1) || Qeq_bool x 1.

(** The three aggregate pipelines of a knowledge base. *)
Inductive Kind := Graphrag | Raptor | Mindmap.

Module kb_app.
Section kb_app.
Context {E : Env}.

Definition lack_of_kb_id : string := "Lack of " ++ dq ++ "KB ID" ++ dq.

Definition no_authorization : Response :=
  get_json_result (DBool false) (Some "No authorization.")
    (Some AUTHENTICATION_ERROR).

(** *** The knowledge-graph view *)

(** [for x in v]: a [list] gives its elements, a [dict] its keys and a
    [str] its characters; nothing else is iterable.  (A character beyond
    ASCII is here as many elements as it has bytes; every use below
    raises on the first element that is a [str].) *)
Definition py_iter (v : Json) : Exc (list Json) :=
  match v with
  | JArr l => inr l
  | JObj items => inr ((λ kv, JStr kv.1) <$> items)
  | JStr s => inr ((λ c, JStr (String c EmptyString)) <$> list_ascii_of_string s)
  | _ => inl "TypeError"
  end.

(** [x.get(field, 0)]: only a [dict] has [get]. *)
Definition get_or_zero (field : string) (x : Json) : Exc Json :=
  match x with
  | JObj items => inr (default (JNum (Finite 0)) (dict_get field items))
  | _ => inl "AttributeError"
  end.

(** [o[field]]: a missing key is a [KeyError]; a [list], a [str], a
    number, a [bool] or [None] cannot be subscripted by a [str]. *)
Definition subscript (field : string) (o : Json) : Exc Json :=
  match o with
  | JObj items =>
      match dict_get field items with
      | Some v => inr v
      | None => inl "KeyError"
      end
  | _ => inl "TypeError"
  end.

(** The values that [<] orders among themselves: numbers (with [bool]),
    [str], [list]; [None] and [dict] have no order at all. *)
Inductive KeyClass := numeric | textual | sequence | unordered.

Definition key_class (v : Json) : KeyClass :=
  match v with
  | JBool _ | JNum _ => numeric
  | JStr _ => textual
  | JArr _ => sequence
  | JNull | JObj _ => unordered
  end.

Definition key_class_eqb (a b : KeyClass) : bool :=
  match a, b with
  | numeric, numeric | textual, textual | sequence, sequence
  | unordered, unordered => true
  | _, _ => false
  end.

(** The value of a key that is a finite number. *)
Definition finite_key (v : Json) : option Q :=
  match as_number v with
  | Some (Finite q) => Some q
  | _ => None
  end.

(** [x.get(field, 0)] as a rational, for an object [x] whose [field] is
    missing or a finite number. *)
Definition key_of (field : string) (x : Json) : Q :=
  match x with
  | JObj items =>
      match dict_get field items with
      | Some v => default 0%Q (finite_key v)
      | None => 0%Q
      end
  | _ => 0%Q
  end.

Definition pagerank_key : Json → Q := key_of "pagerank".
Definition weight_key : Json → Q := key_of "weight".

(** [sorted(l, key=lambda x: x.get(field, 0), reverse=True)].  The keys
    are computed first.  A list of fewer than two elements is not
    compared.  Otherwise every element is compared with another one at
    least once, and the elements compared link up the whole list: a key
    that is [None] or a [dict], or keys of two classes, raise
    [TypeError].  Keys that are all finite numbers are sorted, stably;
    for other keys the order is the environment's. *)
Definition py_sorted_reverse (field : string) (l : list Json) : Exc (list Json) :=
  let! keys := exc_map (get_or_zero field) l in
  if (length l <? 2)%nat then inr l
  else if existsb (λ k, key_class_eqb (key_class k) unordered) keys then
    inl "TypeError"
  else if negb (match keys with
                | [] => true
                | k :: ks =>
                    forallb
                      (λ k', key_class_eqb (key_class k') (key_class k)) ks
                end) then
    inl "TypeError"
  else if forallb (λ k, bool_decide (is_Some (finite_key k))) keys then
    inr (sorted_desc (key_of field) l)
  else
    match sorted_irregular keys with
    | None => inl "TypeError"
    | Some order => inr (omap (λ i, l !! i) order)
    end.

(** [o["id"]] as an element of a set: it is hashed. *)
Definition node_id (o : Json) : Exc Json :=
  let! id := subscript "id" o in
  if hashable id then inr id else inl "TypeError".

(** [x in node_id_set]: [x] is hashed, then compared. *)
Definition in_set (x : Json) (node_id_set : list Json) : Exc bool :=
  if hashable x then inr (existsb (py_same x) node_id_set)
  else inl "TypeError".

(** [o["source"] != o["target"] and o["source"] in node_id_set and
    o["target"] in node_id_set] *)
Definition keep_edge (node_id_set : list Json) (o : Json) : Exc bool :=
  let! source := subscript "source" o in
  let! target := subscript "target" o in
  if py_eq source target then inr false
  else
    let! source_in := in_set source node_id_set in
    if negb source_in then inr false
    else in_set target node_id_set.

(** ["nodes" in s] on a [str]: the substring test. *)
Definition is_substring (a s : string) : bool :=
  match String.index 0 a s with
  | Some _ => true
  | None => false
  end.

(** Lines 422 to 427 of [knowledge_graph]: ranking and truncation of
    [obj["graph"]], which is whatever the payload was. *)
Definition rank_graph (graph : Json) : Exc Json :=
  match graph with
  | JObj items =>
      match dict_get "nodes" items with
      | None => inr graph
      | Some nodes =>
          let! nodes := py_iter nodes in
          let! nodes := py_sorted_reverse "pagerank" nodes in
          let nodes := take 256 nodes in
          let items := dict_set "nodes" (JArr nodes) items in
          match dict_get "edges" items with
          | None => inr (JObj items)
          | Some edges =>
              let! node_id_set := exc_map node_id nodes in
              let! edges := py_iter edges in
              let! filtered_edges := exc_filter (keep_edge node_id_set) edges in
              let! edges := py_sorted_reverse "weight" filtered_edges in
              inr (JObj (dict_set "edges" (JArr (take 128 edges)) items))
          end
      end
  | JArr l =>
      (* ["nodes" in l], then [l["nodes"]] *)
      if existsb (py_same (JStr "nodes")) l then inl "TypeError" else inr graph
  | JStr s =>
      (* ["nodes" in s], then [s["nodes"]] *)
      if is_substring "nodes" s then inl "TypeError" else inr graph
  | _ => inl "TypeError"
  end.

Definition knowledge_graph (kb_id user : string) : M Response :=
  let* ok := read (λ w, kb_accessible w kb_id user) in
  if negb ok then return_ no_authorization else
  let* kb := read (KnowledgebaseService.get_by_id kb_id) in
  let obj : gmap string Json :=
    <["mind_map" := empty_graph]> (<["graph" := empty_graph]> ∅) in
  match kb with
  | None => raise "AttributeError"
  | Some kb =>
  let index := index_name (kb_tenant_id kb) in
  let* exist := read (docStoreConn.indexExist index kb_id) in
  if negb exist then return_ (get_json_result (DGraph obj) None None) else
  let* sres := read (λ w, retrievaler_search w ["graph"] index kb_id) in
  if bool_decide (length sres = 0) then
    return_ (get_json_result (DGraph obj) None None)
  else
  let* obj :=
    for_each (take 1 sres)
      (λ hit obj,
         match ie_knowledge_graph_kwd hit with
         | None => raise "KeyError"
         | Some ty =>
             match json_loads (ie_content_with_weight hit) with
             | None => pure obj
             | Some content_json => pure (<[ty := content_json]> obj)
             end
         end) obj in
  let graph := default empty_graph (obj !! "graph") in
  let* graph := of_exc (rank_graph graph) in
  pure (get_json_result (DGraph (<["graph" := graph]> obj)) None None)
  end.

(** *** The pipeline logs *)

Definition create_date_abnormal : Response :=
  get_data_error_result "Create data filter is abnormal.".

(** [{s for s in l if s not in valid}]; the order in which a set is
    joined is not fixed by the language. *)
Definition invalid_among (valid l : list string) : list string :=
  remove_dups (List.filter (λ s, negb (bool_decide (s ∈ valid))) l).

Definition is_empty {A} (l : list A) : bool :=
  match l with [] => true | _ => false end.

Definition logs_reply (r : string + list string * Z) : Response :=
  match r with
  | inl e => server_error_response e
  | inr (logs, tol) => get_json_result (DLogs tol logs) None None
  end.

Definition list_pipeline_logs (operation_status types suffix : list string)
    (kb_id keywords : string) (page page_size : Z) (orderby : string)
    (desc : bool) (create_date_from create_date_to : string) : M Response :=
  if negb (truthy kb_id) then
    return_ (get_json_result (DBool false) (Some lack_of_kb_id)
               (Some ARGUMENT_ERROR))
  else
  let page_number := page in
  let items_per_page := page_size in
  if str_gt create_date_to create_date_from then return_ create_date_abnormal
  else
  let invalid_status := invalid_among VALID_TASK_STATUS operation_status in
  if negb (is_empty operation_status) && negb (is_empty invalid_status) then
    return_ (get_data_error_result
      ("Invalid filter operation_status status conditions: "
       ++ join ", " invalid_status))
  else
  let invalid_types := invalid_among VALID_FILE_TYPES types in
  if negb (is_empty types) && negb (is_empty invalid_types) then
    return_ (get_data_error_result
      ("Invalid filter conditions: " ++ join ", " invalid_types ++ " type"
       ++ (if bool_decide (1 < length invalid_types) then "s" else "")))
  else
  pure (logs_reply (get_file_logs_by_kb_id
    {| lq_kb_id := kb_id; lq_page_number := page_number;
       lq_items_per_page := items_per_page; lq_orderby := orderby;
       lq_desc := desc; lq_keywords := keywords;
       lq_operation_status := operation_status; lq_types := types;
       lq_suffix := suffix; lq_create_date_from := create_date_from;
       lq_create_date_to := create_date_to |})).

Definition list_pipeline_dataset_logs (operation_status : list string)
    (kb_id : string) (page page_size : Z) (orderby : string)
    (desc : bool) (create_date_from create_date_to : string) : M Response :=
  if negb (truthy kb_id) then
    return_ (get_json_result (DBool false) (Some lack_of_kb_id)
               (Some ARGUMENT_ERROR))
  else
  let page_number := page in
  let items_per_page := page_size in
  if str_gt create_date_to create_date_from then return_ create_date_abnormal
  else
  let invalid_status := invalid_among VALID_TASK_STATUS operation_status in
  if negb (is_empty operation_status) && negb (is_empty invalid_status) then
    return_ (get_data_error_result
      ("Invalid filter operation_status status conditions: "
       ++ join ", " invalid_status))
  else
  pure (logs_reply (get_dataset_logs_by_kb_id
    {| lq_kb_id := kb_id; lq_page_number := page_number;
       lq_items_per_page := items_per_page; lq_orderby := orderby;
       lq_desc := desc; lq_keywords := "";
       lq_operation_status := operation_status; lq_types := [];
       lq_suffix := []; lq_create_date_from := create_date_from;
       lq_create_date_to := create_date_to |})).

(** *** Aggregate dispatch

    [run_graphrag], [run_raptor] and [run_mindmap] are the same code up
    to the pointer they read and write and the names in their messages. *)

Definition pointer (k : Kind) (kb : Knowledgebase) : option string :=
  match k with
  | Graphrag => graphrag_task_id kb
  | Raptor => raptor_task_id kb
  | Mindmap => mindmap_task_id kb
  end.

Definition pointer_field (k : Kind) : string :=
  match k with
  | Graphrag => "graphrag_task_id"
  | Raptor => "raptor_task_id"
  | Mindmap => "mindmap_task_id"
  end.

Definition ty (k : Kind) : string :=
  match k with
  | Graphrag => "graphrag"
  | Raptor => "raptor"
  | Mindmap => "mindmap"
  end.

Definition expected_name (k : Kind) : string :=
  match k with
  | Graphrag => "GraphRAG"
  | Raptor => "RAPTOR"
  | Mindmap => "Mindmap"
  end.

Definition running_name (k : Kind) : string :=
  match k with
  | Graphrag => "Graph"
  | Raptor => "RAPTOR"
  | Mindmap => "Mindmap"
  end.

(** The answer to a dispatch while a Task of that kind is in progress. *)
Definition in_progress (k : Kind) (task_id : string) (progress : Q) : Response :=
  get_error_data_result
    ("Task " ++ task_id ++ " in progress with status " ++ str_float progress
     ++ ". A " ++ running_name k ++ " Task is already running.").

Definition run_aggregate (k : Kind) (kb_id : string) : M Response :=
  if negb (truthy kb_id) then return_ (get_error_data_result lack_of_kb_id)
  else
  let* kb := read (KnowledgebaseService.get_by_id kb_id) in
  match kb with
  | None => return_ (get_error_data_result "Invalid Knowledgebase ID")
  | Some kb =>
  let task_id := pointer k kb in
  run*
    (if truthy_opt task_id then
       let task_id := default "" task_id in
       let* task := read (TaskService.get_by_id task_id) in
       run* when (negb (bool_decide (is_Some task)))
         (write (logging_warning
            ("A valid " ++ expected_name k ++ " task id is expected for kb "
             ++ kb_id))) in
       match task with
       | Some task =>
           if negb (in_terminal (task_progress task)) then
             return_ (in_progress k task_id (task_progress task))
           else pure tt
       | None => pure tt
       end
     else pure tt) in
  let* documents := read (DocumentService.get_by_kb_id kb_id) in
  match documents with
  | [] =>
      return_ (get_error_data_result ("No documents in Knowledgebase " ++ kb_id))
  | sample_document :: _ =>
      let document_ids := map doc_id documents in
      let* task_id :=
        call (DocumentService.queue_raptor_o_graphrag_tasks sample_document
                (ty k) 0 GRAPH_RAPTOR_FAKE_DOC_ID document_ids) in
      let* saved :=
        call (KnowledgebaseService.update_by_id (kbase_id kb)
                [(pointer_field k, Some task_id)]) in
      run* when (negb saved)
        (write (logging_warning
           ("Cannot save " ++ pointer_field k ++ " for kb " ++ kb_id))) in
      pure (get_json_result (DField (pointer_field k) task_id) None None)
  end
  end.

Definition run_graphrag : string → M Response := run_aggregate Graphrag.
Definition run_raptor : string → M Response := run_aggregate Raptor.
Definition run_mindmap : string → M Response := run_aggregate Mindmap.

(** *** Unbinding a pointer *)

Definition graph_artifacts : list string :=
  ["graph"; "subgraph"; "entity"; "relation"].

Definition delete_kb_task (kb_id pipeline_task_type : string) : M Response :=
  if negb (truthy kb_id) then return_ (get_error_data_result lack_of_kb_id)
  else
  let* kb := read (KnowledgebaseService.get_by_id kb_id) in
  match kb with
  | None => return_ (get_json_result (DBool true) None None)
  | Some kb =>
  if negb (truthy pipeline_task_type)
     || negb (bool_decide (pipeline_task_type ∈
          [PipelineTaskType_GRAPH_RAG; PipelineTaskType_RAPTOR;
           PipelineTaskType_MINDMAP]))
  then return_ (get_error_data_result "Invalid task type")
  else
  let* fields :=
    (if bool_decide (pipeline_task_type = PipelineTaskType_GRAPH_RAG) then
       run* write (docStoreConn.delete
         (λ e, match ie_knowledge_graph_kwd e with
               | Some kwd => bool_decide (kwd ∈ graph_artifacts)
               | None => false
               end)
         (index_name (kb_tenant_id kb)) kb_id) in
       pure ("graphrag_task_id", "graphrag_task_finish_at")
     else if bool_decide (pipeline_task_type = PipelineTaskType_RAPTOR) then
       pure ("raptor_task_id", "raptor_task_finish_at")
     else if bool_decide (pipeline_task_type = PipelineTaskType_MINDMAP) then
       pure ("mindmap_task_id", "mindmap_task_finish_at")
     else
       return_ (get_error_data_result "Internal Error: Invalid task type")) in
  let '(kb_task_id, kb_task_finish_at) := fields in
  let* ok :=
    call (KnowledgebaseService.update_by_id kb_id
            [(kb_task_id, Some ""); (kb_task_finish_at, None)]) in
  if negb ok then
    return_ (server_error_response
      ("Internal error: cannot delete task " ++ pipeline_task_type))
  else pure (get_json_result (DBool true) None None)
  end.

(** *** Deleting the knowledge graph *)

Definition delete_knowledge_graph (kb_id user : string) : M Response :=
  let* ok := read (λ w, kb_accessible w kb_id user) in
  if negb ok then return_ no_authorization else
  let* kb := read (KnowledgebaseService.get_by_id kb_id) in
  match kb with
  | None => raise "AttributeError"
  | Some kb =>
      run* write (docStoreConn.delete
        (λ e, match ie_knowledge_graph_kwd e with
              | Some kwd => bool_decide (kwd ∈ graph_artifacts)
              | None => false
              end)
        (index_name (kb_tenant_id kb)) kb_id) in
      pure (get_json_result (DBool true) None None)
  end.
End kb_app.
End kb_app.

(** ** [api/apps/document_app.py] *)

Module document_app.
Section document_app.
Context {E : Env}.

Definition no_authorization : Response :=
  get_json_result (DBool false) (Some "No authorization.")
    (Some AUTHENTICATION_ERROR).

(** [{"error": msg}] and [{"status": status}] *)
Definition error_entry (msg : string) : gmap string string :=
  {["error" := msg]}.
Definition status_entry (status : string) : gmap string string :=
  {["status" := status]}.

(** [int(status)], for a status that is ["0"] or ["1"] *)
Definition int_of_status (status : string) : Z :=
  if String.eqb status "1" then 1 else 0.

(** The body of the loop of [change_status]: [result] is the dictionary
    built so far. *)
Definition change_status_one (status user doc_id : string)
    (result : gmap string (gmap string string))
    : M (gmap string (gmap string string)) :=
  let* ok := read (λ w, doc_accessible w doc_id user) in
  if negb ok then
    pure (<[doc_id := error_entry "No authorization."]> result)
  else
  try_except
    (let* doc := read (DocumentService.get_by_id doc_id) in
     match doc with
     | None => pure (<[doc_id := error_entry "No authorization."]> result)
     | Some doc =>
     let* kb := read (KnowledgebaseService.get_by_id (doc_kb_id doc)) in
     match kb with
     | None =>
         pure (<[doc_id := error_entry "Can't find this knowledgebase!"]> result)
     | Some kb =>
     let* updated :=
       call (DocumentService.update_by_id doc_id [F_status status]) in
     if negb updated then
       pure (<[doc_id := error_entry "Database error (Document update)!"]> result)
     else
     let status_int := int_of_status status in
     let* indexed :=
       call (docStoreConn.update doc_id status_int
               (index_name (kb_tenant_id kb)) (doc_kb_id doc)) in
     let result :=
       if negb indexed then
         <[doc_id := error_entry "Database error (docStore update)!"]> result
       else result in
     pure (<[doc_id := status_entry status]> result)
     end
     end)
    (λ e,
       pure (<[doc_id := error_entry ("Internal server error: " ++ e)]> result)).

Definition change_status (doc_ids : list string) (status user : string)
    : M Response :=
  if negb (bool_decide (status ∈ ["0"; "1"])) then
    return_ (get_json_result (DBool false)
      (Some (dq ++ "Status" ++ dq ++ " must be either 0 or 1!"))
      (Some ARGUMENT_ERROR))
  else
  let* result := for_each doc_ids (change_status_one status user) ∅ in
  pure (get_json_result (DResult result) None None).

(** The table-parser bookkeeping at the end of an iteration of [rm]. *)
Definition rm_table (doc : Document) (kb_table_num_map : gmap string Z)
    : M (gmap string Z) :=
  if bool_decide (doc_parser_id doc = ParserType_TABLE) then
    let kb_id := doc_kb_id doc in
    let* kb_table_num_map :=
      match kb_table_num_map !! kb_id with
      | None =>
          let* counts :=
            read (DocumentService.count_by_kb_id kb_id [TaskStatus_value DONE]) in
          pure (<[kb_id := counts]> kb_table_num_map)
      | Some _ => pure kb_table_num_map
      end in
    let kb_table_num_map :=
      <[kb_id := (default 0 (kb_table_num_map !! kb_id) - 1)%Z]>
        kb_table_num_map in
    run* when (bool_decide (default 0 (kb_table_num_map !! kb_id) ≤ 0)%Z)
      (write (KnowledgebaseService.delete_field_map kb_id)) in
    pure kb_table_num_map
  else pure kb_table_num_map.

(** The body of the deletion loop of [rm], inside its [try]. *)
Definition rm_one (doc_id : string) (kb_table_num_map : gmap string Z)
    : M (gmap string Z) :=
  let* doc := read (DocumentService.get_by_id doc_id) in
  match doc with
  | None => return_ (get_data_error_result "Document not found!")
  | Some doc =>
  let* tenant_id := read (DocumentService.get_tenant_id doc_id) in
  if negb (truthy_opt tenant_id) then
    return_ (get_data_error_result "Tenant not found!")
  else
  let tenant_id := default "" tenant_id in
  let* address := read (File2DocumentService.get_storage_address doc_id) in
  let b := address.1 in
  let n := address.2 in
  run* write (TaskService.filter_delete doc_id) in
  let* removed := call (DocumentService.remove_document doc tenant_id) in
  if negb removed then
    return_ (get_data_error_result "Database error (Document removal)!")
  else
  let* f2d := read (File2DocumentService.get_by_document_id doc_id) in
  let* deleted_file_count :=
    match f2d with
    | l :: _ =>
        call (FileService.filter_delete FileSource_KNOWLEDGEBASE (f2d_file_id l))
    | [] => pure 0%Z
    end in
  run* write (File2DocumentService.delete_by_document_id doc_id) in
  run* when (bool_decide (0 < deleted_file_count)%Z) (STORAGE_IMPL.rm b n) in
  rm_table doc kb_table_num_map
  end.

(** An iteration of the deletion loop of [rm], with its [try]: the state
    is [errors] and [kb_table_num_map]. *)
Definition rm_step (doc_id : string) (st : string * gmap string Z)
    : M (string * gmap string Z) :=
  try_except
    (let* kb_table_num_map := rm_one doc_id st.2 in
     pure (st.1, kb_table_num_map))
    (λ e, pure (st.1 ++ e, st.2)).

Definition rm_loop (doc_ids : list string) : M (string * gmap string Z) :=
  for_each doc_ids rm_step ("", ∅).

Definition rm (doc_ids : list string) (user : string) : M Response :=
  run* for_each doc_ids
    (λ doc_id _,
       let* ok := read (λ w, doc_accessible4deletion w doc_id user) in
       if negb ok then return_ no_authorization else pure tt) tt in
  run* write (set_files (init_knowledgebase_docs user)) in
  let* st := rm_loop doc_ids in
  let errors := st.1 in
  if truthy errors then
    return_ (get_json_result (DBool false) (Some errors) (Some SERVER_ERROR))
  else pure (get_json_result (DBool true) None None).

(** The routing at the end of an iteration of [run]. *)
Definition run_dispatch (id tenant_id : string) (doc : Document) : M unit :=
  if truthy_opt (doc_pipeline_id doc) then
    let* task_id := call (λ w, (get_uuid (uuids w), next_uuid w)) in
    write (TaskService.queue_dataflow tenant_id
             (default "" (doc_pipeline_id doc)) task_id id)
  else
    let* address :=
      read (File2DocumentService.get_storage_address (doc_id doc)) in
    write (TaskService.queue_tasks doc tenant_id address.1 address.2 0).

(** The table-parser bookkeeping of [run], then the routing; a table
    document without knowledge base is skipped ([continue]). *)
Definition run_start (id tenant_id : string) (doc : Document)
    (kb_table_num_map : gmap string Z) : M (gmap string Z) :=
  let doc_parser := doc_parser_id doc in
  if bool_decide (doc_parser = ParserType_TABLE) then
    let kb_id := doc_kb_id doc in
    if negb (truthy kb_id) then pure kb_table_num_map
    else
    let* kb_table_num_map :=
      match kb_table_num_map !! kb_id with
      | None =>
          let* count :=
            read (DocumentService.count_by_kb_id kb_id [TaskStatus_value DONE]) in
          run* when (bool_decide (count ≤ 0)%Z)
            (write (KnowledgebaseService.delete_field_map kb_id)) in
          pure (<[kb_id := count]> kb_table_num_map)
      | Some _ => pure kb_table_num_map
      end in
    run* run_dispatch id tenant_id doc in
    pure kb_table_num_map
  else
    run* run_dispatch id tenant_id doc in
    pure kb_table_num_map.

(** [info], the fields that [run] writes to the document. *)
Definition run_info (run : string) (delete : bool) : list DocField :=
  ([F_run run; F_progress 0]
   ++ (if bool_decide (run = TaskStatus_value RUNNING) && delete then
         [F_progress_msg ""; F_chunk_num 0; F_token_num 0]
       else []))%list.

(** The body of the loop of [run]. *)
Definition run_one (run : string) (delete : bool) (id : string)
    (kb_table_num_map : gmap string Z) : M (gmap string Z) :=
  let info := run_info run delete in
  let* tenant_id := read (DocumentService.get_tenant_id id) in
  if negb (truthy_opt tenant_id) then
    return_ (get_data_error_result "Tenant not found!")
  else
  let tenant_id := default "" tenant_id in
  let* doc := read (DocumentService.get_by_id id) in
  match doc with
  | None => return_ (get_data_error_result "Document not found!")
  | Some doc =>
  run*
    (if bool_decide (run = TaskStatus_value CANCEL) then
       if bool_decide (doc_run doc = TaskStatus_value RUNNING) then
         write (TaskService.cancel_all_task_of id)
       else
         return_ (get_data_error_result
           "Cannot cancel a task that is not in RUNNING status")
     else pure tt) in
  run* when (delete && bool_decide (run = TaskStatus_value RUNNING)
             && bool_decide (doc_run doc = TaskStatus_value DONE))
    (write (DocumentService.clear_chunk_num_when_rerun (doc_id doc))) in
  let* _ := call (DocumentService.update_by_id id info) in
  run* when delete
    (run* write (TaskService.filter_delete id) in
     let* exist :=
       read (docStoreConn.indexExist (index_name tenant_id) (doc_kb_id doc)) in
     when exist
       (write (docStoreConn.delete (λ e, bool_decide (ie_doc_id e = id))
                 (index_name tenant_id) (doc_kb_id doc)))) in
  if bool_decide (run = TaskStatus_value RUNNING) then
    run_start id tenant_id doc kb_table_num_map
  else pure kb_table_num_map
  end.

Definition run (doc_ids : list string) (run : string) (delete : bool)
    (user : string) : M Response :=
  run* for_each doc_ids
    (λ doc_id _,
       let* ok := read (λ w, doc_accessible w doc_id user) in
       if negb ok then return_ no_authorization else pure tt) tt in
  try_except
    (let* _ := for_each doc_ids (run_one run delete) ∅ in
     pure (get_json_result (DBool true) None None))
    (λ e, pure (server_error_response e)).
End document_app.
End document_app.

(** ** Predicates of the statements *)

(** The existence of a document and of its knowledge base. *)
Definition resolves (id : string) (kbid : string) (w : World) : Prop :=
  (∃ d, DocumentService.get_by_id id w = Some d ∧ doc_kb_id d = kbid) ∧
  is_Some (KnowledgebaseService.get_by_id kbid w).

(** The payload of a graph, as the graph pipeline writes it. *)

(** [x[field]] when [x] is an object and the value is a [str]. *)
Definition str_of (field : string) (x : Json) : option string :=
  match x with
  | JObj items =>
      match dict_get field items with
      | Some (JStr s) => Some s
      | _ => None
      end
  | _ => None
  end.

(** An object whose [field] is missing or a finite number (a [bool] is
    the number 0 or 1). *)
Definition ranked_by (field : string) (x : Json) : Prop :=
  match x with
  | JObj items =>
      match dict_get field items with
      | Some v => is_Some (kb_app.finite_key v)
      | None => True
      end
  | _ => False
  end.
(** The test of the edge filter, for an edge between strings and the
    set [ids] of strings. *)
Definition linked (ids : list string) (e : Json) : bool :=
  match str_of "source" e, str_of "target" e with
  | Some s, Some t =>
      negb (String.eqb s t) && bool_decide (s ∈ ids) && bool_decide (t ∈ ids)
  | _, _ => false
  end.

(** ** A sample environment and sample stores *)

Module sample.
Definition status_value (s : TaskStatus) : string :=
  match s with
  | UNSTART => "0"
  | RUNNING => "1"
  | CANCEL => "2"
  | DONE => "3"
  | FAIL => "4"
  end.

Definition status_value_inj : Inj (=) (=) status_value.
Proof. intros [] []; simpl; congruence. Defined.

Definition node (id : string) (pagerank : option Q) : Json :=
  JObj (("id", JStr id)
        :: match pagerank with
           | Some q => [("pagerank", JNum (Finite q))]
           | None => []
           end).

Definition edge (source target : string) (weight : option Q) : Json :=
  JObj (("source", JStr source) :: ("target", JStr target)
        :: match weight with
           | Some q => [("weight", JNum (Finite q))]
           | None => []
           end).

Definition n1 : Json := node "a" (Some (3 # 10)).
Definition n2 : Json := node "b" None.
Definition n3 : Json := node "c" (Some (9 # 10)).
Definition e1 : Json := edge "a" "c" (Some 2%Q).
Definition e2 : Json := edge "c" "c" (Some 9%Q).
Definition e3 : Json := edge "c" "b" (Some 5%Q).
Definition e4 : Json := edge "a" "z" None.

Definition graph1 : Json :=
  JObj [("nodes", JArr [n1; n2; n3]); ("edges", JArr [e1; e2; e3; e4])].

(** A graph whose second node has [null] for pagerank, and a graph whose
    second node has no id. *)
Definition graph_null : Json :=
  JObj [("nodes", JArr [n1; JObj [("id", JStr "b"); ("pagerank", JNull)]])].

Definition graph_no_id : Json :=
  JObj [("nodes", JArr [n1; JObj [("pagerank", JNum (Finite 1))]]);
        ("edges", JArr [e1])].

Definition search (w : World) (kwds : list string) (index kb : string)
    : list IndexEntry :=
  List.filter
    (λ e, docStoreConn.in_partition index kb e
          && match ie_knowledge_graph_kwd e with
             | Some kwd => bool_decide (kwd ∈ kwds)
             | None => false
             end)
    (index_entries w).

Definition env : Env := {|
  TaskStatus_value := status_value;
  TaskStatus_value_inj := status_value_inj;
  ParserType_TABLE := "table";
  PipelineTaskType_GRAPH_RAG := "GraphRAG";
  PipelineTaskType_RAPTOR := "RAPTOR";
  PipelineTaskType_MINDMAP := "Mindmap";
  FileSource_KNOWLEDGEBASE := "knowledgebase";
  GRAPH_RAPTOR_FAKE_DOC_ID := "graph_raptor_x";
  VALID_TASK_STATUS := ["0"; "1"; "2"; "3"; "4"];
  VALID_FILE_TYPES := ["pdf"; "doc"; "visual"];
  index_name := λ tenant_id, "ragflow_" ++ tenant_id;
  str_float := λ x, if Qeq_bool x (1 # 2) then "0.5" else "0.0";
  get_uuid := λ n, "task-" ++ String.string_of_list_ascii (repeat "x"%char n);
  json_loads :=
    λ s, if String.eqb s "graph1" then Some graph1
         else if String.eqb s "graph_null" then Some graph_null
         else if String.eqb s "graph_no_id" then Some graph_no_id
         else None;
  sorted_irregular := λ keys, Some (seq 0 (length keys));
  doc_accessible := λ _ _ _, true;
  doc_accessible4deletion := λ _ _ _, true;
  kb_accessible := λ _ _ _, true;
  retrievaler_search := search;
  kb_update_ok := λ id, negb (String.eqb id "K2");
  doc_update_ok := λ _, true;
  doc_delete_ok := λ _, true;
  docstore_update_ok := λ id, negb (String.eqb id "D2");
  storage_rm_raises :=
    λ _ name, if String.eqb name "d2.pdf" then Some "StorageError" else None;
  init_knowledgebase_docs := λ _ fs, fs;
  get_file_logs_by_kb_id := λ _, inr ([], 0%Z);
  get_dataset_logs_by_kb_id := λ _, inr ([], 0%Z);
|}.

Definition kb (id : string) (graphrag : option string) : Knowledgebase :=
  {| kbase_id := id; kb_tenant_id := "T"; kb_chunk_num := 10; kb_token_num := 100;
     kb_field_map := []; graphrag_task_id := graphrag;
     graphrag_task_finish_at := None; raptor_task_id := None;
     raptor_task_finish_at := None; mindmap_task_id := None;
     mindmap_task_finish_at := None |}.

Definition doc (id kb run : string) : Document :=
  {| doc_id := id; doc_kb_id := kb; doc_parser_id := "naive";
     doc_pipeline_id := None; doc_run := run; doc_status := "1";
     doc_progress := 1; doc_progress_msg := "done"; doc_chunk_num := 4;
     doc_token_num := 40; doc_process_duration := 5;
     doc_location := id ++ ".pdf" |}.

Definition entry (kb doc : string) (kwd : option string) (content : string)
    : IndexEntry :=
  {| ie_index := "ragflow_T"; ie_kb_id := kb; ie_doc_id := doc;
     ie_knowledge_graph_kwd := kwd; ie_available_int := 1;
     ie_content_with_weight := content |}.

Definition task (id doc : string) (progress : Q) : Task :=
  {| task_id := id; task_doc_id := doc; task_type := "parse";
     task_priority := 0; task_progress := progress; task_doc_ids := [] |}.

(** Knowledge base [K1] with a finished document [D1] and a running
    document [D2], their tasks and index entries, and the stored graph;
    its GraphRAG task [g1] is done.  Knowledge base [K2] has one document
    and no pointer, [K3] has no document and points to [g1], and [K4]
    points to the task [g2], which is half way. *)
Definition world : World :=
  {| documents := [doc "D1" "K1" "3"; doc "D2" "K1" "1"; doc "D3" "K2" "0";
                   doc "D4" "K4" "3"];
     tasks := [task "t1" "D1" 1; task "t2" "D2" (1 # 2);
               task "g1" "graph_raptor_x" 1; task "g2" "graph_raptor_x" (1 # 2)];
     knowledgebases := [kb "K1" (Some "g1"); kb "K2" None; kb "K3" (Some "g1");
                        kb "K4" (Some "g2")];
     index_partitions := [("ragflow_T", "K1")];
     index_entries :=
       [entry "K1" "D1" None "chunk"; entry "K1" "D2" None "chunk";
        entry "K1" "graph_raptor_x" (Some "graph") "graph1"];
     files := [{| file_id := "f2"; file_parent_id := "folder";
                  file_location := "d2.pdf";
                  file_source_type := "knowledgebase" |}];
     file2documents := [{| f2d_file_id := "f2"; f2d_document_id := "D2" |}];
     blobs := [("K1", "D1.pdf"); ("folder", "d2.pdf")];
     queue := []; warnings := []; uuids := 0 |}.
End sample.

(** [PipelineTaskType.X] for the kind [X]. *)
Definition type_of_kind {E : Env} (k : Kind) : string :=
  match k with
  | Graphrag => PipelineTaskType_GRAPH_RAG
  | Raptor => PipelineTaskType_RAPTOR
  | Mindmap => PipelineTaskType_MINDMAP
  end.

(** A record of the knowledge graph: tagged [graph], [subgraph], [entity]
    or [relation]. *)
Definition is_graph_artifact (e : IndexEntry) : bool :=
  match ie_knowledge_graph_kwd e with
  | Some kwd => bool_decide (kwd ∈ kb_app.graph_artifacts)
  | None => false
  end.

(** ** Further samples *)

(** The empty view [{"graph": {}, "mind_map": {}}]. *)
Definition empty_view : gmap string Json :=
  <["mind_map" := empty_graph]> (<["graph" := empty_graph]> ∅).

Module sample_more.
(** The sample environment with another retriever and other answers of
    the authorization checks. *)
Definition env_with
    (search : World → list string → string → string → list IndexEntry)
    (accessible accessible4deletion : World → string → string → bool) : Env := {|
  TaskStatus_value := sample.status_value;
  TaskStatus_value_inj := sample.status_value_inj;
  ParserType_TABLE := ParserType_TABLE (Env:=sample.env);
  PipelineTaskType_GRAPH_RAG := PipelineTaskType_GRAPH_RAG (Env:=sample.env);
  PipelineTaskType_RAPTOR := PipelineTaskType_RAPTOR (Env:=sample.env);
  PipelineTaskType_MINDMAP := PipelineTaskType_MINDMAP (Env:=sample.env);
  FileSource_KNOWLEDGEBASE := FileSource_KNOWLEDGEBASE (Env:=sample.env);
  GRAPH_RAPTOR_FAKE_DOC_ID := GRAPH_RAPTOR_FAKE_DOC_ID (Env:=sample.env);
  VALID_TASK_STATUS := VALID_TASK_STATUS (Env:=sample.env);
  VALID_FILE_TYPES := VALID_FILE_TYPES (Env:=sample.env);
  index_name := index_name (Env:=sample.env);
  str_float := str_float (Env:=sample.env);
  get_uuid := get_uuid (Env:=sample.env);
  json_loads := json_loads (Env:=sample.env);
  sorted_irregular := sorted_irregular (Env:=sample.env);
  doc_accessible := accessible;
  doc_accessible4deletion := accessible4deletion;
  kb_accessible := kb_accessible (Env:=sample.env);
  retrievaler_search := search;
  kb_update_ok := kb_update_ok (Env:=sample.env);
  doc_update_ok := doc_update_ok (Env:=sample.env);
  doc_delete_ok := doc_delete_ok (Env:=sample.env);
  docstore_update_ok := docstore_update_ok (Env:=sample.env);
  storage_rm_raises := storage_rm_raises (Env:=sample.env);
  init_knowledgebase_docs := init_knowledgebase_docs (Env:=sample.env);
  get_file_logs_by_kb_id := get_file_logs_by_kb_id (Env:=sample.env);
  get_dataset_logs_by_kb_id := get_dataset_logs_by_kb_id (Env:=sample.env);
|}.

(** A retriever that answers with a record tagged [mind_map]. *)
Definition mind_map_hit : IndexEntry :=
  sample.entry "K1" "graph_raptor_x" (Some "mind_map") "graph1".

Definition env_mind_map : Env :=
  env_with (λ _ _ _ _, [mind_map_hit]) (λ _ _ _, true) (λ _ _ _, true).

(** Nobody may touch the document [D2]. *)
Definition env_guarded : Env :=
  env_with sample.search
    (λ _ id _, negb (String.eqb id "D2")) (λ _ id _, negb (String.eqb id "D2")).

(** The sample stores with, for [K1], a graph in which a pagerank is
    [null]. *)
Definition world_null : World :=
  set_index_entries
    (λ _, [sample.entry "K1" "graph_raptor_x" (Some "graph") "graph_null"])
    sample.world.

(** The sample stores with a knowledge base [K5] whose GraphRAG pointer
    names a Task that is not in the ledger. *)
Definition world_dangling : World :=
  set_knowledgebases (λ kbs, (kbs ++ [sample.kb "K5" (Some "gone")])%list)
    (set_documents (λ ds, (ds ++ [sample.doc "D5" "K5" "0"])%list) sample.world).
End sample_more.

(** ** What a handler leaves alone *)

(** The stores that an outcome leaves. *)
Definition stores_of {A} (o : Outcome A) : World :=
  match o with
  | Next _ w => w
  | Return _ w => w
  | Raise _ w => w
  end.

(** [m], run on [w], leaves stores related to [w] by [R]. *)
Definition preserves_at {A} (R : World → World → Prop) (m : M A) (w : World)
    : Prop :=
  R w (stores_of (m w)).

(** The rows of the documents, the Task rows and the index records that
    belong to no document of [ids] are kept from [w] to [w']. *)
Definition keeps_others (ids : list string) (w w' : World) : Prop :=
  (∀ d, d ∈ documents w → doc_id d ∉ ids → d ∈ documents w') ∧
  (∀ t, t ∈ tasks w → task_doc_id t ∉ ids → t ∈ tasks w') ∧
  (∀ e, e ∈ index_entries w → ie_doc_id e ∉ ids → e ∈ index_entries w').

(** No message is queued and no Task row is added from [w] to [w']. *)
Definition no_new_work (w w' : World) : Prop :=
  queue w' = queue w ∧ ∀ t, t ∈ tasks w' → t ∈ tasks w.

(** The document rows of [w'] are those of [w], in the same knowledge
    bases, and the file records, the file linkage and the blobs are the
    same. *)
Definition same_holdings (w w' : World) : Prop :=
  map doc_id (documents w') = map doc_id (documents w) ∧
  map doc_kb_id (documents w') = map doc_kb_id (documents w) ∧
  files w' = files w ∧ file2documents w' = file2documents w ∧
  blobs w' = blobs w.

(** [w'] differs from [w] at most in the [status] of document rows and
    in the [available_int] of index records. *)
Definition same_but_status (w w' : World) : Prop :=
  map (set_doc_field (F_status "")) (documents w')
    = map (set_doc_field (F_status "")) (documents w) ∧
  map (docStoreConn.set_available_int 0) (index_entries w')
    = map (docStoreConn.set_available_int 0) (index_entries w) ∧
  tasks w' = tasks w ∧ knowledgebases w' = knowledgebases w ∧
  index_partitions w' = index_partitions w ∧
  files w' = files w ∧ file2documents w' = file2documents w ∧
  blobs w' = blobs w ∧ queue w' = queue w ∧ warnings w' = warnings w ∧
  uuids w' = uuids w.

(** * Properties *)

(** ** The stable descending sort *)

Section Sorted_facts.
Context {A : Type} (key : A → Q).

Lemma insert_desc_perm x l : insert_desc key x l ≡ₚ x :: l.
Proof.
  induction l as [|y l IH]; simpl; [done|].
  destruct (Qle_bool (key y) (key x)); [done|].
  rewrite IH. apply Permutation_swap.
Qed.

Lemma sorted_desc_perm l : sorted_desc key l ≡ₚ l.
Proof.
  induction l as [|x l IH]; simpl; [done|].
  rewrite insert_desc_perm. by rewrite IH.
Qed.

Lemma insert_desc_sorted x l :
  StronglySorted (desc key) l → StronglySorted (desc key) (insert_desc key x l).
Proof.
  induction l as [|y l IH]; simpl; intros Hs.
  - repeat constructor.
  - apply StronglySorted_cons in Hs as [Hy Hl].
    destruct (Qle_bool (key y) (key x)) eqn:E.
    + apply Qle_bool_iff in E.
      apply StronglySorted_cons. split.
      * constructor; [exact E|].
        eapply Forall_impl; [exact Hy|].
        intros z Hz. unfold desc in *. by apply Qle_trans with (key y).
      * apply StronglySorted_cons. done.
    + assert (key x <= key y)%Q as Hxy.
      { destruct (Qlt_le_dec (key x) (key y)) as [H|H]; [by apply Qlt_le_weak|].
        apply Qle_bool_iff in H. congruence. }
      apply StronglySorted_cons. split; [|by apply IH].
      rewrite insert_desc_perm. by constructor.
Qed.

Lemma sorted_desc_sorted l : StronglySorted (desc key) (sorted_desc key l).
Proof.
  induction l as [|x l IH]; simpl.
  - constructor.
  - by apply insert_desc_sorted.
Qed.

Lemma sorted_desc_length l : length (sorted_desc key l) = length l.
Proof. apply Permutation_length, sorted_desc_perm. Qed.

Lemma sorted_desc_elem_of x l : x ∈ sorted_desc key l ↔ x ∈ l.
Proof. by rewrite sorted_desc_perm. Qed.

(** [sorted(...)[:n]] is sorted, and its elements dominate the rest. *)
Lemma take_sorted_desc n l : StronglySorted (desc key) (take n (sorted_desc key l)).
Proof.
  pose proof (sorted_desc_sorted l) as Hs.
  rewrite <- (take_drop n (sorted_desc key l)) in Hs.
  by apply StronglySorted_app_1_l in Hs.
Qed.

Lemma take_sorted_desc_top n l a b :
  a ∈ take n (sorted_desc key l) → b ∈ drop n (sorted_desc key l) → desc key a b.
Proof.
  pose proof (sorted_desc_sorted l) as Hs.
  rewrite <- (take_drop n (sorted_desc key l)) in Hs.
  by apply StronglySorted_app_1_elem_of.
Qed.

Lemma take_drop_sorted_desc_perm n l :
  take n (sorted_desc key l) ++ drop n (sorted_desc key l) ≡ₚ l.
Proof. rewrite take_drop. apply sorted_desc_perm. Qed.
End Sorted_facts.

(** ** Running a handler *)

Lemma handle_return (m : M Response) w r w' :
  m w = Return r w' → handle m w = (Responded r, w').
Proof. unfold handle. by intros ->. Qed.

Lemma handle_next (m : M Response) w r w' :
  m w = Next r w' → handle m w = (Responded r, w').
Proof. unfold handle. by intros ->. Qed.

(** ** The knowledge-graph view *)

Lemma dict_get_set_eq k v items : dict_get k (dict_set k v items) = Some v.
Proof.
  unfold dict_get. induction items as [|[k' v'] items IH]; simpl.
  - by rewrite String.eqb_refl.
  - destruct (String.eqb k' k) eqn:Hk; simpl.
    + by rewrite String.eqb_refl.
    + by rewrite Hk.
Qed.

Lemma dict_get_set_ne k k' v items :
  k ≠ k' → dict_get k (dict_set k' v items) = dict_get k items.
Proof.
  intros Hne. unfold dict_get. induction items as [|[k1 v1] items IH]; simpl.
  - by rewrite (proj2 (String.eqb_neq k' k)).
  - destruct (String.eqb k1 k') eqn:Hk; simpl.
    + apply String.eqb_eq in Hk as ->.
      by rewrite (proj2 (String.eqb_neq k' k)).
    + destruct (String.eqb k1 k); [done|]. exact IH.
Qed.

Lemma exc_map_ok {A B} (f : A → Exc B) (g : A → B) l :
  Forall (λ x, f x = inr (g x)) l → exc_map f l = inr (g <$> l).
Proof.
  induction 1 as [|x l Hx _ IH]; simpl; [done|]. by rewrite Hx, IH.
Qed.

Lemma exc_filter_ok {A} (f : A → Exc bool) (p : A → bool) l :
  Forall (λ x, f x = inr (p x)) l → exc_filter f l = inr (List.filter p l).
Proof.
  induction 1 as [|x l Hx _ IH]; simpl; [done|]. rewrite Hx, IH. simpl.
  by destruct (p x).
Qed.

Lemma sorted_desc_short {A} (key : A → Q) (l : list A) :
  (length l < 2)%nat → sorted_desc key l = l.
Proof. destruct l as [|x [|y l]]; simpl; [done..|lia]. Qed.

Section graph_steps.
Context {E : Env}.
Import kb_app.

Lemma get_or_zero_ranked field x :
  ranked_by field x →
  ∃ k, get_or_zero field x = inr k ∧ finite_key k = Some (key_of field x).
Proof.
  destruct x as [| | | | |items]; try done. simpl. intros Hr.
  destruct (dict_get field items) as [v|]; simpl.
  - destruct Hr as [q Hq]. exists v. by rewrite Hq.
  - by eexists.
Qed.

Lemma finite_key_numeric k q : finite_key k = Some q → key_class k = numeric.
Proof. by destruct k. Qed.

(** On objects whose key is missing or a finite number, the sort of the
    language is the stable descending sort. *)
Lemma py_sorted_reverse_ranked field l :
  Forall (ranked_by field) l →
  py_sorted_reverse field l = inr (sorted_desc (key_of field) l).
Proof.
  intros Hl. unfold py_sorted_reverse.
  assert (∃ keys, exc_map (get_or_zero field) l = inr keys ∧
            Forall (λ k, is_Some (finite_key k)) keys) as (keys & -> & Hk).
  { induction Hl as [|x l Hx _ (keys & IH & Hk)]; simpl; [by exists []|].
    destruct (get_or_zero_ranked field x Hx) as (k & -> & Hf).
    rewrite IH. simpl. exists (k :: keys). split; [done|].
    constructor; [by rewrite Hf|done]. }
  simpl. destruct (length l <? 2)%nat eqn:Hlen.
  { apply Nat.ltb_lt in Hlen. by rewrite sorted_desc_short. }
  assert (Forall (λ k, key_class k = numeric) keys) as Hnum.
  { eapply Forall_impl; [exact Hk|]. intros k [q Hq]. by eapply finite_key_numeric. }
  assert (existsb (λ k, key_class_eqb (key_class k) unordered) keys = false) as ->.
  { clear -Hnum. induction Hnum as [|k keys Hc _ IH]; simpl; [done|].
    by rewrite Hc. }
  assert (match keys with
          | [] => true
          | k :: ks =>
              forallb (λ k', key_class_eqb (key_class k') (key_class k)) ks
          end = true) as ->.
  { destruct Hnum as [|k ks Hc Hks]; [done|]. rewrite Hc.
    clear -Hks. induction Hks as [|k' ks Hc' _ IH]; simpl; [done|].
    by rewrite Hc'. }
  simpl.
  assert (forallb (λ k, bool_decide (is_Some (finite_key k))) keys = true) as ->.
  { clear -Hk. induction Hk as [|k ks Hf _ IH]; simpl; [done|].
    by rewrite bool_decide_eq_true_2. }
  done.
Qed.

Lemma node_id_str n id : str_of "id" n = Some id → node_id n = inr (JStr id).
Proof.
  destruct n as [| | | | |items]; try done. unfold node_id. simpl.
  destruct (dict_get "id" items) as [[| | |s| |]|]; try done.
  by intros [= ->].
Qed.

Lemma existsb_same_str s ids :
  existsb (py_same (JStr s)) (JStr <$> ids) = bool_decide (s ∈ ids).
Proof.
  induction ids as [|i ids IH]; [done|].
  rewrite fmap_cons. cbn [existsb]. rewrite IH.
  change (py_same (JStr s) (JStr i)) with (String.eqb s i).
  destruct (String.eqb s i) eqn:Hs.
  - apply String.eqb_eq in Hs as ->. simpl.
    by rewrite bool_decide_eq_true_2 by left.
  - apply String.eqb_neq in Hs. simpl.
    apply bool_decide_ext. rewrite elem_of_cons. split; [by right|].
    by intros [?|?].
Qed.

Lemma subscript_str field e s :
  str_of field e = Some s → subscript field e = inr (JStr s).
Proof.
  destruct e as [| | | | |items]; try done. simpl.
  destruct (dict_get field items) as [[| | |s'| |]|]; try done.
  by intros [= ->].
Qed.

Lemma keep_edge_linked ids e :
  is_Some (str_of "source" e) → is_Some (str_of "target" e) →
  keep_edge (JStr <$> ids) e = inr (linked ids e).
Proof.
  intros [s Hs] [t Ht]. unfold linked, keep_edge. rewrite Hs, Ht.
  rewrite (subscript_str _ _ _ Hs), (subscript_str _ _ _ Ht).
  cbn [exc_bind].
  change (py_eq (JStr s) (JStr t)) with (String.eqb s t).
  destruct (String.eqb s t); [done|].
  unfold in_set. cbn [hashable exc_bind]. rewrite !existsb_same_str.
  by destruct (bool_decide (s ∈ ids)).
Qed.

Lemma node_ids_str ns :
  Forall (λ n, is_Some (str_of "id" n)) ns →
  exc_map node_id ns = inr (JStr <$> omap (str_of "id") ns).
Proof.
  induction 1 as [|n ns [id Hid] _ IH]; simpl; [done|].
  by rewrite (node_id_str n id Hid), IH, Hid.
Qed.

Lemma linked_spec ids e :
  linked ids e = true →
  ∃ s t, str_of "source" e = Some s ∧ str_of "target" e = Some t ∧
         s ≠ t ∧ s ∈ ids ∧ t ∈ ids.
Proof.
  unfold linked.
  destruct (str_of "source" e) as [s|]; [|done].
  destruct (str_of "target" e) as [t|]; [|done].
  intros Hc. apply andb_true_iff in Hc as [Hc Ht].
  apply andb_true_iff in Hc as [Hne Hs].
  apply negb_true_iff, String.eqb_neq in Hne.
  apply bool_decide_eq_true in Hs, Ht. by exists s, t.
Qed.

(** The ranking of a graph object whose nodes and edges are as the
    graph pipeline writes them. *)
Lemma rank_graph_regular items ns :
  dict_get "nodes" items = Some (JArr ns) →
  Forall (ranked_by "pagerank") ns →
  (∀ v, dict_get "edges" items = Some v →
     ∃ es, v = JArr es ∧
       Forall (λ n, is_Some (str_of "id" n)) ns ∧
       Forall (λ e, is_Some (str_of "source" e) ∧ is_Some (str_of "target" e) ∧
                    ranked_by "weight" e) es) →
  ∃ items',
    rank_graph (JObj items) = inr (JObj items') ∧
    dict_get "nodes" items'
      = Some (JArr (take 256 (sorted_desc pagerank_key ns))) ∧
    ∀ es, dict_get "edges" items = Some (JArr es) →
      dict_get "edges" items'
        = Some (JArr (take 128 (sorted_desc weight_key
             (List.filter
                (linked (omap (str_of "id")
                           (take 256 (sorted_desc pagerank_key ns)))) es)))).
Proof.
  intros Hnodes Hranked Hedges. unfold rank_graph. rewrite Hnodes.
  cbn [py_iter exc_bind]. rewrite (py_sorted_reverse_ranked _ _ Hranked).
  cbn [exc_bind]. fold pagerank_key.
  set (ns' := take 256 (sorted_desc pagerank_key ns)).
  rewrite (dict_get_set_ne "edges" "nodes") by done.
  destruct (dict_get "edges" items) as [v|] eqn:He.
  - destruct (Hedges v eq_refl) as (es & -> & Hids & Hes).
    assert (Forall (λ n, is_Some (str_of "id" n)) ns') as Hids'.
    { subst ns'. apply Forall_take. by rewrite sorted_desc_perm. }
    rewrite (node_ids_str _ Hids'). cbn [py_iter exc_bind].
    set (ids := omap (str_of "id") ns').
    rewrite (exc_filter_ok _ (linked ids)).
    2:{ eapply Forall_impl; [exact Hes|]. intros e (Hs & Ht & _).
        by apply keep_edge_linked. }
    cbn [exc_bind]. rewrite py_sorted_reverse_ranked.
    2:{ apply Forall_forall. intros e Hin.
        apply list_elem_of_In, filter_In in Hin as [Hin _].
        apply list_elem_of_In in Hin.
        by destruct (proj1 (Forall_forall _ _) Hes e Hin) as (_ & _ & Hw). }
    cbn [exc_bind]. fold weight_key. eexists. split; [reflexivity|]. split.
    + rewrite (dict_get_set_ne "nodes" "edges") by done. apply dict_get_set_eq.
    + intros es0 [= <-]. apply dict_get_set_eq.
  - eexists. split; [reflexivity|]. split; [apply dict_get_set_eq|done].
Qed.

End graph_steps.


(** The sample graph: the self-loop and the edge to an unknown node are
    dropped, the remaining edges are ordered by weight. *)
Example rank_graph_sample :
  kb_app.rank_graph (E:=sample.env) sample.graph1
  = inr (JObj [("nodes", JArr [sample.n3; sample.n1; sample.n2]);
               ("edges", JArr [sample.e3; sample.e1])]).
Proof. vm_compute. reflexivity. Qed.

(** Payloads that are not as the graph pipeline writes them: with two
    nodes of which one has [null] for pagerank the sort raises
    [TypeError], and with an edge list and a node without id the set of
    ids raises [KeyError]; neither is caught by the handler. *)
Example rank_graph_raises :
  kb_app.rank_graph (E:=sample.env) sample.graph_null = inl "TypeError" ∧
  kb_app.rank_graph (E:=sample.env) sample.graph_no_id = inl "KeyError" ∧
  handle (kb_app.knowledge_graph (E:=sample.env) "K1" "u") sample_more.world_null
    = (Unhandled "TypeError", sample_more.world_null).
Proof. repeat split; vm_compute; reflexivity. Qed.

(** ** The date filter of the pipeline logs *)

Section pipeline_logs_facts.
Context {E : Env}.
Import kb_app.

(** C9.  In [list_pipeline_logs] and [list_pipeline_dataset_logs], a
    request with a knowledge-base id is answered with [Create data filter
    is abnormal.] whenever [create_date_to] is strictly greater than
    [create_date_from] as a string, and is never answered so when it is
    not: a range that ends after its start is rejected, a range that
    ends at or before its start passes the check. *)
Theorem create_date_filter operation_status types suffix kb_id keywords page
    page_size orderby dsc create_date_from create_date_to w :
  truthy kb_id = true →
  (str_gt create_date_to create_date_from = true →
     handle (list_pipeline_logs operation_status types suffix kb_id keywords
               page page_size orderby dsc create_date_from create_date_to) w
       = (Responded create_date_abnormal, w) ∧
     handle (list_pipeline_dataset_logs operation_status kb_id
               page page_size orderby dsc create_date_from create_date_to) w
       = (Responded create_date_abnormal, w)) ∧
  (str_gt create_date_to create_date_from = false →
     (handle (list_pipeline_logs operation_status types suffix kb_id keywords
                page page_size orderby dsc create_date_from create_date_to) w).1
       ≠ Responded create_date_abnormal ∧
     (handle (list_pipeline_dataset_logs operation_status kb_id
                page page_size orderby dsc create_date_from create_date_to) w).1
       ≠ Responded create_date_abnormal).
Proof.
  intros Hkb. split; intros Hgt.
  - unfold handle, list_pipeline_logs, list_pipeline_dataset_logs, return_.
    rewrite Hkb, Hgt. simpl. done.
  - unfold handle, list_pipeline_logs, list_pipeline_dataset_logs, return_, pure,
      logs_reply, create_date_abnormal.
    rewrite Hkb, Hgt. simpl.
    split.
    + repeat case_match; simplify_eq; intros ?; simplify_eq.
    + repeat case_match; simplify_eq; intros ?; simplify_eq.
Qed.
End pipeline_logs_facts.

Lemma create_date_filter_witness :
  handle (kb_app.list_pipeline_logs (E:=sample.env) [] [] [] "K1" "" 0 0
            "create_time" true "2024-01-01" "2024-12-31") sample.world
    = (Responded kb_app.create_date_abnormal, sample.world)
  ∧ (handle (kb_app.list_pipeline_logs (E:=sample.env) [] [] [] "K1" "" 0 0
               "create_time" true "2024-12-31" "2024-01-01") sample.world).1
    ≠ Responded kb_app.create_date_abnormal.
Proof.
  split.
  - apply (create_date_filter (E:=sample.env) [] [] [] "K1" "" 0 0
             "create_time" true "2024-01-01" "2024-12-31" sample.world);
      reflexivity.
  - apply (create_date_filter (E:=sample.env) [] [] [] "K1" "" 0 0
             "create_time" true "2024-12-31" "2024-01-01" sample.world);
      reflexivity.
Defined.

(** ** Unbinding a pointer *)

Section unbind_facts.
Context {E : Env}.
Import kb_app.

(** C10.  An [unbind_task] request whose knowledge-base id resolves to
    no knowledge base is answered with success, [data = True], whatever
    its [pipeline_task_type], and changes nothing: no pointer is
    cleared and no index record is deleted. *)
Theorem unbind_task_unknown_kb kb_id pipeline_task_type w :
  truthy kb_id = true →
  KnowledgebaseService.get_by_id kb_id w = None →
  handle (delete_kb_task kb_id pipeline_task_type) w
    = (Responded (get_json_result (DBool true) None None), w).
Proof.
  intros Hid Hkb. unfold handle, delete_kb_task, bind, read, return_.
  rewrite Hid. simpl. by rewrite Hkb.
Qed.
End unbind_facts.

Lemma unbind_task_unknown_kb_witness :
  handle (kb_app.delete_kb_task (E:=sample.env) "K9" "no such type") sample.world
    = (Responded (get_json_result (DBool true) None None), sample.world).
Proof.
  apply (unbind_task_unknown_kb (E:=sample.env) "K9" "no such type" sample.world);
    reflexivity.
Defined.

(** ** Aggregate dispatch *)

Section dispatch_facts.
Context {E : Env}.
Import kb_app.

Lemma run_aggregate_conflict k kb_id w kb tid t :
  truthy kb_id = true →
  KnowledgebaseService.get_by_id kb_id w = Some kb →
  pointer k kb = Some tid → truthy tid = true →
  TaskService.get_by_id tid w = Some t →
  in_terminal (task_progress t) = false →
  run_aggregate k kb_id w = Return (in_progress k tid (task_progress t)) w.
Proof.
  intros Hid Hkb Hp Htid Ht Hterm.
  unfold run_aggregate, bind, read, return_. rewrite Hid. simpl. rewrite Hkb, Hp.
  simpl. rewrite Htid, Ht. simpl. by rewrite Hterm.
Qed.

(** The request passes the single-flight check: the pointer is unset, or
    names no Task, or names a Task that is done or failed. *)
Lemma run_aggregate_pass k kb_id w kb :
  truthy kb_id = true →
  KnowledgebaseService.get_by_id kb_id w = Some kb →
  (∀ tid t, pointer k kb = Some tid → truthy tid = true →
     TaskService.get_by_id tid w = Some t →
     in_terminal (task_progress t) = true) →
  ∃ w0,
    documents w0 = documents w ∧ tasks w0 = tasks w ∧
    knowledgebases w0 = knowledgebases w ∧ uuids w0 = uuids w ∧
    (w0 = w ∨ ∃ tid, pointer k kb = Some tid ∧ TaskService.get_by_id tid w = None) ∧
    run_aggregate k kb_id w =
      match DocumentService.get_by_kb_id kb_id w with
      | [] =>
          Return (get_error_data_result ("No documents in Knowledgebase " ++ kb_id)) w0
      | sample_document :: _ =>
          let r :=
            DocumentService.queue_raptor_o_graphrag_tasks sample_document (ty k) 0
              GRAPH_RAPTOR_FAKE_DOC_ID
              (map doc_id (DocumentService.get_by_kb_id kb_id w)) w0 in
          let s :=
            KnowledgebaseService.update_by_id (kbase_id kb)
              [(pointer_field k, Some r.1)] r.2 in
          Next (get_json_result (DField (pointer_field k) r.1) None None)
            (if s.1 then s.2
             else logging_warning
                    ("Cannot save " ++ pointer_field k ++ " for kb " ++ kb_id) s.2)
      end.
Proof.
  intros Hid Hkb Hfree.
  unfold run_aggregate, bind, read, return_. rewrite Hid. simpl. rewrite Hkb.
  destruct (pointer k kb) as [tid|] eqn:Hp; simpl.
  2:{ exists w. repeat split; auto.
      unfold DocumentService.get_by_kb_id.
      destruct (List.filter _ (documents w)); [done|].
      unfold call, when, pure, write, bind.
      repeat (case_match; simplify_eq/=); done. }
  destruct (truthy tid) eqn:Htid; simpl.
  2:{ exists w. repeat split; auto.
      unfold DocumentService.get_by_kb_id.
      destruct (List.filter _ (documents w)); [done|].
      unfold call, when, pure, write, bind.
      repeat (case_match; simplify_eq/=); done. }
  destruct (TaskService.get_by_id tid w) as [t|] eqn:Ht; simpl.
  - rewrite (Hfree tid t); auto. simpl.
    exists w. repeat split; auto.
    unfold DocumentService.get_by_kb_id.
    destruct (List.filter _ (documents w)); [done|].
    unfold call, when, pure, write, bind.
    repeat (case_match; simplify_eq/=); done.
  - eexists (logging_warning _ w). repeat split; eauto.
    unfold DocumentService.get_by_kb_id. simpl.
    destruct (List.filter _ (documents w)); [done|].
    unfold call, when, pure, write, bind.
    repeat (case_match; simplify_eq/=); done.
Qed.

(** The request passes the single-flight check, so its answer [Hr] cannot
    be the in-progress error. *)
Ltac passes_check Hr Hp :=
  let Hrun := fresh "Hrun" in
  match type of Hr with
  | context [handle (kb_app.run_aggregate ?k ?kb_id) ?w] =>
      match goal with
      | Hid : truthy kb_id = true,
        Hkb : KnowledgebaseService.get_by_id kb_id w = Some ?kb |- _ =>
          destruct (run_aggregate_pass k kb_id w kb Hid Hkb)
            as (? & _ & _ & _ & _ & _ & Hrun);
          [ intros ? ? Hp'; rewrite Hp in Hp'; intros; simplify_eq; congruence
          | unfold handle in Hr; rewrite Hrun in Hr;
            unfold kb_app.in_progress in Hr;
            destruct (DocumentService.get_by_kb_id kb_id w); simplify_eq/= ]
      end
  end.

Lemma queue_aggregate_tasks d k ids w :
  tasks (DocumentService.queue_raptor_o_graphrag_tasks d (ty k) 0
           GRAPH_RAPTOR_FAKE_DOC_ID ids w).2
  = (tasks w ++ [TaskService.new_task (get_uuid (uuids w))
                   GRAPH_RAPTOR_FAKE_DOC_ID (ty k) 0 ids])%list.
Proof. reflexivity. Qed.

Lemma kb_update_tasks id flds w :
  tasks (KnowledgebaseService.update_by_id id flds w).2 = tasks w.
Proof. unfold KnowledgebaseService.update_by_id. by case_match. Qed.

(** C1, as amended.  For a knowledge base that exists and each aggregate
    kind, a dispatch is answered with the in-progress error, which names
    the Task, exactly when the pointer of that kind is set, the Task it
    names exists and the progress of that Task is neither -1 nor 1.  Once
    that Task is done (1) or failed (-1), a dispatch on a knowledge base
    with at least one document succeeds: it creates the aggregate Task
    and answers with its id. *)
Theorem single_flight k kb_id w kb :
  truthy kb_id = true →
  KnowledgebaseService.get_by_id kb_id w = Some kb →
  ((∃ tid p, (handle (run_aggregate k kb_id) w).1 = Responded (in_progress k tid p))
   ↔ (∃ tid t, pointer k kb = Some tid ∧ truthy tid = true ∧
        TaskService.get_by_id tid w = Some t ∧
        in_terminal (task_progress t) = false)) ∧
  (∀ tid t,
     pointer k kb = Some tid → truthy tid = true →
     TaskService.get_by_id tid w = Some t →
     in_terminal (task_progress t) = false →
     handle (run_aggregate k kb_id) w
       = (Responded (in_progress k tid (task_progress t)), w)) ∧
  (∀ tid t,
     pointer k kb = Some tid →
     TaskService.get_by_id tid w = Some t →
     in_terminal (task_progress t) = true →
     DocumentService.get_by_kb_id kb_id w ≠ [] →
     ∃ w',
       handle (run_aggregate k kb_id) w
         = (Responded (get_json_result
              (DField (pointer_field k) (get_uuid (uuids w))) None None), w') ∧
       tasks w'
         = (tasks w ++ [TaskService.new_task (get_uuid (uuids w))
                          GRAPH_RAPTOR_FAKE_DOC_ID (ty k) 0
                          (map doc_id (DocumentService.get_by_kb_id kb_id w))])%list).
Proof.
  intros Hid Hkb.
  assert (∀ tid t,
     pointer k kb = Some tid → truthy tid = true →
     TaskService.get_by_id tid w = Some t →
     in_terminal (task_progress t) = false →
     handle (run_aggregate k kb_id) w
       = (Responded (in_progress k tid (task_progress t)), w)) as Hconflict.
  { intros tid t Hp Htid Ht Hterm. apply handle_return.
    by apply run_aggregate_conflict with kb. }
  split; [|split; [exact Hconflict|]].
  - split.
    + intros (tid' & p & Hr).
      destruct (pointer k kb) as [tid|] eqn:Hp; [|passes_check Hr Hp].
      destruct (truthy tid) eqn:Htid; [|passes_check Hr Hp].
      destruct (TaskService.get_by_id tid w) as [t|] eqn:Ht; [|passes_check Hr Hp].
      destruct (in_terminal (task_progress t)) eqn:Hterm; [passes_check Hr Hp|].
      by exists tid, t.
    + intros (tid & t & Hp & Htid & Ht & Hterm).
      exists tid, (task_progress t). by rewrite (Hconflict tid t).
  - intros tid t Hp Ht Hterm Hdocs.
    destruct (run_aggregate_pass k kb_id w kb Hid Hkb)
      as (w0 & _ & Htasks & _ & Huuid & Hw0 & Hrun).
    { intros ? ? Hp' _ Ht'. rewrite Hp in Hp'. simplify_eq; congruence. }
    destruct (DocumentService.get_by_kb_id kb_id w) as [|d docs] eqn:Hd; [done|].
    cbv zeta in Hrun.
    set (r := DocumentService.queue_raptor_o_graphrag_tasks d (ty k) 0
                GRAPH_RAPTOR_FAKE_DOC_ID (map doc_id (d :: docs)) w0) in *.
    set (s := KnowledgebaseService.update_by_id (kbase_id kb)
                [(pointer_field k, Some r.1)] r.2) in *.
    assert (r.1 = get_uuid (uuids w)) as Hr1 by (unfold r; simpl; by rewrite Huuid).
    eexists. split.
    + apply handle_next. rewrite Hrun, Hr1. reflexivity.
    + transitivity (tasks s.2); [by destruct s.1|].
      unfold s. rewrite kb_update_tasks. unfold r.
      by rewrite queue_aggregate_tasks, Htasks, Huuid.
Qed.

(** C7.  When a dispatch goes through and the write of the new Task id
    into the pointer of the knowledge base fails, the request is still
    answered with the id of the new Task, the Task stays in the ledger,
    the pointer is left as it was, and the failure is only logged. *)
Theorem pointer_write_failure k kb_id w kb d docs :
  truthy kb_id = true →
  KnowledgebaseService.get_by_id kb_id w = Some kb →
  (∀ tid t, pointer k kb = Some tid → truthy tid = true →
     TaskService.get_by_id tid w = Some t →
     in_terminal (task_progress t) = true) →
  DocumentService.get_by_kb_id kb_id w = d :: docs →
  kb_update_ok (kbase_id kb) = false →
  ∃ w',
    handle (run_aggregate k kb_id) w
      = (Responded (get_json_result
           (DField (pointer_field k) (get_uuid (uuids w))) None None), w') ∧
    tasks w'
      = (tasks w ++ [TaskService.new_task (get_uuid (uuids w))
                       GRAPH_RAPTOR_FAKE_DOC_ID (ty k) 0
                       (map doc_id (d :: docs))])%list ∧
    knowledgebases w' = knowledgebases w ∧
    last (warnings w')
      = Some ("Cannot save " ++ pointer_field k ++ " for kb " ++ kb_id).
Proof.
  intros Hid Hkb Hfree Hdocs Hfail.
  destruct (run_aggregate_pass k kb_id w kb Hid Hkb Hfree)
    as (w0 & _ & Htasks & Hkbs & Huuid & _ & Hrun).
  rewrite Hdocs in Hrun. cbv zeta in Hrun.
  unfold KnowledgebaseService.update_by_id in Hrun. rewrite Hfail in Hrun.
  simpl in Hrun. rewrite Huuid in Hrun.
  eexists. split; [apply handle_next; exact Hrun|].
  simpl. rewrite Htasks, Hkbs, last_snoc. done.
Qed.
End dispatch_facts.

Lemma single_flight_witness :
  ∃ w',
    handle (kb_app.run_graphrag (E:=sample.env) "K1") sample.world
      = (Responded (get_json_result (DField "graphrag_task_id" "task-") None None),
         w') ∧
    tasks w'
      = (tasks sample.world
         ++ [TaskService.new_task "task-" "graph_raptor_x" "graphrag" 0
               ["D1"; "D2"]])%list.
Proof.
  destruct (single_flight (E:=sample.env) Graphrag "K1" sample.world
              (sample.kb "K1" (Some "g1"))) as (_ & _ & Hdone);
    [reflexivity..|].
  apply (Hdone "g1" (sample.task "g1" "graph_raptor_x" 1));
    [reflexivity..|discriminate].
Defined.

(** The dispatch in the scenario of the specification: while the Task
    [g2] of [K4] is half way, a new dispatch is refused and names [g2]. *)
Example single_flight_in_progress :
  handle (kb_app.run_graphrag (E:=sample.env) "K4") sample.world
  = (Responded (get_error_data_result
       "Task g2 in progress with status 0.5. A Graph Task is already running."),
     sample.world).
Proof. vm_compute. reflexivity. Qed.

(** C1, as stated, fails: the GraphRAG Task [g1] that [K3] points to is
    done, yet the dispatch does not succeed, because [K3] has no
    document. *)
Lemma single_flight_counterexample :
  KnowledgebaseService.get_by_id "K3" sample.world
    = Some (sample.kb "K3" (Some "g1")) ∧
  TaskService.get_by_id "g1" sample.world
    = Some (sample.task "g1" "graph_raptor_x" 1) ∧
  in_terminal 1 = true ∧
  handle (kb_app.run_graphrag (E:=sample.env) "K3") sample.world
    = (Responded (get_error_data_result "No documents in Knowledgebase K3"),
       sample.world).
Proof. vm_compute. repeat split. Qed.

Lemma pointer_write_failure_witness :
  ∃ w',
    handle (kb_app.run_raptor (E:=sample.env) "K2") sample.world
      = (Responded (get_json_result (DField "raptor_task_id" "task-") None None),
         w') ∧
    tasks w'
      = (tasks sample.world
         ++ [TaskService.new_task "task-" "graph_raptor_x" "raptor" 0 ["D3"]])%list ∧
    knowledgebases w' = knowledgebases sample.world ∧
    last (warnings w') = Some "Cannot save raptor_task_id for kb K2".
Proof.
  apply (pointer_write_failure (E:=sample.env) Raptor "K2" sample.world
           (sample.kb "K2" None) (sample.doc "D3" "K2" "0") []);
    try reflexivity.
  intros tid t Hp. discriminate Hp.
Defined.

(** ** Changing the status of documents *)

Lemma find_map_stable {A} (p : A → bool) (f : A → A) (l : list A) :
  (∀ x, p (f x) = p x) → List.find p (map f l) = f <$> List.find p l.
Proof.
  intros Hp. induction l as [|x l IH]; simpl; [done|].
  rewrite Hp. by destruct (p x).
Qed.

Lemma set_doc_fields_id info d : doc_id (set_doc_fields info d) = doc_id d.
Proof.
  unfold set_doc_fields. revert d.
  induction info as [|f info IH]; intros d; simpl; [done|]. by rewrite IH.
Qed.

Lemma set_doc_fields_kb_id info d : doc_kb_id (set_doc_fields info d) = doc_kb_id d.
Proof.
  unfold set_doc_fields. revert d.
  induction info as [|f info IH]; intros d; simpl; [done|]. by rewrite IH.
Qed.

Section change_status_facts.
Context {E : Env}.
Import document_app.

Lemma doc_update_lookup id info j w :
  DocumentService.get_by_id j (DocumentService.update_by_id id info w).2
  = (if (DocumentService.update_by_id id info w).1
     then DocumentService.update_row id (set_doc_fields info)
     else λ d, d) <$> DocumentService.get_by_id j w.
Proof.
  unfold DocumentService.update_by_id.
  destruct (doc_update_ok id && _); simpl.
  - unfold DocumentService.get_by_id. simpl. apply find_map_stable.
    intros d. unfold DocumentService.update_row.
    destruct (bool_decide (doc_id d = id)); [|done].
    by rewrite set_doc_fields_id.
  - by destruct (DocumentService.get_by_id j w).
Qed.


(** A document that is found stays found, in the same knowledge base,
    after an update of any document. *)
Lemma doc_update_keeps id info j w d :
  DocumentService.get_by_id j w = Some d →
  ∃ d', DocumentService.get_by_id j (DocumentService.update_by_id id info w).2
          = Some d' ∧ doc_kb_id d' = doc_kb_id d.
Proof.
  intros Hd. rewrite doc_update_lookup, Hd. simpl. eexists. split; [done|].
  destruct (DocumentService.update_by_id id info w).1; [|done].
  unfold DocumentService.update_row.
  destruct (bool_decide (doc_id d = id)); [|done].
  apply set_doc_fields_kb_id.
Qed.

Lemma doc_update_kbs id info w :
  knowledgebases (DocumentService.update_by_id id info w).2 = knowledgebases w.
Proof. unfold DocumentService.update_by_id. by case_match. Qed.

Lemma doc_update_ok_found id info w d :
  doc_update_ok id = true → DocumentService.get_by_id id w = Some d →
  (DocumentService.update_by_id id info w).1 = true.
Proof.
  intros Hok Hd. unfold DocumentService.update_by_id. rewrite Hok, Hd. done.
Qed.

Lemma docstore_update_docs id v index kb w :
  documents (docStoreConn.update id v index kb w).2 = documents w ∧
  knowledgebases (docStoreConn.update id v index kb w).2 = knowledgebases w.
Proof. unfold docStoreConn.update. by case_match. Qed.

(** One iteration always falls through, touches the entry of its own id
    only, and keeps the documents and knowledge bases resolvable. *)
Lemma change_status_one_next status user id result w :
  ∃ result' w',
    change_status_one status user id result w = Next result' w' ∧
    (∀ j, j ≠ id → result' !! j = result !! j) ∧
    (∀ j kbid, resolves j kbid w → resolves j kbid w').
Proof.
  unfold change_status_one, bind, read, try_except, pure, call.
  destruct (doc_accessible w id user); simpl.
  2:{ eexists _, _. split; [done|]. split; [|done].
      intros j Hj. by rewrite lookup_insert_ne. }
  destruct (DocumentService.get_by_id id w) as [d|] eqn:Hd; simpl.
  2:{ eexists _, _. split; [done|]. split; [|done].
      intros j Hj. by rewrite lookup_insert_ne. }
  destruct (KnowledgebaseService.get_by_id (doc_kb_id d) w) as [kb|] eqn:Hkb; simpl.
  2:{ eexists _, _. split; [done|]. split; [|done].
      intros j Hj. by rewrite lookup_insert_ne. }
  pose proof (doc_update_keeps id [F_status status] ) as Hkeep.
  pose proof (doc_update_kbs id [F_status status] w) as Hkbs.
  destruct (DocumentService.update_by_id id [F_status status] w) as [upd w1] eqn:Hupd.
  assert (∀ j kbid, resolves j kbid w → resolves j kbid w1) as Hres.
  { intros j kbid [(dj & Hdj & Hk) Hkbj]. split.
    - destruct (Hkeep j w dj Hdj) as (d' & Hd' & Hk'). rewrite Hupd in Hd'.
      exists d'. split; [done|congruence].
    - unfold KnowledgebaseService.get_by_id in *. simpl in Hkbs. by rewrite Hkbs. }
  destruct upd; simpl.
  2:{ eexists _, _. split; [done|]. split; [|done].
      intros j Hj. by rewrite lookup_insert_ne. }
  pose proof (docstore_update_docs id (int_of_status status)
                (index_name (kb_tenant_id kb)) (doc_kb_id d) w1) as [Hd2 Hk2].
  destruct (docStoreConn.update id _ _ _ w1) as [ind w2] eqn:Hind. simpl in *.
  eexists _, _. split; [done|]. split.
  - intros j Hj. rewrite lookup_insert_ne by done.
    destruct ind; simpl; [done|]. by rewrite lookup_insert_ne.
  - intros j kbid Hr. apply Hres in Hr.
    unfold resolves, DocumentService.get_by_id, KnowledgebaseService.get_by_id in *.
    by rewrite Hd2, Hk2.
Qed.

(** An iteration for a document that passes every check up to the
    update of its record ends with the status entry, whatever the search
    index answers. *)
Lemma change_status_one_status status user id result w kbid :
  doc_accessible w id user = true →
  resolves id kbid w →
  doc_update_ok id = true →
  ∃ result' w',
    change_status_one status user id result w = Next result' w' ∧
    result' !! id = Some (status_entry status).
Proof.
  intros Hacc [(d & Hd & Hk) [kb Hkb]] Hok.
  unfold change_status_one, bind, read, try_except, pure, call.
  rewrite Hacc. simpl. rewrite Hd. simpl. rewrite Hk, Hkb. simpl.
  pose proof (doc_update_ok_found id [F_status status] w d Hok Hd) as Hupd.
  destruct (DocumentService.update_by_id id [F_status status] w) as [upd w1].
  simpl in Hupd. subst upd. simpl.
  destruct (docStoreConn.update id _ _ _ w1) as [ind w2].
  eexists _, _. split; [done|]. apply lookup_insert_eq.
Qed.

Lemma change_status_loop status user id kbid doc_ids :
  (∀ w', doc_accessible w' id user = true) →
  doc_update_ok id = true →
  ∀ result w,
    resolves id kbid w →
    ∃ result' w',
      for_each doc_ids (change_status_one status user) result w
        = Next result' w' ∧
      (id ∈ doc_ids ∨ result !! id = Some (status_entry status) →
       result' !! id = Some (status_entry status)).
Proof.
  intros Hacc Hok. induction doc_ids as [|j l IH]; intros result w Hres.
  - exists result, w. split; [done|]. intros [Hin|Hr]; [|done].
    by apply elem_of_nil in Hin.
  - simpl. unfold bind.
    destruct (change_status_one_next status user j result w)
      as (r1 & w1 & Hone & Hother & Hkeep).
    rewrite Hone.
    destruct (IH r1 w1 (Hkeep _ _ Hres)) as (r2 & w2 & Hloop & Hr2).
    exists r2, w2. split; [done|]. intros Hin. apply Hr2.
    destruct (decide (j = id)) as [->|Hne].
    + right.
      destruct (change_status_one_status status user id result w kbid
                  (Hacc w) Hres Hok) as (r1' & w1' & Hone' & Hst).
      rewrite Hone in Hone'. by simplify_eq.
    + destruct Hin as [Hin|Hr].
      * left. apply elem_of_cons in Hin as [->|Hin]; [done|exact Hin].
      * right. by rewrite Hother.
Qed.

(** C8.  For a document id of the request that passes authorization,
    whose document and knowledge base are found and whose record update
    succeeds, the entry of the result is [{"status": status}], whether or
    not the update of [available_int] in the search index succeeds: when
    it fails, the error entry that is written is overwritten at once by
    the status entry, and no error entry for that id is returned. *)
Theorem change_status_index_failure_hidden doc_ids status user w doc_id kbid :
  status = "0" ∨ status = "1" →
  doc_id ∈ doc_ids →
  (∀ w', doc_accessible w' doc_id user = true) →
  resolves doc_id kbid w →
  doc_update_ok doc_id = true →
  (∀ result w0 d kb,
     doc_accessible w0 doc_id user = true →
     DocumentService.get_by_id doc_id w0 = Some d →
     KnowledgebaseService.get_by_id (doc_kb_id d) w0 = Some kb →
     docstore_update_ok doc_id = false →
     ∃ w1,
       change_status_one status user doc_id result w0
         = Next (<[doc_id := status_entry status]>
                   (<[doc_id := error_entry "Database error (docStore update)!"]>
                      result)) w1) ∧
  ∃ result w',
    handle (change_status doc_ids status user) w
      = (Responded (get_json_result (DResult result) None None), w') ∧
    result !! doc_id = Some (status_entry status) ∧
    ∀ msg, result !! doc_id ≠ Some (error_entry msg).
Proof.
  intros Hstatus Hin Hacc Hres Hok. split.
  - intros result w0 d kb Hacc0 Hd Hkb Hfail.
    unfold change_status_one, bind, read, try_except, pure, call.
    rewrite Hacc0. simpl. rewrite Hd. simpl. rewrite Hkb. simpl.
    pose proof (doc_update_ok_found doc_id [F_status status] w0 d Hok Hd) as Hupd.
    destruct (DocumentService.update_by_id doc_id [F_status status] w0)
      as [upd w1].
    simpl in Hupd. subst upd. simpl.
    unfold docStoreConn.update. rewrite Hfail. simpl. by eexists.
  - destruct (change_status_loop status user doc_id kbid doc_ids Hacc Hok ∅ w Hres)
      as (result & w' & Hloop & Hst).
    exists result, w'. split; [|split].
    + apply handle_next. unfold change_status, bind, pure.
      rewrite bool_decide_eq_true_2.
      * simpl. by rewrite Hloop.
      * destruct Hstatus as [-> | ->]; set_solver.
    + apply Hst. by left.
    + intros msg. rewrite Hst by (by left). intros Hm.
      assert (status_entry status = error_entry msg) as Heq by congruence.
      apply (f_equal (λ m : gmap string string, m !! "status")) in Heq.
      unfold status_entry, error_entry in Heq.
      rewrite lookup_singleton_eq, lookup_singleton_ne in Heq; done.
Qed.
End change_status_facts.

Lemma change_status_index_failure_hidden_witness :
  ∃ w',
    handle (document_app.change_status (E:=sample.env) ["D1"; "D2"] "0" "u")
      sample.world
    = (Responded (get_json_result
         (DResult (<["D2" := document_app.status_entry "0"]>
                     (<["D1" := document_app.status_entry "0"]> ∅))) None None),
       w') ∧
    docstore_update_ok (Env:=sample.env) "D2" = false.
Proof.
  destruct (change_status_index_failure_hidden (E:=sample.env) ["D1"; "D2"] "0"
              "u" sample.world "D2" "K1") as (_ & result & w' & Hh & _).
  - by left.
  - set_solver.
  - reflexivity.
  - split; [by eexists|by eexists].
  - reflexivity.
  - exists w'. split; [|reflexivity].
    rewrite Hh. f_equal. vm_compute in Hh. by simplify_eq.
Defined.

(** ** Running and cancelling documents *)

Lemma filter_filter_same {A} (p : A → bool) (l : list A) :
  List.filter p (List.filter p l) = List.filter p l.
Proof.
  induction l as [|x l IH]; simpl; [done|].
  destruct (p x) eqn:Hp; simpl; [|done]. by rewrite Hp, IH.
Qed.

Section run_facts.
Context {E : Env}.
Import document_app.

Lemma doc_update_tasks id info w :
  tasks (DocumentService.update_by_id id info w).2 = tasks w.
Proof. unfold DocumentService.update_by_id. by case_match. Qed.

Lemma status_value_ne a b : a ≠ b → TaskStatus_value a ≠ TaskStatus_value b.
Proof. intros Hne Heq. by apply Hne, (inj TaskStatus_value). Qed.

(** C3.  A request to cancel a document that is found, with its tenant,
    succeeds if and only if the run-state of the document is RUNNING, and
    then no Task row of the document is left; for a document in any
    other run-state the request fails with the state-conflict error and
    changes nothing. *)
Theorem cancel_iff_running id delete user w doc tenant_id :
  doc_accessible w id user = true →
  DocumentService.get_tenant_id id w = Some tenant_id →
  truthy tenant_id = true →
  DocumentService.get_by_id id w = Some doc →
  ((handle (run [id] (TaskStatus_value CANCEL) delete user) w).1
     = Responded (get_json_result (DBool true) None None)
   ↔ doc_run doc = TaskStatus_value RUNNING) ∧
  (doc_run doc = TaskStatus_value RUNNING →
     ∃ w',
       handle (run [id] (TaskStatus_value CANCEL) delete user) w
         = (Responded (get_json_result (DBool true) None None), w') ∧
       tasks w'
         = List.filter (λ t, negb (bool_decide (task_doc_id t = id))) (tasks w) ∧
       ∀ t, t ∈ tasks w' → task_doc_id t ≠ id) ∧
  (doc_run doc ≠ TaskStatus_value RUNNING →
     handle (run [id] (TaskStatus_value CANCEL) delete user) w
       = (Responded (get_data_error_result
            "Cannot cancel a task that is not in RUNNING status"), w)).
Proof.
  intros Hacc Hten Htruthy Hdoc.
  assert (TaskStatus_value CANCEL ≠ TaskStatus_value RUNNING) as Hcr
    by (by apply status_value_ne).
  assert (doc_run doc ≠ TaskStatus_value RUNNING →
     handle (run [id] (TaskStatus_value CANCEL) delete user) w
       = (Responded (get_data_error_result
            "Cannot cancel a task that is not in RUNNING status"), w)) as Hno.
  { intros Hrun. apply handle_return.
    unfold run, for_each, bind, read, try_except, pure, return_.
    rewrite Hacc. simpl. unfold run_one, bind, read, return_.
    rewrite Hten. simpl. rewrite Htruthy. simpl. rewrite Hdoc.
    rewrite bool_decide_eq_true_2 by done.
    by rewrite bool_decide_eq_false_2 by done. }
  assert (doc_run doc = TaskStatus_value RUNNING →
     ∃ w',
       handle (run [id] (TaskStatus_value CANCEL) delete user) w
         = (Responded (get_json_result (DBool true) None None), w') ∧
       tasks w'
         = List.filter (λ t, negb (bool_decide (task_doc_id t = id))) (tasks w))
    as Hyes.
  { intros Hrun.
    unfold handle, run, for_each, bind, read, try_except, pure, return_.
    rewrite Hacc. simpl. unfold run_one, bind, read, return_, write, when, call, pure.
    rewrite Hten. simpl. rewrite Htruthy. simpl. rewrite Hdoc.
    rewrite bool_decide_eq_true_2 by done.
    rewrite bool_decide_eq_true_2 by done.
    rewrite (bool_decide_eq_false_2 _ Hcr).
    rewrite andb_false_r. simpl.
    pose proof (doc_update_tasks id (run_info (TaskStatus_value CANCEL) delete)
                  (TaskService.cancel_all_task_of id w)) as Hupd.
    destruct (DocumentService.update_by_id id _ (TaskService.cancel_all_task_of id w))
      as [upd w1]. simpl in Hupd.
    destruct delete; simpl.
    - unfold bind, read, write, when, pure.
      destruct (docStoreConn.indexExist _ _ _); simpl.
      + eexists. split; [reflexivity|]. simpl. rewrite Hupd. simpl.
        apply filter_filter_same.
      + eexists. split; [reflexivity|]. simpl. rewrite Hupd. simpl.
        apply filter_filter_same.
    - eexists. split; [reflexivity|]. by rewrite Hupd. }
  split; [|split; [|exact Hno]].
  - split.
    + intros Hr. destruct (decide (doc_run doc = TaskStatus_value RUNNING)); [done|].
      rewrite Hno in Hr by done. discriminate Hr.
    + intros Hrun. destruct (Hyes Hrun) as (w' & -> & _). done.
  - intros Hrun. destruct (Hyes Hrun) as (w' & Hh & Ht). exists w'.
    split; [done|]. split; [done|].
    intros t Hin. rewrite Ht in Hin.
    apply list_elem_of_In, filter_In in Hin as [_ Hne].
    by apply negb_true_iff, bool_decide_eq_false in Hne.
Qed.
End run_facts.

Lemma cancel_iff_running_witness :
  (∃ w',
     handle (document_app.run (E:=sample.env) ["D2"] "2" false "u") sample.world
       = (Responded (get_json_result (DBool true) None None), w') ∧
     tasks w'
       = [sample.task "t1" "D1" 1; sample.task "g1" "graph_raptor_x" 1;
          sample.task "g2" "graph_raptor_x" (1 # 2)]) ∧
  handle (document_app.run (E:=sample.env) ["D1"] "2" false "u") sample.world
    = (Responded (get_data_error_result
         "Cannot cancel a task that is not in RUNNING status"), sample.world).
Proof.
  split.
  - destruct (cancel_iff_running (E:=sample.env) "D2" false "u" sample.world
                (sample.doc "D2" "K1" "1") "T") as (_ & Hyes & _);
      [reflexivity..|].
    destruct (Hyes eq_refl) as (w' & Hh & Ht & _).
    exists w'. split; [exact Hh|]. rewrite Ht. reflexivity.
  - apply (cancel_iff_running (E:=sample.env) "D1" false "u" sample.world
             (sample.doc "D1" "K1" "3") "T"); [reflexivity..|discriminate].
Defined.

(** ** Rerunning a finished document *)

Lemma find_some_holds {A} (p : A → bool) (l : list A) x :
  List.find p l = Some x → p x = true.
Proof. intros Hf. by apply find_some in Hf as [_ Hp]. Qed.

Lemma doc_get_by_id_id id w d :
  DocumentService.get_by_id id w = Some d → doc_id d = id.
Proof. intros Hd. apply find_some_holds in Hd. by apply bool_decide_eq_true in Hd. Qed.

Lemma kb_get_by_id_id id w kb :
  KnowledgebaseService.get_by_id id w = Some kb → kbase_id kb = id.
Proof. intros Hd. apply find_some_holds in Hd. by apply bool_decide_eq_true in Hd. Qed.

Section rerun_facts.
Context {E : Env}.
Import document_app.

Lemma clear_chunk_num_kb id w d kb :
  DocumentService.get_by_id id w = Some d →
  KnowledgebaseService.get_by_id (doc_kb_id d) w = Some kb →
  KnowledgebaseService.get_by_id (doc_kb_id d)
    (DocumentService.clear_chunk_num_when_rerun id w)
  = Some (KnowledgebaseService.add_counters
            (- doc_chunk_num d) (- doc_token_num d) kb).
Proof.
  intros Hd Hkb. unfold DocumentService.clear_chunk_num_when_rerun. rewrite Hd.
  unfold KnowledgebaseService.get_by_id in *. simpl.
  rewrite find_map_stable.
  - rewrite Hkb. simpl. unfold KnowledgebaseService.update_row.
    apply find_some_holds in Hkb. by rewrite Hkb.
  - intros x. unfold KnowledgebaseService.update_row.
    destruct (bool_decide (kbase_id x = doc_kb_id d)) eqn:Hx; simpl; by rewrite Hx.
Qed.

Lemma clear_chunk_num_rest id w :
  documents (DocumentService.clear_chunk_num_when_rerun id w) = documents w ∧
  tasks (DocumentService.clear_chunk_num_when_rerun id w) = tasks w ∧
  index_entries (DocumentService.clear_chunk_num_when_rerun id w) = index_entries w ∧
  index_partitions (DocumentService.clear_chunk_num_when_rerun id w)
    = index_partitions w.
Proof. unfold DocumentService.clear_chunk_num_when_rerun. by case_match. Qed.

Lemma doc_update_rest id info w :
  tasks (DocumentService.update_by_id id info w).2 = tasks w ∧
  knowledgebases (DocumentService.update_by_id id info w).2 = knowledgebases w ∧
  index_entries (DocumentService.update_by_id id info w).2 = index_entries w ∧
  index_partitions (DocumentService.update_by_id id info w).2 = index_partitions w.
Proof. unfold DocumentService.update_by_id. by case_match. Qed.

Lemma run_dispatch_task id tenant_id doc w :
  doc_id doc = id →
  ∃ w2 t,
    run_dispatch id tenant_id doc w = Next tt w2 ∧
    tasks w2 = (tasks w ++ [t])%list ∧ task_doc_id t = id.
Proof.
  intros Hid. unfold run_dispatch, bind, call, read, write.
  destruct (truthy_opt (doc_pipeline_id doc)); simpl.
  - eexists _, _. split; [reflexivity|]. simpl. split; [reflexivity|done].
  - eexists _, _. split; [reflexivity|]. simpl. split; [reflexivity|done].
Qed.

Lemma run_start_task id tenant_id doc m w :
  doc_id doc = id → truthy (doc_kb_id doc) = true →
  ∃ m' w2 t,
    run_start id tenant_id doc m w = Next m' w2 ∧
    tasks w2 = (tasks w ++ [t])%list ∧ task_doc_id t = id.
Proof.
  intros Hid Hkb. unfold run_start, bind, read, write, when, pure.
  destruct (bool_decide (doc_parser_id doc = ParserType_TABLE)).
  - rewrite Hkb. simpl.
    destruct (m !! doc_kb_id doc); simpl.
    + destruct (run_dispatch_task id tenant_id doc w Hid) as (w2 & t & -> & Ht & Hd).
      by eexists _, _, _.
    + destruct (bool_decide _); simpl.
      * destruct (run_dispatch_task id tenant_id doc
                    (KnowledgebaseService.delete_field_map (doc_kb_id doc) w) Hid)
          as (w2 & t & -> & Ht & Hd).
        by eexists _, _, _.
      * destruct (run_dispatch_task id tenant_id doc w Hid) as (w2 & t & -> & Ht & Hd).
        by eexists _, _, _.
  - destruct (run_dispatch_task id tenant_id doc w Hid) as (w2 & t & -> & Ht & Hd).
    by eexists _, _, _.
Qed.

(** C4, as amended.  A rerun ([run = RUNNING], [delete = true]) of a
    document whose run-state is DONE first takes the chunk and token
    counts of the document off the counters of its knowledge base, resets
    [chunk_num] and [token_num] of the document to zero, [progress] to 0
    and [progress_msg] to the empty string, deletes its Task rows and its
    entries in the index partition of its knowledge base, and only then
    creates the new Task; [process_duration] keeps its value. *)
Theorem rerun_resets_before_dispatch id m w doc tenant_id :
  DocumentService.get_tenant_id id w = Some tenant_id →
  truthy tenant_id = true →
  DocumentService.get_by_id id w = Some doc →
  doc_run doc = TaskStatus_value DONE →
  doc_update_ok id = true →
  (∀ e, e ∈ index_entries w → (ie_index e, ie_kb_id e) ∈ index_partitions w) →
  ∃ w1,
    run_one (TaskStatus_value RUNNING) true id m w
      = run_start id tenant_id doc m w1 ∧
    (∃ kb kb1,
       KnowledgebaseService.get_by_id (doc_kb_id doc) w = Some kb ∧
       KnowledgebaseService.get_by_id (doc_kb_id doc) w1 = Some kb1 ∧
       kb_chunk_num kb1 = (kb_chunk_num kb - doc_chunk_num doc)%Z ∧
       kb_token_num kb1 = (kb_token_num kb - doc_token_num doc)%Z) ∧
    (∃ d1,
       DocumentService.get_by_id id w1 = Some d1 ∧
       doc_chunk_num d1 = 0%Z ∧ doc_token_num d1 = 0%Z ∧
       doc_progress_msg d1 = "" ∧ doc_progress d1 = 0%Q ∧
       doc_run d1 = TaskStatus_value RUNNING ∧
       doc_process_duration d1 = doc_process_duration doc) ∧
    (∀ t, t ∈ tasks w1 → task_doc_id t ≠ id) ∧
    (∀ e, e ∈ index_entries w1 → ie_doc_id e = id →
          ¬ (ie_index e = index_name tenant_id ∧ ie_kb_id e = doc_kb_id doc)) ∧
    (truthy (doc_kb_id doc) = true →
     ∃ m' w2 t,
       run_start id tenant_id doc m w1 = Next m' w2 ∧
       tasks w2 = (tasks w1 ++ [t])%list ∧ task_doc_id t = id).
Proof.
  intros Hten Htruthy Hdoc Hdone Hok Hwf.
  pose proof (doc_get_by_id_id _ _ _ Hdoc) as Hid.
  assert (∃ kb, KnowledgebaseService.get_by_id (doc_kb_id doc) w = Some kb)
    as [kb Hkb].
  { unfold DocumentService.get_tenant_id in Hten. rewrite Hdoc in Hten.
    destruct (KnowledgebaseService.get_by_id (doc_kb_id doc) w); [by eexists|done]. }
  set (wA := DocumentService.clear_chunk_num_when_rerun id w).
  set (info := run_info (TaskStatus_value RUNNING) true).
  set (wB := (DocumentService.update_by_id id info wA).2).
  set (wC := TaskService.filter_delete id wB).
  set (index := index_name tenant_id).
  set (wD := if docStoreConn.indexExist index (doc_kb_id doc) wC
             then docStoreConn.delete (λ e, bool_decide (ie_doc_id e = id))
                    index (doc_kb_id doc) wC
             else wC).
  destruct (clear_chunk_num_rest id w) as (HdA & HtA & HiA & HpA).
  fold wA in HdA, HtA, HiA, HpA.
  destruct (doc_update_rest id info wA) as (HtB & HkB & HiB & HpB).
  fold wB in HtB, HkB, HiB, HpB.
  assert (DocumentService.get_by_id id wA = Some doc) as HdocA.
  { unfold DocumentService.get_by_id. by rewrite HdA. }
  exists wD. split; [|split; [|split; [|split; [|split]]]].
  - unfold run_one, bind, read, return_, write, when, call, pure.
    rewrite Hten. simpl. rewrite Htruthy. simpl. rewrite Hdoc.
    rewrite (bool_decide_eq_false_2 (TaskStatus_value RUNNING = TaskStatus_value CANCEL))
      by (by apply status_value_ne).
    rewrite (bool_decide_eq_true_2 (TaskStatus_value RUNNING = TaskStatus_value RUNNING))
      by done.
    rewrite (bool_decide_eq_true_2 _ Hdone). simpl. rewrite Hid.
    fold wA. fold info.
    destruct (DocumentService.update_by_id id info wA) as [upd wB'] eqn:Hupd.
    change wB' with wB. simpl. unfold bind, read, write, when, pure. fold wC. fold index.
    subst wD. by destruct (docStoreConn.indexExist index (doc_kb_id doc) wC).
  - exists kb, (KnowledgebaseService.add_counters
                  (- doc_chunk_num doc) (- doc_token_num doc) kb).
    split; [done|]. split; [|split; simpl; lia].
    pose proof (clear_chunk_num_kb id w doc kb Hdoc Hkb) as HkA. fold wA in HkA.
    assert (knowledgebases wD = knowledgebases wA) as HkD.
    { subst wD. destruct (docStoreConn.indexExist _ _ _); simpl; exact HkB. }
    unfold KnowledgebaseService.get_by_id in *. by rewrite HkD.
  - assert (documents wD = documents wB) as HdD.
    { subst wD. by destruct (docStoreConn.indexExist _ _ _). }
    assert (DocumentService.get_by_id id wB
            = Some (set_doc_fields info doc)) as HdB.
    { unfold wB. rewrite doc_update_lookup, HdocA.
      rewrite (doc_update_ok_found id info wA doc Hok HdocA). simpl.
      unfold DocumentService.update_row. by rewrite Hid, bool_decide_eq_true_2. }
    exists (set_doc_fields info doc). split.
    + unfold DocumentService.get_by_id in *. by rewrite HdD.
    + unfold info, run_info.
      rewrite (bool_decide_eq_true_2 (TaskStatus_value RUNNING = TaskStatus_value RUNNING))
        by done.
      simpl. done.
  - intros t Hin.
    assert (tasks wD = tasks wC) as HtD.
    { subst wD. by destruct (docStoreConn.indexExist _ _ _). }
    rewrite HtD in Hin. unfold wC, TaskService.filter_delete in Hin. simpl in Hin.
    apply list_elem_of_In, filter_In in Hin as [_ Hne].
    by apply negb_true_iff, bool_decide_eq_false in Hne.
  - intros e Hin He [Hi Hk].
    assert (index_entries wC = index_entries w) as HiC.
    { unfold wC. simpl. by rewrite HiB, HiA. }
    assert (index_partitions wC = index_partitions w) as HpC.
    { unfold wC. simpl. by rewrite HpB, HpA. }
    subst wD.
    destruct (docStoreConn.indexExist index (doc_kb_id doc) wC) eqn:Hex.
    + unfold docStoreConn.delete in Hin. simpl in Hin.
      apply list_elem_of_In, filter_In in Hin as [_ Hc].
      apply negb_true_iff in Hc.
      unfold docStoreConn.in_partition in Hc.
      rewrite !bool_decide_eq_true_2 in Hc; done.
    + rewrite HiC in Hin. apply Hwf in Hin.
      unfold docStoreConn.indexExist in Hex. apply bool_decide_eq_false in Hex.
      apply Hex. rewrite HpC. by rewrite Hi, Hk in Hin.
  - intros Hkbt. by apply run_start_task.
Qed.
End rerun_facts.

Lemma rerun_resets_before_dispatch_witness :
  ∃ w1,
    document_app.run_one (E:=sample.env) "1" true "D1" ∅ sample.world
      = document_app.run_start (E:=sample.env) "D1" "T" (sample.doc "D1" "K1" "3")
          ∅ w1 ∧
    (∃ kb1,
       KnowledgebaseService.get_by_id "K1" w1 = Some kb1 ∧
       kb_chunk_num kb1 = 6%Z ∧ kb_token_num kb1 = 60%Z) ∧
    (∃ d1,
       DocumentService.get_by_id "D1" w1 = Some d1 ∧
       doc_chunk_num d1 = 0%Z ∧ doc_token_num d1 = 0%Z ∧
       doc_progress_msg d1 = "") ∧
    (∀ t, t ∈ tasks w1 → task_doc_id t ≠ "D1").
Proof.
  destruct (rerun_resets_before_dispatch (E:=sample.env) "D1" ∅ sample.world
              (sample.doc "D1" "K1" "3") "T")
    as (w1 & Hrun & (kb & kb1 & Hkb & Hkb1 & Hc & Ht) & (d1 & Hd1 & H0 & H1 & H2 & _)
        & Htasks & _); try reflexivity.
  { intros e He. simpl in He.
    repeat (apply elem_of_cons in He as [->|He]);
      try (by apply elem_of_nil in He); simpl; by left. }
  exists w1. split; [exact Hrun|]. split; [|split; [|exact Htasks]].
  - exists kb1. injection Hkb as <-. by split.
  - exists d1. by repeat split.
Defined.

(** C4, as stated, fails: after the rerun of the finished document [D1]
    with [delete = true], its chunk and token counts are zero, but its
    [process_duration] is still 5. *)
Lemma rerun_counterexample :
  doc_run (sample.doc "D1" "K1" "3") = TaskStatus_value (Env:=sample.env) DONE ∧
  ∃ w' d,
    handle (document_app.run (E:=sample.env) ["D1"] "1" true "u") sample.world
      = (Responded (get_json_result (DBool true) None None), w') ∧
    DocumentService.get_by_id "D1" w' = Some d ∧
    doc_chunk_num d = 0%Z ∧ doc_token_num d = 0%Z ∧
    doc_process_duration d = 5%Q.
Proof. split; [reflexivity|]. eexists _, _. vm_compute. repeat split. Qed.

(** ** Deleting documents *)

Lemma find_filter_none {A} (p : A → bool) (l : list A) :
  List.find p (List.filter (λ x, negb (p x)) l) = None.
Proof.
  induction l as [|x l IH]; simpl; [done|].
  destruct (p x) eqn:Hp; simpl; [done|]. by rewrite Hp.
Qed.

Lemma bind_Next {A B} (m : M A) (k : A → M B) w a w' :
  m w = Next a w' → bind m k w = k a w'.
Proof. unfold bind. by intros ->. Qed.

Section rm_facts.
Context {E : Env}.
Import document_app.

(** The worlds agree on documents, Task rows and index entries. *)
Lemma remove_document_done doc tenant_id w d :
  doc_delete_ok (doc_id doc) = true →
  DocumentService.get_by_id (doc_id doc) w = Some d →
  ∃ w2,
    DocumentService.remove_document doc tenant_id w = (true, w2) ∧
    DocumentService.get_by_id (doc_id doc) w2 = None ∧
    (∀ t, t ∈ tasks w2 → task_doc_id t ≠ doc_id doc) ∧
    (∀ e, e ∈ index_entries w2 → ie_doc_id e = doc_id doc →
       ¬ (ie_index e = index_name tenant_id ∧ ie_kb_id e = doc_kb_id doc)) ∧
    files w2 = files w ∧ file2documents w2 = file2documents w.
Proof.
  intros Hok Hd. unfold DocumentService.remove_document.
  rewrite Hok. simpl.
  assert (DocumentService.get_by_id (doc_id doc)
            (docStoreConn.delete (λ e, bool_decide (ie_doc_id e = doc_id doc))
               (index_name tenant_id) (doc_kb_id doc)
               (TaskService.filter_delete (doc_id doc) w)) = Some d) as Hd'
    by exact Hd.
  rewrite Hd'. simpl. eexists. split; [reflexivity|].
  split; [|split; [|split; [|done]]].
  - unfold DocumentService.get_by_id. simpl. apply find_filter_none.
  - intros t Hin. simpl in Hin.
    apply list_elem_of_In, filter_In in Hin as [_ Hne].
    by apply negb_true_iff, bool_decide_eq_false in Hne.
  - intros e Hin He [Hi Hk]. simpl in Hin.
    apply list_elem_of_In, filter_In in Hin as [_ Hc].
    apply negb_true_iff in Hc. unfold docStoreConn.in_partition in Hc.
    rewrite !bool_decide_eq_true_2 in Hc; done.
Qed.

Lemma rm_table_core doc m w :
  ∃ m' w',
    rm_table doc m w = Next m' w' ∧
    documents w' = documents w ∧ tasks w' = tasks w ∧
    index_entries w' = index_entries w.
Proof.
  unfold rm_table, bind, read, write, when, pure.
  destruct (bool_decide (doc_parser_id doc = ParserType_TABLE)); [|by eexists _, _].
  destruct (m !! doc_kb_id doc); simpl;
    destruct (bool_decide _); simpl; by eexists _, _.
Qed.

Lemma storage_rm_core b n w :
  storage_rm_raises b n = None →
  ∃ w',
    STORAGE_IMPL.rm b n w = Next tt w' ∧
    documents w' = documents w ∧ tasks w' = tasks w ∧
    index_entries w' = index_entries w ∧ knowledgebases w' = knowledgebases w.
Proof.
  intros Hno. unfold STORAGE_IMPL.rm. rewrite Hno. by eexists.
Qed.

(** An iteration of the deletion loop on a document that is found, can
    be removed, and whose blob can be deleted. *)
Lemma rm_one_done id m w doc tenant_id :
  DocumentService.get_by_id id w = Some doc →
  DocumentService.get_tenant_id id w = Some tenant_id →
  truthy tenant_id = true →
  doc_delete_ok id = true →
  storage_rm_raises (File2DocumentService.get_storage_address id w).1
    (File2DocumentService.get_storage_address id w).2 = None →
  ∃ m' w',
    rm_one id m w = Next m' w' ∧
    DocumentService.get_by_id id w' = None ∧
    (∀ t, t ∈ tasks w' → task_doc_id t ≠ id) ∧
    (∀ e, e ∈ index_entries w' → ie_doc_id e = id →
       ¬ (ie_index e = index_name tenant_id ∧ ie_kb_id e = doc_kb_id doc)).
Proof.
  intros Hdoc Hten Htruthy Hok Hsto.
  pose proof (doc_get_by_id_id _ _ _ Hdoc) as Hid.
  unfold rm_one, bind, read, write, call, return_, pure.
  rewrite Hdoc, Hten. simpl. rewrite Htruthy. simpl.
  destruct (remove_document_done doc tenant_id (TaskService.filter_delete id w) doc)
    as (w2 & Hrem & Hgone & Htasks & Hindex & _).
  { by rewrite Hid. }
  { by rewrite Hid. }
  rewrite Hrem. simpl. rewrite Hid in Hgone, Htasks, Hindex.
  set (b := (File2DocumentService.get_storage_address id w).1) in *.
  set (n := (File2DocumentService.get_storage_address id w).2) in *.
  assert (∀ c w3,
    documents w3 = documents w2 → tasks w3 = tasks w2 →
    index_entries w3 = index_entries w2 →
    ∃ m' w',
      (let* _ := when (bool_decide (0 < c)%Z) (STORAGE_IMPL.rm b n) in
       rm_table doc m) w3 = Next m' w' ∧
      documents w' = documents w2 ∧ tasks w' = tasks w2 ∧
      index_entries w' = index_entries w2) as Hrest.
  { intros c w3 Hd3 Ht3 Hi3. unfold bind, when, pure.
    destruct (bool_decide (0 < c)%Z).
    - destruct (storage_rm_core b n w3 Hsto) as (w4 & -> & Hd4 & Ht4 & Hi4 & _).
      destruct (rm_table_core doc m w4) as (m' & w' & -> & Hd & Ht & Hi).
      exists m', w'. repeat split; congruence.
    - destruct (rm_table_core doc m w3) as (m' & w' & -> & Hd & Ht & Hi).
      exists m', w'. repeat split; congruence. }
  destruct (File2DocumentService.get_by_document_id id w2) as [|l ls]; simpl.
  - destruct (Hrest 0%Z (File2DocumentService.delete_by_document_id id w2))
      as (m' & w' & Hrun & Hd & Ht & Hi); [done..|].
    exists m', w'. unfold bind, when, pure in Hrun. split; [exact Hrun|].
    unfold DocumentService.get_by_id in *. rewrite Hd, Ht, Hi. done.
  - destruct (Hrest
      (FileService.filter_delete FileSource_KNOWLEDGEBASE (f2d_file_id l) w2).1
      (File2DocumentService.delete_by_document_id id
        (FileService.filter_delete FileSource_KNOWLEDGEBASE (f2d_file_id l) w2).2))
      as (m' & w' & Hrun & Hd & Ht & Hi); [done..|].
    exists m', w'. unfold bind, when, pure in Hrun. split; [exact Hrun|].
    unfold DocumentService.get_by_id in *. rewrite Hd, Ht, Hi. done.
Qed.

(** Deleting a document that is not there: the request is refused at the
    authorization check or with [Document not found!], and documents,
    Task rows and index entries stay as they are. *)
Lemma rm_absent id user w :
  DocumentService.get_by_id id w = None →
  ∃ r w',
    handle (rm [id] user) w = (Responded r, w') ∧
    (r = no_authorization ∨ r = get_data_error_result "Document not found!") ∧
    documents w' = documents w ∧ tasks w' = tasks w ∧
    index_entries w' = index_entries w.
Proof.
  intros Hnone. unfold handle, rm, rm_loop, for_each, bind, read, write, return_, pure.
  destruct (doc_accessible4deletion w id user); simpl.
  - unfold rm_step, try_except, bind, rm_one, bind, read, return_.
    assert (DocumentService.get_by_id id
              (set_files (init_knowledgebase_docs user) w) = None) as -> by exact Hnone.
    eexists _, _. split; [reflexivity|]. split; [by right|done].
  - eexists _, _. split; [reflexivity|]. split; [by left|done].
Qed.

(** C5, as amended.  Deleting a document removes every Task row that
    refers to it and every index entry keyed by its id in the partition
    of its knowledge base; a second deletion of the same id is not a
    success: it is answered with an error, [No authorization.] or
    [Document not found!], and leaves documents, Task rows and index
    entries as they are. *)
Theorem rm_twice id user w doc tenant_id :
  doc_accessible4deletion w id user = true →
  DocumentService.get_by_id id w = Some doc →
  DocumentService.get_tenant_id id w = Some tenant_id →
  truthy tenant_id = true →
  doc_delete_ok id = true →
  storage_rm_raises
    (File2DocumentService.get_storage_address id
       (set_files (init_knowledgebase_docs user) w)).1
    (File2DocumentService.get_storage_address id
       (set_files (init_knowledgebase_docs user) w)).2 = None →
  ∃ w1,
    handle (rm [id] user) w
      = (Responded (get_json_result (DBool true) None None), w1) ∧
    (∀ t, t ∈ tasks w1 → task_doc_id t ≠ id) ∧
    (∀ e, e ∈ index_entries w1 → ie_doc_id e = id →
       ¬ (ie_index e = index_name tenant_id ∧ ie_kb_id e = doc_kb_id doc)) ∧
    DocumentService.get_by_id id w1 = None ∧
    ∃ r w2,
      handle (rm [id] user) w1 = (Responded r, w2) ∧
      (r = no_authorization ∨ r = get_data_error_result "Document not found!") ∧
      r ≠ get_json_result (DBool true) None None ∧
      documents w2 = documents w1 ∧ tasks w2 = tasks w1 ∧
      index_entries w2 = index_entries w1.
Proof.
  intros Hacc Hdoc Hten Htruthy Hok Hsto.
  destruct (rm_one_done id ∅ (set_files (init_knowledgebase_docs user) w)
              doc tenant_id Hdoc Hten Htruthy Hok Hsto)
    as (m' & w1 & Hone & Hgone & Htasks & Hindex).
  exists w1. split; [|split; [exact Htasks|split; [exact Hindex|split; [exact Hgone|]]]].
  - unfold handle, rm, rm_loop, for_each, bind, read, write, return_, pure.
    rewrite Hacc. simpl. unfold rm_step, try_except, bind, pure.
    cbn [fst snd]. by rewrite Hone.
  - destruct (rm_absent id user w1 Hgone) as (r & w2 & Hh & Hr & Hsame).
    exists r, w2. split; [exact Hh|]. split; [exact Hr|]. split; [|exact Hsame].
    destruct Hr as [-> | ->]; discriminate.
Qed.

(** An iteration of the deletion loop in which the blob store raises:
    the Task rows, the index entries and the document are gone when the
    exception leaves the iteration. *)
Lemma rm_one_raises id m w doc tenant_id l ls e :
  DocumentService.get_by_id id w = Some doc →
  DocumentService.get_tenant_id id w = Some tenant_id →
  truthy tenant_id = true →
  doc_delete_ok id = true →
  File2DocumentService.get_by_document_id id w = l :: ls →
  (0 < (FileService.filter_delete FileSource_KNOWLEDGEBASE (f2d_file_id l) w).1)%Z →
  storage_rm_raises (File2DocumentService.get_storage_address id w).1
    (File2DocumentService.get_storage_address id w).2 = Some e →
  ∃ w1,
    rm_one id m w = Raise e w1 ∧
    DocumentService.get_by_id id w1 = None ∧
    (∀ t, t ∈ tasks w1 → task_doc_id t ≠ id).
Proof.
  intros Hdoc Hten Htruthy Hok Hlink Hcount Hsto.
  pose proof (doc_get_by_id_id _ _ _ Hdoc) as Hid.
  unfold rm_one, bind, read, write, call, return_, pure.
  rewrite Hdoc, Hten. simpl. rewrite Htruthy. simpl.
  destruct (remove_document_done doc tenant_id (TaskService.filter_delete id w) doc)
    as (w2 & Hrem & Hgone & Htasks & _ & Hfiles & Hf2d).
  { by rewrite Hid. }
  { by rewrite Hid. }
  rewrite Hrem. simpl. rewrite Hid in Hgone, Htasks.
  assert (File2DocumentService.get_by_document_id id w2 = l :: ls) as ->.
  { unfold File2DocumentService.get_by_document_id in *. by rewrite Hf2d. }
  unfold FileService.filter_delete in *. simpl in *. rewrite Hfiles.
  unfold when. rewrite bool_decide_eq_true_2 by exact Hcount.
  unfold STORAGE_IMPL.rm. rewrite Hsto. unfold raise.
  eexists. split; [reflexivity|]. split; [exact Hgone|exact Htasks].
Qed.

End rm_facts.

Lemma rm_twice_witness :
  ∃ w1,
    handle (document_app.rm (E:=sample.env) ["D1"] "u") sample.world
      = (Responded (get_json_result (DBool true) None None), w1) ∧
    (∀ t, t ∈ tasks w1 → task_doc_id t ≠ "D1") ∧
    DocumentService.get_by_id "D1" w1 = None ∧
    handle (document_app.rm (E:=sample.env) ["D1"] "u") w1
      = (Responded (get_data_error_result "Document not found!"), w1).
Proof.
  destruct (rm_twice (E:=sample.env) "D1" "u" sample.world
              (sample.doc "D1" "K1" "3") "T")
    as (w1 & Hh & Htasks & _ & Hgone & _); [reflexivity..|].
  exists w1. split; [exact Hh|]. split; [exact Htasks|]. split; [exact Hgone|].
  vm_compute in Hh. injection Hh as <-. vm_compute. reflexivity.
Defined.

(** C5, as stated, fails: the second deletion of [D1] is answered with an
    error, not with success. *)
Lemma rm_twice_counterexample :
  ∃ w1,
    handle (document_app.rm (E:=sample.env) ["D1"] "u") sample.world
      = (Responded (get_json_result (DBool true) None None), w1) ∧
    handle (document_app.rm (E:=sample.env) ["D1"] "u") w1
      = (Responded (get_data_error_result "Document not found!"), w1).
Proof. eexists. split; vm_compute; reflexivity. Qed.



(** * Further properties *)

(** ** The graph view *)

Section Sorted_stable.
Context {A : Type} (key : A → Q).

Lemma insert_desc_filter q x l :
  StronglySorted (desc key) l →
  List.filter (λ y, Qeq_bool (key y) q) (insert_desc key x l)
  = List.filter (λ y, Qeq_bool (key y) q) (x :: l).
Proof.
  induction l as [|y l IH]; intros Hs; [done|].
  apply StronglySorted_cons in Hs as [Hy Hl]. simpl.
  destruct (Qle_bool (key y) (key x)) eqn:Hle; [done|].
  simpl. rewrite IH by done. simpl.
  destruct (Qeq_bool (key x) q) eqn:Hx, (Qeq_bool (key y) q) eqn:Hy'; try done.
  apply Qeq_bool_iff in Hx, Hy'.
  assert (Qle_bool (key y) (key x) = true); [|congruence].
  apply Qle_bool_iff. rewrite Hx, Hy'. apply Qle_refl.
Qed.

(** X1.  The descending sort is stable: the elements of any one key come
    out in the order in which they came in, so nodes of equal pagerank
    and edges of equal weight keep their input order. *)
Theorem sorted_desc_stable q l :
  List.filter (λ y, Qeq_bool (key y) q) (sorted_desc key l)
  = List.filter (λ y, Qeq_bool (key y) q) l.
Proof.
  induction l as [|x l IH]; [done|].
  simpl. rewrite insert_desc_filter by apply sorted_desc_sorted.
  simpl. by rewrite IH.
Qed.
End Sorted_stable.

Section view_facts.
Context {E : Env}.
Import kb_app.

(** X2.  The graph view only reads: whatever the request and whatever
    it answers, the stores are as before. *)
Theorem knowledge_graph_read_only kb_id user w :
  (handle (knowledge_graph kb_id user) w).2 = w.
Proof.
  unfold handle, knowledge_graph, bind, read, return_, pure, raise.
  destruct (kb_accessible w kb_id user); simpl; [|done].
  destruct (KnowledgebaseService.get_by_id kb_id w) as [kb|]; [|done].
  destruct (docStoreConn.indexExist _ _ _); simpl; [|done].
  destruct (retrievaler_search _ _ _ _) as [|hit hits]; simpl; [done|].
  unfold bind, pure, raise.
  destruct (ie_knowledge_graph_kwd hit); [|done].
  destruct (json_loads _); with_strategy opaque [rank_graph] simpl;
    unfold of_exc; by destruct (rank_graph _).
Qed.

(** X3.  Without an index partition, without a hit, or with a best hit
    whose payload does not parse, the graph view answers with the empty
    view, not with an error. *)
Theorem knowledge_graph_empty kb_id user w kb :
  kb_accessible w kb_id user = true →
  KnowledgebaseService.get_by_id kb_id w = Some kb →
  docStoreConn.indexExist (index_name (kb_tenant_id kb)) kb_id w = false
  ∨ retrievaler_search w ["graph"] (index_name (kb_tenant_id kb)) kb_id = []
  ∨ (∃ hit hits ty,
       retrievaler_search w ["graph"] (index_name (kb_tenant_id kb)) kb_id
         = hit :: hits ∧
       ie_knowledge_graph_kwd hit = Some ty ∧
       json_loads (ie_content_with_weight hit) = None) →
  handle (knowledge_graph kb_id user) w
    = (Responded (get_json_result (DGraph empty_view) None None), w).
Proof.
  intros Hacc Hkb Hcase.
  unfold handle, knowledge_graph, bind, read, return_, pure.
  rewrite Hacc. simpl. rewrite Hkb.
  destruct (docStoreConn.indexExist _ _ _) eqn:Hex; simpl; [|done].
  destruct Hcase as [Hno|[Hs|(hit & hits & ty & Hs & Hty & Hjs)]]; [done| |].
  - rewrite Hs. done.
  - rewrite Hs. simpl. unfold bind, pure. rewrite Hty, Hjs. simpl.
    reflexivity.
Qed.

(** X4.  The category of the best hit is taken from the hit: a payload
    tagged otherwise than [graph] is returned as it is under its own
    tag, and the graph of the view stays empty. *)
Theorem knowledge_graph_other_tag kb_id user w kb hit hits ty content :
  kb_accessible w kb_id user = true →
  KnowledgebaseService.get_by_id kb_id w = Some kb →
  docStoreConn.indexExist (index_name (kb_tenant_id kb)) kb_id w = true →
  retrievaler_search w ["graph"] (index_name (kb_tenant_id kb)) kb_id
    = hit :: hits →
  ie_knowledge_graph_kwd hit = Some ty →
  ty ≠ "graph" →
  json_loads (ie_content_with_weight hit) = Some content →
  ∃ obj,
    handle (knowledge_graph kb_id user) w
      = (Responded (get_json_result (DGraph obj) None None), w) ∧
    obj !! ty = Some content ∧
    obj !! "graph" = Some empty_graph.
Proof.
  intros Hacc Hkb Hex Hs Hty Hne Hjs.
  eexists. split.
  - unfold handle, knowledge_graph, bind, read, return_, pure.
    rewrite Hacc. simpl. rewrite Hkb, Hex. simpl. rewrite Hs. simpl.
    unfold bind, pure. rewrite Hty, Hjs. with_strategy opaque [rank_graph] simpl.
    rewrite (lookup_insert_ne _ ty "graph") by done.
    rewrite (lookup_insert_ne _ "mind_map" "graph") by done.
    rewrite lookup_insert_eq. simpl. reflexivity.
  - split.
    + rewrite lookup_insert_ne by done. apply lookup_insert_eq.
    + apply lookup_insert_eq.
Qed.
End view_facts.

Lemma knowledge_graph_empty_witness :
  handle (kb_app.knowledge_graph (E:=sample.env) "K2" "u") sample.world
    = (Responded (get_json_result (DGraph empty_view) None None), sample.world).
Proof.
  apply (knowledge_graph_empty (E:=sample.env) "K2" "u" sample.world
           (sample.kb "K2" None)); [reflexivity..|].
  left. reflexivity.
Defined.

Lemma knowledge_graph_other_tag_witness :
  ∃ obj,
    handle (kb_app.knowledge_graph (E:=sample_more.env_mind_map) "K1" "u")
      sample.world
      = (Responded (get_json_result (DGraph obj) None None), sample.world) ∧
    obj !! "mind_map" = Some sample.graph1 ∧
    obj !! "graph" = Some empty_graph.
Proof.
  apply (knowledge_graph_other_tag (E:=sample_more.env_mind_map) "K1" "u"
           sample.world (sample.kb "K1" (Some "g1")) sample_more.mind_map_hit []);
    try reflexivity.
  discriminate.
Defined.

(** ** Unbinding, deleting the graph, dispatching *)

Section unbind_more.
Context {E : Env}.
Import kb_app.

Lemma kb_update_lookup id flds w kb :
  kb_update_ok id = true →
  KnowledgebaseService.get_by_id id w = Some kb →
  ∃ w',
    KnowledgebaseService.update_by_id id flds w = (true, w') ∧
    KnowledgebaseService.get_by_id id w' = Some (set_kb_fields flds kb) ∧
    documents w' = documents w ∧ tasks w' = tasks w ∧
    index_entries w' = index_entries w ∧ queue w' = queue w ∧
    warnings w' = warnings w ∧ uuids w' = uuids w.
Proof.
  intros Hok Hkb. unfold KnowledgebaseService.update_by_id.
  rewrite Hok, Hkb. simpl. eexists. split; [reflexivity|]. split; [|done].
  unfold KnowledgebaseService.get_by_id in *. simpl.
  assert (∀ x, kbase_id (set_kb_fields flds x) = kbase_id x) as Hsame.
  { clear. unfold set_kb_fields. induction flds as [|f flds IH]; intros x; [done|].
    simpl. by rewrite IH. }
  rewrite find_map_stable.
  - rewrite Hkb. simpl. unfold KnowledgebaseService.update_row.
    apply find_some_holds in Hkb. by rewrite Hkb.
  - intros x. unfold KnowledgebaseService.update_row.
    destruct (bool_decide (kbase_id x = id)) eqn:Hx; [|by rewrite Hx].
    by rewrite Hsame, Hx.
Qed.

(** X5.  For an existing knowledge base, a pipeline task type that is
    none of the three known types is answered with [Invalid task type],
    and nothing is changed. *)
Theorem unbind_invalid_type kb_id pipeline_task_type w kb :
  truthy kb_id = true →
  KnowledgebaseService.get_by_id kb_id w = Some kb →
  pipeline_task_type ∉ [PipelineTaskType_GRAPH_RAG; PipelineTaskType_RAPTOR;
                        PipelineTaskType_MINDMAP] →
  handle (delete_kb_task kb_id pipeline_task_type) w
    = (Responded (get_error_data_result "Invalid task type"), w).
Proof.
  intros Hid Hkb Hty. unfold handle, delete_kb_task, bind, read, return_.
  rewrite Hid. simpl. rewrite Hkb.
  rewrite (bool_decide_eq_false_2 _ Hty). simpl. by rewrite orb_true_r.
Qed.

(** What a successful unbind of the kind [k] does. *)
Lemma delete_kb_task_done k kb_id w kb :
  truthy kb_id = true →
  KnowledgebaseService.get_by_id kb_id w = Some kb →
  truthy (type_of_kind k) = true →
  PipelineTaskType_RAPTOR ≠ PipelineTaskType_GRAPH_RAG →
  PipelineTaskType_MINDMAP ≠ PipelineTaskType_GRAPH_RAG →
  PipelineTaskType_MINDMAP ≠ PipelineTaskType_RAPTOR →
  kb_update_ok kb_id = true →
  ∃ w' kb',
    handle (delete_kb_task kb_id (type_of_kind k)) w
      = (Responded (get_json_result (DBool true) None None), w') ∧
    KnowledgebaseService.get_by_id kb_id w' = Some kb' ∧
    pointer k kb' = Some "" ∧
    (∀ k', k' ≠ k → pointer k' kb' = pointer k' kb) ∧
    tasks w' = tasks w ∧
    index_entries w'
      = match k with
        | Graphrag =>
            List.filter
              (λ e, negb (docStoreConn.in_partition
                            (index_name (kb_tenant_id kb)) kb_id e
                          && is_graph_artifact e))
              (index_entries w)
        | _ => index_entries w
        end.
Proof.
  intros Hid Hkb Hty Hrg Hmg Hmr Hok.
  unfold handle, delete_kb_task, bind, read, return_, write, call, pure.
  rewrite Hid. simpl. rewrite Hkb, Hty. simpl.
  rewrite bool_decide_eq_true_2 by (destruct k; set_solver). simpl.
  destruct k; simpl.
  - rewrite bool_decide_eq_true_2 by done.
    set (w1 := docStoreConn.delete _ _ _ w).
    destruct (kb_update_lookup kb_id
                [("graphrag_task_id", Some ""); ("graphrag_task_finish_at", None)]
                w1 kb Hok Hkb) as (w' & Hupd & Hget & _ & Ht & Hi & _).
    rewrite Hupd. simpl. eexists _, _. split; [done|]. split; [exact Hget|].
    split; [done|]. split; [by intros []|]. split; [by rewrite Ht|by rewrite Hi].
  - rewrite bool_decide_eq_false_2 by done.
    rewrite bool_decide_eq_true_2 by done.
    destruct (kb_update_lookup kb_id
                [("raptor_task_id", Some ""); ("raptor_task_finish_at", None)]
                w kb Hok Hkb) as (w' & Hupd & Hget & _ & Ht & Hi & _).
    rewrite Hupd. simpl. eexists _, _. split; [done|]. split; [exact Hget|].
    split; [done|]. split; [by intros []|]. split; [by rewrite Ht|by rewrite Hi].
  - rewrite bool_decide_eq_false_2 by done.
    rewrite bool_decide_eq_false_2 by done.
    rewrite bool_decide_eq_true_2 by done.
    destruct (kb_update_lookup kb_id
                [("mindmap_task_id", Some ""); ("mindmap_task_finish_at", None)]
                w kb Hok Hkb) as (w' & Hupd & Hget & _ & Ht & Hi & _).
    rewrite Hupd. simpl. eexists _, _. split; [done|]. split; [exact Hget|].
    split; [done|]. split; [by intros []|]. split; [by rewrite Ht|by rewrite Hi].
Qed.

(** X6.  Unbinding a kind that is one of the three pipeline types clears
    the pointer of that kind (it becomes the empty string) and leaves the
    pointers of the other kinds and the Task rows alone; only for GraphRAG
    it also deletes the graph records of the partition of the knowledge
    base, and for RAPTOR and mind map the index is untouched. *)
Theorem unbind_task_effect k kb_id w kb :
  truthy kb_id = true →
  KnowledgebaseService.get_by_id kb_id w = Some kb →
  truthy (type_of_kind k) = true →
  PipelineTaskType_RAPTOR ≠ PipelineTaskType_GRAPH_RAG →
  PipelineTaskType_MINDMAP ≠ PipelineTaskType_GRAPH_RAG →
  PipelineTaskType_MINDMAP ≠ PipelineTaskType_RAPTOR →
  kb_update_ok kb_id = true →
  ∃ w' kb',
    handle (delete_kb_task kb_id (type_of_kind k)) w
      = (Responded (get_json_result (DBool true) None None), w') ∧
    KnowledgebaseService.get_by_id kb_id w' = Some kb' ∧
    pointer k kb' = Some "" ∧
    (∀ k', k' ≠ k → pointer k' kb' = pointer k' kb) ∧
    tasks w' = tasks w ∧
    index_entries w'
      = match k with
        | Graphrag =>
            List.filter
              (λ e, negb (docStoreConn.in_partition
                            (index_name (kb_tenant_id kb)) kb_id e
                          && is_graph_artifact e))
              (index_entries w)
        | _ => index_entries w
        end.
Proof. apply delete_kb_task_done. Qed.

(** X7.  When the write that clears the GraphRAG pointer fails, the
    unbind is answered with a server error, the pointer keeps its value,
    and the graph records of the partition are deleted all the same: the
    index deletion comes first and is not undone. *)
Theorem unbind_write_failure kb_id w kb :
  truthy kb_id = true →
  KnowledgebaseService.get_by_id kb_id w = Some kb →
  truthy PipelineTaskType_GRAPH_RAG = true →
  kb_update_ok kb_id = false →
  ∃ w',
    handle (delete_kb_task kb_id PipelineTaskType_GRAPH_RAG) w
      = (Responded (server_error_response
           ("Internal error: cannot delete task " ++ PipelineTaskType_GRAPH_RAG)),
         w') ∧
    knowledgebases w' = knowledgebases w ∧
    index_entries w'
      = List.filter
          (λ e, negb (docStoreConn.in_partition
                        (index_name (kb_tenant_id kb)) kb_id e
                      && is_graph_artifact e))
          (index_entries w).
Proof.
  intros Hid Hkb Hty Hfail.
  unfold handle, delete_kb_task, bind, read, return_, write, call, pure.
  rewrite Hid. simpl. rewrite Hkb, Hty. simpl.
  rewrite bool_decide_eq_true_2 by set_solver. simpl.
  rewrite bool_decide_eq_true_2 by done.
  unfold KnowledgebaseService.update_by_id. rewrite Hfail. simpl.
  by eexists.
Qed.

(** X8.  Unbinding releases the single-flight check: after a successful
    unbind of a kind, a dispatch of that kind is never answered with the
    in-progress error, even if the Task that the pointer named is still
    running. *)
Theorem unbind_releases k kb_id w kb :
  truthy kb_id = true →
  KnowledgebaseService.get_by_id kb_id w = Some kb →
  truthy (type_of_kind k) = true →
  PipelineTaskType_RAPTOR ≠ PipelineTaskType_GRAPH_RAG →
  PipelineTaskType_MINDMAP ≠ PipelineTaskType_GRAPH_RAG →
  PipelineTaskType_MINDMAP ≠ PipelineTaskType_RAPTOR →
  kb_update_ok kb_id = true →
  ∃ w',
    handle (delete_kb_task kb_id (type_of_kind k)) w
      = (Responded (get_json_result (DBool true) None None), w') ∧
    ∀ tid p,
      (handle (run_aggregate k kb_id) w').1 ≠ Responded (in_progress k tid p).
Proof.
  intros Hid Hkb Hty Hrg Hmg Hmr Hok.
  destruct (delete_kb_task_done k kb_id w kb Hid Hkb Hty Hrg Hmg Hmr Hok)
    as (w' & kb' & Hh & Hkb' & Hp & _).
  exists w'. split; [exact Hh|]. intros tid p Hr.
  destruct (run_aggregate_pass k kb_id w' kb' Hid Hkb')
    as (w0 & _ & _ & _ & _ & _ & Hrun).
  { intros tid' t Hp' Ht'. rewrite Hp in Hp'. by simplify_eq. }
  unfold handle in Hr. rewrite Hrun in Hr. unfold in_progress in Hr.
  destruct (DocumentService.get_by_kb_id kb_id w'); simplify_eq/=.
Qed.

(** X9.  Deleting the knowledge graph removes exactly the records of the
    partition tagged [graph], [subgraph], [entity] or [relation]; every
    other index record stays, and the knowledge bases (so the GraphRAG
    pointer too), the Task rows and the documents are untouched. *)
Theorem delete_knowledge_graph_effect kb_id user w kb :
  kb_accessible w kb_id user = true →
  KnowledgebaseService.get_by_id kb_id w = Some kb →
  ∃ w',
    handle (delete_knowledge_graph kb_id user) w
      = (Responded (get_json_result (DBool true) None None), w') ∧
    index_entries w'
      = List.filter
          (λ e, negb (docStoreConn.in_partition
                        (index_name (kb_tenant_id kb)) kb_id e
                      && is_graph_artifact e))
          (index_entries w) ∧
    (∀ e, e ∈ index_entries w' →
       docStoreConn.in_partition (index_name (kb_tenant_id kb)) kb_id e = true →
       is_graph_artifact e = false) ∧
    (∀ e, e ∈ index_entries w →
       is_graph_artifact e = false → e ∈ index_entries w') ∧
    knowledgebases w' = knowledgebases w ∧ tasks w' = tasks w ∧
    documents w' = documents w.
Proof.
  intros Hacc Hkb.
  unfold handle, delete_knowledge_graph, bind, read, return_, write, pure.
  rewrite Hacc. simpl. rewrite Hkb. eexists. split; [reflexivity|].
  split; [reflexivity|]. simpl. split; [|split; [|done]].
  - intros e Hin Hpart. apply list_elem_of_In, filter_In in Hin as [_ Hc].
    rewrite Hpart in Hc. simpl in Hc. by apply negb_true_iff in Hc.
  - intros e Hin Hart. apply list_elem_of_In, filter_In. split.
    + by apply list_elem_of_In.
    + unfold is_graph_artifact in Hart. rewrite Hart. by rewrite andb_false_r.
Qed.
End unbind_more.

Lemma find_app_fresh {A} (p : A → bool) (l : list A) x :
  (∀ y, y ∈ l → p y = false) → p x = true → List.find p (l ++ [x]) = Some x.
Proof.
  intros Hl Hx. induction l as [|y l IH]; simpl; [by rewrite Hx|].
  rewrite (Hl y) by left. apply IH. intros z Hz. apply Hl. by right.
Qed.

Section dispatch_more.
Context {E : Env}.
Import kb_app.


Lemma kb_update_warnings id flds w :
  warnings (KnowledgebaseService.update_by_id id flds w).2 = warnings w.
Proof. unfold KnowledgebaseService.update_by_id. by case_match. Qed.

Lemma pointer_set_kb_fields k tid kb :
  pointer k (set_kb_fields [(pointer_field k, Some tid)] kb) = Some tid.
Proof. by destruct k. Qed.

(** A dispatch that goes through and whose pointer write succeeds. *)
Lemma run_aggregate_done k kb_id w kb d docs :
  truthy kb_id = true →
  KnowledgebaseService.get_by_id kb_id w = Some kb →
  (∀ tid t, pointer k kb = Some tid → truthy tid = true →
     TaskService.get_by_id tid w = Some t →
     in_terminal (task_progress t) = true) →
  DocumentService.get_by_kb_id kb_id w = d :: docs →
  kb_update_ok kb_id = true →
  ∃ w' kb',
    handle (run_aggregate k kb_id) w
      = (Responded (get_json_result
           (DField (pointer_field k) (get_uuid (uuids w))) None None), w') ∧
    KnowledgebaseService.get_by_id kb_id w' = Some kb' ∧
    pointer k kb' = Some (get_uuid (uuids w)) ∧
    tasks w'
      = (tasks w ++ [TaskService.new_task (get_uuid (uuids w))
                       GRAPH_RAPTOR_FAKE_DOC_ID (ty k) 0
                       (map doc_id (d :: docs))])%list ∧
    documents w' = documents w.
Proof.
  intros Hid Hkb Hfree Hdocs Hok.
  pose proof (kb_get_by_id_id _ _ _ Hkb) as Hkid.
  destruct (run_aggregate_pass k kb_id w kb Hid Hkb Hfree)
    as (w0 & Hd0 & Ht0 & Hk0 & Hu0 & _ & Hrun).
  rewrite Hdocs in Hrun. cbv zeta in Hrun. rewrite Hkid in Hrun.
  set (r := DocumentService.queue_raptor_o_graphrag_tasks d (ty k) 0
              GRAPH_RAPTOR_FAKE_DOC_ID (map doc_id (d :: docs)) w0) in *.
  assert (r.1 = get_uuid (uuids w)) as Hr1 by (unfold r; simpl; by rewrite Hu0).
  assert (KnowledgebaseService.get_by_id kb_id r.2 = Some kb) as Hkbr.
  { unfold KnowledgebaseService.get_by_id in *. simpl. by rewrite Hk0. }
  destruct (kb_update_lookup kb_id [(pointer_field k, Some r.1)] r.2 kb Hok Hkbr)
    as (w' & Hupd & Hget & Hd & Ht & _).
  rewrite Hupd in Hrun. cbn [fst snd] in Hrun.
  exists w', (set_kb_fields [(pointer_field k, Some r.1)] kb).
  split; [apply handle_next; by rewrite Hrun, Hr1|].
  split; [exact Hget|]. split; [by rewrite pointer_set_kb_fields, Hr1|].
  split.
  - rewrite Ht. unfold r. simpl. by rewrite Ht0, Hu0.
  - rewrite Hd. unfold r. simpl. exact Hd0.
Qed.

(** X10.  A dispatch that goes through and saves its pointer blocks the
    next one: when the id drawn for the new Task is not empty and not the
    id of an older Task, a second dispatch of the same kind is answered
    with the in-progress error that names the first Task, whose progress
    is 0, and changes nothing. *)
Theorem dispatch_twice k kb_id w kb d docs :
  truthy kb_id = true →
  KnowledgebaseService.get_by_id kb_id w = Some kb →
  (∀ tid t, pointer k kb = Some tid → truthy tid = true →
     TaskService.get_by_id tid w = Some t →
     in_terminal (task_progress t) = true) →
  DocumentService.get_by_kb_id kb_id w = d :: docs →
  kb_update_ok kb_id = true →
  truthy (get_uuid (uuids w)) = true →
  (∀ t, t ∈ tasks w → task_id t ≠ get_uuid (uuids w)) →
  ∃ w',
    handle (run_aggregate k kb_id) w
      = (Responded (get_json_result
           (DField (pointer_field k) (get_uuid (uuids w))) None None), w') ∧
    handle (run_aggregate k kb_id) w'
      = (Responded (in_progress k (get_uuid (uuids w)) 0), w').
Proof.
  intros Hid Hkb Hfree Hdocs Hok Htid Hfresh.
  destruct (run_aggregate_done k kb_id w kb d docs Hid Hkb Hfree Hdocs Hok)
    as (w' & kb' & Hh & Hkb' & Hp & Ht & _).
  exists w'. split; [exact Hh|]. apply handle_return.
  apply (run_aggregate_conflict k kb_id w' kb' (get_uuid (uuids w))
           (TaskService.new_task (get_uuid (uuids w)) GRAPH_RAPTOR_FAKE_DOC_ID
              (ty k) 0 (map doc_id (d :: docs)))); try done.
  unfold TaskService.get_by_id. rewrite Ht. apply find_app_fresh.
  - intros t Hin. apply bool_decide_eq_false. by apply Hfresh.
  - by apply bool_decide_eq_true.
Qed.

(** X11.  A pointer that names a Task that no longer exists does not
    block: the dispatch logs the warning that a valid task id was
    expected and goes through. *)
Theorem dispatch_dangling_pointer k kb_id w kb tid d docs :
  truthy kb_id = true →
  KnowledgebaseService.get_by_id kb_id w = Some kb →
  pointer k kb = Some tid → truthy tid = true →
  TaskService.get_by_id tid w = None →
  DocumentService.get_by_kb_id kb_id w = d :: docs →
  ∃ w',
    handle (run_aggregate k kb_id) w
      = (Responded (get_json_result
           (DField (pointer_field k) (get_uuid (uuids w))) None None), w') ∧
    "A valid " ++ expected_name k ++ " task id is expected for kb " ++ kb_id
      ∈ warnings w'.
Proof.
  intros Hid Hkb Hp Htid Hnone Hdocs.
  set (msg := "A valid " ++ expected_name k ++ " task id is expected for kb "
              ++ kb_id).
  unfold handle, run_aggregate, bind, read, return_, write, when, call, pure.
  rewrite Hid. simpl. rewrite Hkb, Hp. simpl. rewrite Htid, Hnone. simpl.
  fold msg.
  assert (DocumentService.get_by_kb_id kb_id (logging_warning msg w) = d :: docs)
    as -> by exact Hdocs.
  destruct (KnowledgebaseService.update_by_id _ _ _) as [saved w2] eqn:Hupd.
  assert (warnings w2 = (warnings w ++ [msg])%list) as Hw.
  { change w2 with (saved, w2).2. rewrite <- Hupd.
    by rewrite kb_update_warnings. }
  destruct saved; simpl; eexists; (split; [reflexivity|]); simpl; rewrite Hw;
    set_solver.
Qed.

(** X12.  A dispatch without knowledge-base id, for an unknown knowledge
    base, or for a knowledge base without documents is answered with an
    error; it creates no Task, enqueues nothing and writes no pointer. *)
Theorem dispatch_refused k kb_id w :
  truthy kb_id = false
  ∨ KnowledgebaseService.get_by_id kb_id w = None
  ∨ DocumentService.get_by_kb_id kb_id w = [] →
  ∃ msg w',
    handle (run_aggregate k kb_id) w
      = (Responded (get_error_data_result msg), w') ∧
    tasks w' = tasks w ∧ queue w' = queue w ∧
    knowledgebases w' = knowledgebases w.
Proof.
  intros Hcase.
  unfold handle, run_aggregate, bind, read, return_, write, when, call, pure.
  destruct (truthy kb_id) eqn:Hid; simpl; [|by eexists _, _].
  destruct (KnowledgebaseService.get_by_id kb_id w) as [kb|] eqn:Hkb;
    [|by eexists _, _].
  destruct Hcase as [?|[?|Hdocs]]; [done..|].
  destruct (truthy_opt (pointer k kb)); simpl.
  - destruct (TaskService.get_by_id _ w) as [t|]; simpl.
    + destruct (in_terminal (task_progress t)); simpl.
      * rewrite Hdocs. by eexists _, _.
      * by eexists _, _.
    + assert (∀ m, DocumentService.get_by_kb_id kb_id (logging_warning m w) = [])
        as -> by (intros; exact Hdocs).
      by eexists _, _.
  - rewrite Hdocs. by eexists _, _.
Qed.
End dispatch_more.

Lemma unbind_invalid_type_witness :
  handle (kb_app.delete_kb_task (E:=sample.env) "K1" "Parse") sample.world
    = (Responded (get_error_data_result "Invalid task type"), sample.world).
Proof.
  apply (unbind_invalid_type (E:=sample.env) "K1" "Parse" sample.world
           (sample.kb "K1" (Some "g1"))); [reflexivity..|].
  intros Hin. repeat (apply elem_of_cons in Hin as [Hin|Hin]; [discriminate Hin|]).
  by apply elem_of_nil in Hin.
Defined.

Lemma unbind_task_effect_witness :
  ∃ w' kb',
    handle (kb_app.delete_kb_task (E:=sample.env) "K1" "GraphRAG") sample.world
      = (Responded (get_json_result (DBool true) None None), w') ∧
    KnowledgebaseService.get_by_id "K1" w' = Some kb' ∧
    kb_app.pointer Graphrag kb' = Some "" ∧
    index_entries w'
      = [sample.entry "K1" "D1" None "chunk"; sample.entry "K1" "D2" None "chunk"].
Proof.
  destruct (unbind_task_effect (E:=sample.env) Graphrag "K1" sample.world
              (sample.kb "K1" (Some "g1")))
    as (w' & kb' & Hh & Hkb & Hp & _ & _ & Hi);
    [reflexivity || discriminate ..|].
  exists w', kb'. split; [exact Hh|]. split; [exact Hkb|]. split; [exact Hp|].
  rewrite Hi. reflexivity.
Defined.

Lemma unbind_write_failure_witness :
  ∃ w',
    handle (kb_app.delete_kb_task (E:=sample.env) "K2" "GraphRAG") sample.world
      = (Responded (server_error_response
           "Internal error: cannot delete task GraphRAG"), w') ∧
    knowledgebases w' = knowledgebases sample.world.
Proof.
  destruct (unbind_write_failure (E:=sample.env) "K2" sample.world
              (sample.kb "K2" None)) as (w' & Hh & Hk & _); [reflexivity..|].
  exists w'. by split.
Defined.

Lemma unbind_releases_witness :
  ∃ w',
    handle (kb_app.delete_kb_task (E:=sample.env) "K4" "GraphRAG") sample.world
      = (Responded (get_json_result (DBool true) None None), w') ∧
    ∀ tid p,
      (handle (kb_app.run_aggregate (E:=sample.env) Graphrag "K4") w').1
        ≠ Responded (kb_app.in_progress (E:=sample.env) Graphrag tid p).
Proof.
  apply (unbind_releases (E:=sample.env) Graphrag "K4" sample.world
           (sample.kb "K4" (Some "g2"))); reflexivity || discriminate.
Defined.

Lemma delete_knowledge_graph_effect_witness :
  ∃ w',
    handle (kb_app.delete_knowledge_graph (E:=sample.env) "K1" "u") sample.world
      = (Responded (get_json_result (DBool true) None None), w') ∧
    index_entries w'
      = [sample.entry "K1" "D1" None "chunk"; sample.entry "K1" "D2" None "chunk"] ∧
    knowledgebases w' = knowledgebases sample.world.
Proof.
  destruct (delete_knowledge_graph_effect (E:=sample.env) "K1" "u" sample.world
              (sample.kb "K1" (Some "g1")))
    as (w' & Hh & Hi & _ & _ & Hk & _); [reflexivity..|].
  exists w'. split; [exact Hh|]. split; [|exact Hk]. rewrite Hi. reflexivity.
Defined.

Lemma dispatch_twice_witness :
  ∃ w',
    handle (kb_app.run_graphrag (E:=sample.env) "K1") sample.world
      = (Responded (get_json_result (DField "graphrag_task_id" "task-") None None),
         w') ∧
    handle (kb_app.run_graphrag (E:=sample.env) "K1") w'
      = (Responded (get_error_data_result
           "Task task- in progress with status 0.0. A Graph Task is already running."),
         w').
Proof.
  apply (dispatch_twice (E:=sample.env) Graphrag "K1" sample.world
           (sample.kb "K1" (Some "g1")) (sample.doc "D1" "K1" "3")
           [sample.doc "D2" "K1" "1"]); try reflexivity.
  - intros tid t Hp _ Ht. injection Hp as <-. injection Ht as <-. reflexivity.
  - intros t Hin. simpl in Hin.
    repeat (apply elem_of_cons in Hin as [->|Hin]; [discriminate|]).
    by apply elem_of_nil in Hin.
Defined.

Lemma dispatch_dangling_pointer_witness :
  ∃ w',
    handle (kb_app.run_graphrag (E:=sample.env) "K5") sample_more.world_dangling
      = (Responded (get_json_result (DField "graphrag_task_id" "task-") None None),
         w') ∧
    "A valid GraphRAG task id is expected for kb K5" ∈ warnings w'.
Proof.
  apply (dispatch_dangling_pointer (E:=sample.env) Graphrag "K5"
           sample_more.world_dangling (sample.kb "K5" (Some "gone")) "gone"
           (sample.doc "D5" "K5" "0") []); reflexivity.
Defined.

Lemma dispatch_refused_witness :
  ∃ msg w',
    handle (kb_app.run_mindmap (E:=sample.env) "K3") sample.world
      = (Responded (get_error_data_result msg), w') ∧
    tasks w' = tasks sample.world ∧ queue w' = queue sample.world ∧
    knowledgebases w' = knowledgebases sample.world.
Proof.
  apply (dispatch_refused (E:=sample.env) Mindmap "K3" sample.world).
  right. right. reflexivity.
Defined.

(** ** The date filter and the status of documents, further *)

Section logs_more.
Context {E : Env}.
Import kb_app.

(** X13.  Because the date check rejects a range whose end is greater
    than its start, a request to either log listing that gives only an
    end date is always rejected, and a request to either that gives no
    end date never fails this check, whatever its start date. *)
Theorem only_end_date_rejected operation_status types suffix kb_id keywords page
    page_size orderby dsc create_date_to w :
  truthy kb_id = true →
  create_date_to ≠ "" →
  handle (list_pipeline_logs operation_status types suffix kb_id keywords
            page page_size orderby dsc "" create_date_to) w
    = (Responded create_date_abnormal, w) ∧
  handle (list_pipeline_dataset_logs operation_status kb_id
            page page_size orderby dsc "" create_date_to) w
    = (Responded create_date_abnormal, w) ∧
  ∀ create_date_from,
    (handle (list_pipeline_logs operation_status types suffix kb_id keywords
               page page_size orderby dsc create_date_from "") w).1
      ≠ Responded create_date_abnormal ∧
    (handle (list_pipeline_dataset_logs operation_status kb_id
               page page_size orderby dsc create_date_from "") w).1
      ≠ Responded create_date_abnormal.
Proof.
  intros Hkb Hto.
  assert (str_gt create_date_to "" = true) as Hgt.
  { destruct create_date_to; [done|reflexivity]. }
  assert (∀ s, str_gt "" s = false) as Hle by (by intros []).
  unfold handle, list_pipeline_logs, list_pipeline_dataset_logs, return_, pure,
    logs_reply, create_date_abnormal.
  rewrite Hkb, Hgt. simpl. split; [done|]. split; [done|].
  intros from. rewrite Hle.
  split; repeat case_match; simplify_eq; intros ?; simplify_eq.
Qed.
End logs_more.

Section change_status_more.
Context {E : Env}.
Import document_app.

(** X14.  A status other than ["0"] and ["1"] is refused with an argument
    error before any document is looked at; nothing is changed. *)
Theorem change_status_invalid doc_ids status user w :
  status ∉ ["0"; "1"] →
  handle (change_status doc_ids status user) w
    = (Responded (get_json_result (DBool false)
         (Some (dq ++ "Status" ++ dq ++ " must be either 0 or 1!"))
         (Some ARGUMENT_ERROR)), w).
Proof.
  intros Hst. unfold handle, change_status, return_.
  by rewrite (bool_decide_eq_false_2 _ Hst).
Qed.

(** What one iteration leaves alone, and where it writes. *)
Lemma change_status_one_frame status user id result w :
  ∃ result' w',
    change_status_one status user id result w = Next result' w' ∧
    dom result' = {[id]} ∪ dom result ∧
    tasks w' = tasks w ∧ knowledgebases w' = knowledgebases w ∧
    map doc_run (documents w') = map doc_run (documents w) ∧
    map doc_id (documents w') = map doc_id (documents w).
Proof.
  unfold change_status_one, bind, read, try_except, pure, call.
  destruct (doc_accessible w id user); simpl.
  2:{ eexists _, _. split; [done|]. by rewrite dom_insert_L. }
  destruct (DocumentService.get_by_id id w) as [d|] eqn:Hd; simpl.
  2:{ eexists _, _. split; [done|]. by rewrite dom_insert_L. }
  destruct (KnowledgebaseService.get_by_id (doc_kb_id d) w) as [kb|] eqn:Hkb; simpl.
  2:{ eexists _, _. split; [done|]. by rewrite dom_insert_L. }
  assert (tasks (DocumentService.update_by_id id [F_status status] w).2 = tasks w ∧
          knowledgebases (DocumentService.update_by_id id [F_status status] w).2
            = knowledgebases w ∧
          map doc_run (documents (DocumentService.update_by_id id [F_status status] w).2)
            = map doc_run (documents w) ∧
          map doc_id (documents (DocumentService.update_by_id id [F_status status] w).2)
            = map doc_id (documents w)) as Hupd.
  { unfold DocumentService.update_by_id. case_match; [|done]. simpl.
    repeat split; rewrite map_map; apply map_ext; intros x;
      unfold DocumentService.update_row; by case_match. }
  destruct (DocumentService.update_by_id id [F_status status] w) as [upd w1].
  simpl in Hupd. destruct Hupd as (Ht & Hk & Hr & Hi).
  destruct upd; simpl.
  2:{ eexists _, _. split; [done|]. by rewrite dom_insert_L. }
  assert (∀ v i k, tasks (docStoreConn.update id v i k w1).2 = tasks w1 ∧
            knowledgebases (docStoreConn.update id v i k w1).2 = knowledgebases w1 ∧
            documents (docStoreConn.update id v i k w1).2 = documents w1) as Hix.
  { intros. unfold docStoreConn.update. by case_match. }
  specialize (Hix (int_of_status status) (index_name (kb_tenant_id kb)) (doc_kb_id d)).
  destruct (docStoreConn.update id _ _ _ w1) as [ind w2]. simpl in Hix.
  destruct Hix as (Ht2 & Hk2 & Hd2).
  eexists _, _. split; [done|]. rewrite Ht2, Hk2, Hd2.
  split; [|done].
  destruct ind; simpl; rewrite !dom_insert_L; [done|].
  by rewrite (assoc_L (∪)), union_idemp_L.
Qed.

Lemma change_status_loop_frame status user doc_ids :
  ∀ result w,
    ∃ result' w',
      for_each doc_ids (change_status_one status user) result w = Next result' w' ∧
      dom result' = list_to_set doc_ids ∪ dom result ∧
      tasks w' = tasks w ∧ knowledgebases w' = knowledgebases w ∧
      map doc_run (documents w') = map doc_run (documents w) ∧
      map doc_id (documents w') = map doc_id (documents w).
Proof.
  induction doc_ids as [|id l IH]; intros result w.
  - exists result, w. split; [done|]. split; [|done].
    simpl. by rewrite (left_id_L ∅ (∪)).
  - simpl. unfold bind.
    destruct (change_status_one_frame status user id result w)
      as (r1 & w1 & -> & Hdom & Ht & Hk & Hr & Hi).
    destruct (IH r1 w1) as (r2 & w2 & Hloop & Hdom2 & Ht2 & Hk2 & Hr2 & Hi2).
    exists r2, w2. split; [done|].
    rewrite Hdom2, Hdom, Ht2, Hk2, Hr2, Hi2. split; [|done].
    simpl. rewrite !(assoc_L (∪)). f_equal. apply (comm_L (∪)).
Qed.

(** X15.  For a valid status, the result dictionary has an entry for
    every requested document id and for no other key, whatever happens
    to each id. *)
Theorem change_status_entries doc_ids status user w :
  status ∈ ["0"; "1"] →
  ∃ result w',
    handle (change_status doc_ids status user) w
      = (Responded (get_json_result (DResult result) None None), w') ∧
    dom result = list_to_set doc_ids.
Proof.
  intros Hst.
  destruct (change_status_loop_frame status user doc_ids ∅ w)
    as (result & w' & Hloop & Hdom & _).
  exists result, w'. split.
  - unfold handle, change_status, bind, pure.
    rewrite (bool_decide_eq_true_2 _ Hst). simpl. by rewrite Hloop.
  - rewrite Hdom. rewrite dom_empty_L. apply (right_id_L ∅ (∪)).
Qed.

End change_status_more.

Lemma only_end_date_rejected_witness :
  handle (kb_app.list_pipeline_logs (E:=sample.env) [] [] [] "K1" "" 0 0
            "create_time" true "" "2024-12-31") sample.world
    = (Responded kb_app.create_date_abnormal, sample.world) ∧
  handle (kb_app.list_pipeline_dataset_logs (E:=sample.env) [] "K1" 0 0
            "create_time" true "" "2024-12-31") sample.world
    = (Responded kb_app.create_date_abnormal, sample.world) ∧
  (handle (kb_app.list_pipeline_dataset_logs (E:=sample.env) [] "K1" 0 0
             "create_time" true "2024-01-01" "") sample.world).1
    ≠ Responded kb_app.create_date_abnormal.
Proof.
  destruct (only_end_date_rejected (E:=sample.env) [] [] [] "K1" "" 0 0
              "create_time" true "2024-12-31" sample.world)
    as (Hlogs & Hdataset & Hopen); [reflexivity|discriminate|].
  split; [exact Hlogs|]. split; [exact Hdataset|].
  apply (Hopen "2024-01-01").
Defined.

Lemma change_status_invalid_witness :
  handle (document_app.change_status (E:=sample.env) ["D1"] "2" "u") sample.world
    = (Responded (get_json_result (DBool false)
         (Some (dq ++ "Status" ++ dq ++ " must be either 0 or 1!"))
         (Some ARGUMENT_ERROR)), sample.world).
Proof.
  apply (change_status_invalid (E:=sample.env) ["D1"] "2" "u" sample.world).
  intros Hin. repeat (apply elem_of_cons in Hin as [Hin|Hin]; [discriminate Hin|]).
  by apply elem_of_nil in Hin.
Defined.

Lemma change_status_entries_witness :
  ∃ result w',
    handle (document_app.change_status (E:=sample.env) ["D1"; "D9"; "D1"] "1" "u")
      sample.world
      = (Responded (get_json_result (DResult result) None None), w') ∧
    dom result = list_to_set ["D1"; "D9"; "D1"].
Proof.
  apply (change_status_entries (E:=sample.env) ["D1"; "D9"; "D1"] "1" "u"
           sample.world).
  right. left.
Defined.

(** ** What the handlers leave alone *)

(** A relation between the stores before and after, reflexive and
    transitive, is kept by a handler when each of its steps keeps it. *)
Section frame.
Context (R : World → World → Prop) `{!PreOrder R}.

Lemma preserves_bind {A B} (m : M A) (k : A → M B) w :
  preserves_at R m w →
  (∀ a w1, m w = Next a w1 → preserves_at R (k a) w1) →
  preserves_at R (bind m k) w.
Proof.
  unfold preserves_at, bind. intros Hm Hk.
  destruct (m w) as [a w1|r w1|e w1] eqn:Hmw; simpl in *; [|done..].
  etrans; [exact Hm|]. by apply Hk.
Qed.

Lemma preserves_pure {A} (a : A) w : preserves_at R (pure a) w.
Proof. unfold preserves_at. simpl. reflexivity. Qed.

Lemma preserves_return {A} r w : preserves_at R (return_ (A:=A) r) w.
Proof. unfold preserves_at. simpl. reflexivity. Qed.

Lemma preserves_raise {A} e w : preserves_at R (raise (A:=A) e) w.
Proof. unfold preserves_at. simpl. reflexivity. Qed.

Lemma preserves_read {A} (f : World → A) w : preserves_at R (read f) w.
Proof. unfold preserves_at. simpl. reflexivity. Qed.

Lemma preserves_write f w : R w (f w) → preserves_at R (write f) w.
Proof. done. Qed.

Lemma preserves_call {A} (f : World → A * World) w :
  R w (f w).2 → preserves_at R (call f) w.
Proof. unfold preserves_at, call. by destruct (f w). Qed.

Lemma preserves_when c (m : M unit) w :
  (c = true → preserves_at R m w) → preserves_at R (when c m) w.
Proof. destruct c; simpl; [auto|intros _; apply preserves_pure]. Qed.

Lemma preserves_try_except {A} (m : M A) h w :
  preserves_at R m w →
  (∀ e w1, m w = Raise e w1 → preserves_at R (h e) w1) →
  preserves_at R (try_except m h) w.
Proof.
  unfold preserves_at, try_except. intros Hm Hh.
  destruct (m w) as [a w1|r w1|e w1] eqn:Hmw; simpl in *; [done..|].
  etrans; [exact Hm|]. by apply Hh.
Qed.

Lemma preserves_for_each {A S} (l : list A) (body : A → S → M S) :
  (∀ x s w, x ∈ l → preserves_at R (body x s) w) →
  ∀ s w, preserves_at R (for_each l body s) w.
Proof.
  induction l as [|x l IH]; intros Hb s w; simpl; [apply preserves_pure|].
  apply preserves_bind; [apply Hb; left|].
  intros s' w1 _. apply IH. intros y s0 w0 Hy. apply Hb. by right.
Qed.

Lemma preserves_handle (m : M Response) w :
  preserves_at R m w → R w (handle m w).2.
Proof. unfold preserves_at, handle. by destruct (m w). Qed.
End frame.

Ltac frame lem := apply lem; [typeclasses eauto|..].

Lemma elem_of_List_filter {A} (p : A → bool) (l : list A) x :
  x ∈ l → p x = true → x ∈ List.filter p l.
Proof. intros Hin Hp. apply list_elem_of_In, filter_In. by rewrite <- list_elem_of_In. Qed.

#[global] Instance keeps_others_preorder ids : PreOrder (keeps_others ids).
Proof.
  split.
  - intros w. by repeat split.
  - intros w1 w2 w3 (Hd & Ht & He) (Hd' & Ht' & He').
    repeat split; eauto.
Qed.

Lemma keeps_others_mono ids ids' w w' :
  ids ⊆ ids' → keeps_others ids w w' → keeps_others ids' w w'.
Proof.
  intros Hsub (Hd & Ht & He).
  repeat split; intros x Hin Hno; [apply Hd|apply Ht|apply He]; auto.
Qed.


#[global] Instance no_new_work_preorder : PreOrder no_new_work.
Proof.
  split.
  - intros w. by split.
  - intros w1 w2 w3 [Hq Ht] [Hq' Ht']. split; [congruence|auto].
Qed.

#[global] Instance same_holdings_preorder : PreOrder same_holdings.
Proof.
  split.
  - intros w. by repeat split.
  - intros w1 w2 w3 (H1 & H2 & H3 & H4 & H5) (H1' & H2' & H3' & H4' & H5').
    repeat split; congruence.
Qed.

Lemma elem_of_List_filter_inv {A} (p : A → bool) (l : list A) x :
  x ∈ List.filter p l → x ∈ l.
Proof. intros Hin. apply list_elem_of_In, filter_In in Hin as [Hin _]. by apply list_elem_of_In. Qed.

(** An authorization loop stops at the first id that is refused. *)
Lemma for_each_refused (allowed : World → string → bool) (r : Response)
    (ids : list string) (w : World) id :
  id ∈ ids → allowed w id = false →
  for_each ids
    (λ doc_id _,
       let* ok := read (λ w, allowed w doc_id) in
       if negb ok then return_ r else pure tt) tt w
  = Return r w.
Proof.
  intros Hin Hno. induction ids as [|j l IH]; [by apply elem_of_nil in Hin|].
  simpl. unfold bind at 1. unfold bind at 1. unfold read at 1.
  destruct (allowed w j) eqn:Hj; simpl; [|done].
  apply IH. apply elem_of_cons in Hin as [->|Hin]; [congruence|done].
Qed.

#[global] Instance same_but_status_preorder : PreOrder same_but_status.
Proof.
  split.
  - intros w. by repeat split.
  - intros w1 w2 w3 (A1 & A2 & A3 & A4 & A5 & A6 & A7 & A8 & A9 & A10 & A11)
      (B1 & B2 & B3 & B4 & B5 & B6 & B7 & B8 & B9 & B10 & B11).
    repeat split; congruence.
Qed.

Section change_status_writes.
Context {E : Env}.
Import document_app.

Lemma doc_update_status id status w :
  same_but_status w (DocumentService.update_by_id id [F_status status] w).2.
Proof.
  unfold DocumentService.update_by_id.
  destruct (_ && _); [|reflexivity].
  repeat split; simpl. rewrite map_map. apply map_ext. intros d.
  unfold DocumentService.update_row. by destruct (bool_decide (doc_id d = id)).
Qed.

Lemma docstore_update_status id v index kb w :
  same_but_status w (docStoreConn.update id v index kb w).2.
Proof.
  unfold docStoreConn.update.
  destruct (docstore_update_ok id); [|reflexivity].
  repeat split; simpl. rewrite map_map. apply map_ext. intros e.
  by destruct (_ && _).
Qed.

Lemma change_status_one_writes status user id result w :
  preserves_at same_but_status (change_status_one status user id result) w.
Proof.
  unfold change_status_one.
  frame preserves_bind; [frame preserves_read|].
  intros ok w1 _. destruct (negb ok); [frame preserves_pure|].
  frame preserves_try_except; [|intros; frame preserves_pure].
  frame preserves_bind; [frame preserves_read|].
  intros [doc|] w2 _; [|frame preserves_pure].
  frame preserves_bind; [frame preserves_read|].
  intros [kb|] w3 _; [|frame preserves_pure].
  frame preserves_bind; [apply preserves_call, doc_update_status|].
  intros updated w4 _. destruct (negb updated); [frame preserves_pure|].
  frame preserves_bind; [apply preserves_call, docstore_update_status|].
  intros; frame preserves_pure.
Qed.

(** X16.  Changing the availability of documents never touches the Task
    rows, the knowledge bases or the run-state of any document, and
    neither adds nor removes documents: the stores afterwards differ
    from the stores before at most in the [status] of document rows and
    in the [available_int] of index records. *)
Theorem change_status_frame doc_ids status user w :
  tasks (handle (change_status doc_ids status user) w).2 = tasks w ∧
  knowledgebases (handle (change_status doc_ids status user) w).2
    = knowledgebases w ∧
  map doc_run (documents (handle (change_status doc_ids status user) w).2)
    = map doc_run (documents w) ∧
  map doc_id (documents (handle (change_status doc_ids status user) w).2)
    = map doc_id (documents w) ∧
  same_but_status w (handle (change_status doc_ids status user) w).2.
Proof.
  assert (same_but_status w (handle (change_status doc_ids status user) w).2) as H.
  { apply preserves_handle. unfold change_status.
    destruct (negb _); [frame preserves_return|].
    frame preserves_bind; [|intros; frame preserves_pure].
    frame preserves_for_each. intros id result w0 _.
    apply change_status_one_writes. }
  split; [apply H|]. split; [apply H|]. split; [|split; [|exact H]].
  - destruct H as (Hd & _).
    apply (f_equal (map doc_run)) in Hd. by rewrite !map_map in Hd.
  - destruct H as (Hd & _).
    apply (f_equal (map doc_id)) in Hd. by rewrite !map_map in Hd.
Qed.
End change_status_writes.

Section rm_more.
Context {E : Env}.
Import document_app.

(** X17.  Deletion is all or nothing on authorization: when the caller
    may not delete one of the requested documents, the answer is the
    authorization error and nothing is deleted, also not the documents
    the caller may delete. *)
Theorem rm_unauthorized doc_ids user w id :
  id ∈ doc_ids →
  doc_accessible4deletion w id user = false →
  handle (rm doc_ids user) w = (Responded no_authorization, w).
Proof.
  intros Hin Hno. unfold handle, rm. unfold bind at 1.
  by rewrite (for_each_refused (λ w id, doc_accessible4deletion w id user)
                no_authorization doc_ids w id Hin Hno).
Qed.

Lemma remove_document_exact doc tenant_id w d :
  doc_delete_ok (doc_id doc) = true →
  DocumentService.get_by_id (doc_id doc) w = Some d →
  ∃ w2,
    DocumentService.remove_document doc tenant_id w = (true, w2) ∧
    tasks w2
      = List.filter (λ t, negb (bool_decide (task_doc_id t = doc_id doc))) (tasks w) ∧
    documents w2
      = List.filter (λ x, negb (bool_decide (doc_id x = doc_id doc))) (documents w) ∧
    index_entries w2
      = List.filter
          (λ e, negb (docStoreConn.in_partition (index_name tenant_id)
                        (doc_kb_id doc) e
                      && bool_decide (ie_doc_id e = doc_id doc)))
          (index_entries w) ∧
    files w2 = files w ∧ file2documents w2 = file2documents w ∧
    blobs w2 = blobs w.
Proof.
  intros Hok Hd. unfold DocumentService.remove_document.
  rewrite Hok. simpl.
  assert (DocumentService.get_by_id (doc_id doc)
            (docStoreConn.delete (λ e, bool_decide (ie_doc_id e = doc_id doc))
               (index_name tenant_id) (doc_kb_id doc)
               (TaskService.filter_delete (doc_id doc) w)) = Some d) as Hd'
    by exact Hd.
  rewrite Hd'. simpl. by eexists.
Qed.

Lemma rm_table_frame doc m w :
  ∃ m' w',
    rm_table doc m w = Next m' w' ∧
    documents w' = documents w ∧ tasks w' = tasks w ∧
    index_entries w' = index_entries w ∧ blobs w' = blobs w.
Proof.
  unfold rm_table, bind, read, write, when, pure.
  destruct (bool_decide (doc_parser_id doc = ParserType_TABLE)); [|by eexists _, _].
  destruct (m !! doc_kb_id doc); simpl;
    destruct (bool_decide _); simpl; by eexists _, _.
Qed.

Lemma rm_table_keeps ids doc m w : preserves_at (keeps_others ids) (rm_table doc m) w.
Proof.
  unfold rm_table. case_bool_decide; [|frame preserves_pure].
  frame preserves_bind.
  - destruct (m !! doc_kb_id doc); [frame preserves_pure|].
    frame preserves_bind; [frame preserves_read|].
    intros; frame preserves_pure.
  - intros m' w1 _. frame preserves_bind; [|intros; frame preserves_pure].
    frame preserves_when. intros _. apply preserves_write. by repeat split.
Qed.

Lemma remove_document_keeps doc tenant_id w :
  keeps_others [doc_id doc] w (DocumentService.remove_document doc tenant_id w).2.
Proof.
  unfold DocumentService.remove_document.
  assert (∀ e : IndexEntry, ie_doc_id e ∉ [doc_id doc] →
            negb (docStoreConn.in_partition (index_name tenant_id) (doc_kb_id doc) e
                  && bool_decide (ie_doc_id e = doc_id doc)) = true) as Hie.
  { intros e Hno. rewrite bool_decide_eq_false_2; [by rewrite andb_false_r|].
    intros Heq. apply Hno. rewrite Heq. left. }
  assert (∀ t : Task, task_doc_id t ∉ [doc_id doc] →
            negb (bool_decide (task_doc_id t = doc_id doc)) = true) as Hta.
  { intros t Hno. rewrite bool_decide_eq_false_2; [done|].
    intros Heq. apply Hno. rewrite Heq. left. }
  destruct (_ && _); simpl; repeat split; simpl; intros x Hin Hno.
  - apply elem_of_List_filter; [done|].
    rewrite bool_decide_eq_false_2; [done|]. intros Heq. apply Hno. rewrite Heq. left.
  - apply elem_of_List_filter; auto.
  - apply elem_of_List_filter; auto.
  - done.
  - apply elem_of_List_filter; auto.
  - apply elem_of_List_filter; auto.
Qed.

Lemma rm_one_keeps id m w : preserves_at (keeps_others [id]) (rm_one id m) w.
Proof.
  unfold rm_one.
  frame preserves_bind; [frame preserves_read|].
  intros [doc|] w1 Hdoc; [|frame preserves_return].
  unfold read in Hdoc. injection Hdoc as Hdoc <-.
  pose proof (doc_get_by_id_id _ _ _ Hdoc) as Hid.
  frame preserves_bind; [frame preserves_read|].
  intros tenant w1 _.
  destruct (negb (truthy_opt tenant)); [frame preserves_return|].
  frame preserves_bind; [frame preserves_read|].
  intros address w2 _.
  frame preserves_bind.
  { apply preserves_write. repeat split; simpl; intros x Hin Hno; [done| |done].
    apply elem_of_List_filter; [done|].
    rewrite bool_decide_eq_false_2; [done|]. intros Heq. apply Hno. rewrite Heq. left. }
  intros _ w3 _.
  frame preserves_bind.
  { apply preserves_call. rewrite <- Hid. apply remove_document_keeps. }
  intros removed w4 _.
  destruct (negb removed); [frame preserves_return|].
  frame preserves_bind; [frame preserves_read|].
  intros f2d w5 _.
  frame preserves_bind.
  { destruct f2d; [frame preserves_pure|].
    apply preserves_call. by repeat split. }
  intros c w6 _.
  frame preserves_bind.
  { apply preserves_write. by repeat split. }
  intros _ w7 _.
  frame preserves_bind; [|intros; apply rm_table_keeps].
  frame preserves_when. intros _. unfold STORAGE_IMPL.rm.
  destruct (storage_rm_raises _ _); [frame preserves_raise|].
  apply preserves_write. by repeat split.
Qed.

(** X18.  Whatever the answer, a deletion request leaves every document
    that is not among the requested ids in place, with its Task rows and
    its index records. *)
Theorem rm_keeps_others doc_ids user w :
  keeps_others doc_ids w (handle (rm doc_ids user) w).2.
Proof.
  apply preserves_handle. unfold rm.
  frame preserves_bind.
  { frame preserves_for_each. intros id [] w0 _.
    frame preserves_bind; [frame preserves_read|].
    intros ok w1 _. destruct (negb ok); [frame preserves_return|frame preserves_pure]. }
  intros _ w1 _.
  frame preserves_bind.
  { apply preserves_write. by repeat split. }
  intros _ w2 _.
  frame preserves_bind.
  { frame preserves_for_each. intros id st w0 Hin.
    unfold rm_step. frame preserves_try_except; [|intros; frame preserves_pure].
    frame preserves_bind; [|intros; frame preserves_pure].
    eapply keeps_others_mono; [|apply rm_one_keeps].
    intros j Hj. apply list_elem_of_singleton in Hj as ->. done. }
  intros st w3 _.
  destruct (truthy st.1); [frame preserves_return|frame preserves_pure].
Qed.

(** X19.  Deleting a document that has no file-linkage record removes its
    row and answers success, but deletes no blob. *)
Theorem rm_keeps_blob_without_linkage id user w doc tenant_id :
  doc_accessible4deletion w id user = true →
  DocumentService.get_by_id id w = Some doc →
  DocumentService.get_tenant_id id w = Some tenant_id →
  truthy tenant_id = true →
  doc_delete_ok id = true →
  File2DocumentService.get_by_document_id id w = [] →
  ∃ w',
    handle (rm [id] user) w
      = (Responded (get_json_result (DBool true) None None), w') ∧
    DocumentService.get_by_id id w' = None ∧
    blobs w' = blobs w.
Proof.
  intros Hacc Hdoc Hten Htruthy Hok Hlink.
  set (w0 := set_files (init_knowledgebase_docs user) w).
  pose proof (doc_get_by_id_id _ _ _ Hdoc) as Hid.
  unfold handle, rm, rm_loop, for_each, bind, read, write, return_, pure.
  rewrite Hacc. simpl. unfold rm_step, try_except, bind, pure. cbn [fst snd].
  fold w0. unfold rm_one, bind, read, write, call, return_, pure.
  assert (DocumentService.get_by_id id w0 = Some doc) as -> by exact Hdoc.
  assert (DocumentService.get_tenant_id id w0 = Some tenant_id) as -> by exact Hten.
  simpl. rewrite Htruthy. simpl.
  destruct (remove_document_exact doc tenant_id (TaskService.filter_delete id w0) doc)
    as (w2 & Hrem & Ht & Hd & Hi & Hf & Hl & Hb).
  { by rewrite Hid. }
  { by rewrite Hid. }
  rewrite Hrem. simpl.
  assert (File2DocumentService.get_by_document_id id w2 = []) as ->.
  { unfold File2DocumentService.get_by_document_id in *. by rewrite Hl. }
  simpl.
  destruct (rm_table_frame doc ∅ (File2DocumentService.delete_by_document_id id w2))
    as (m' & w' & -> & Hd' & Ht' & Hi' & Hb').
  simpl. eexists. split; [reflexivity|]. split.
  - unfold DocumentService.get_by_id. rewrite Hd'. simpl. rewrite Hd, Hid.
    apply find_filter_none.
  - rewrite Hb'. simpl. by rewrite Hb.
Qed.
End rm_more.

Section run_more.
Context {E : Env}.
Import document_app.

(** X20.  A run request is all or nothing on authorization: when the
    caller may not access one of the documents, the answer is the
    authorization error and no document is touched. *)
Theorem run_unauthorized doc_ids r delete user w id :
  id ∈ doc_ids →
  doc_accessible w id user = false →
  handle (run doc_ids r delete user) w = (Responded no_authorization, w).
Proof.
  intros Hin Hno. unfold handle, run. unfold bind at 1.
  by rewrite (for_each_refused (λ w id, doc_accessible w id user)
                no_authorization doc_ids w id Hin Hno).
Qed.

Lemma auth_loop_preserves (R : World → World → Prop) `{!PreOrder R}
    (allowed : World → string → bool) (r : Response) ids w :
  preserves_at R
    (for_each ids
       (λ doc_id _,
          let* ok := read (λ w, allowed w doc_id) in
          if negb ok then return_ r else pure tt) tt) w.
Proof.
  frame preserves_for_each. intros id [] w0 _.
  frame preserves_bind; [frame preserves_read|].
  intros ok w1 _. destruct (negb ok); [frame preserves_return|frame preserves_pure].
Qed.

Lemma doc_update_no_new_work id info w :
  no_new_work w (DocumentService.update_by_id id info w).2.
Proof. unfold DocumentService.update_by_id. case_match; by split. Qed.

Lemma run_one_no_new_work r delete id m w :
  r ≠ TaskStatus_value RUNNING →
  preserves_at no_new_work (run_one r delete id m) w.
Proof.
  intros Hr. unfold run_one.
  frame preserves_bind; [frame preserves_read|].
  intros tenant w1 _.
  destruct (negb (truthy_opt tenant)); [frame preserves_return|].
  frame preserves_bind; [frame preserves_read|].
  intros [doc|] w2 _; [|frame preserves_return].
  frame preserves_bind.
  { case_bool_decide; [|frame preserves_pure].
    case_bool_decide; [|frame preserves_return].
    apply preserves_write. split; [done|]. simpl. apply elem_of_List_filter_inv. }
  intros _ w3 _.
  frame preserves_bind.
  { frame preserves_when. rewrite (bool_decide_eq_false_2 _ Hr).
    by rewrite andb_false_r. }
  intros _ w4 _.
  frame preserves_bind.
  { apply preserves_call. apply doc_update_no_new_work. }
  intros _ w5 _.
  frame preserves_bind.
  { frame preserves_when. intros _.
    frame preserves_bind.
    { apply preserves_write. split; [done|]. simpl. apply elem_of_List_filter_inv. }
    intros _ w6 _.
    frame preserves_bind; [frame preserves_read|].
    intros exist w7 _. frame preserves_when. intros _.
    apply preserves_write. by split. }
  intros _ w6 _.
  rewrite (bool_decide_eq_false_2 _ Hr). frame preserves_pure.
Qed.

(** X21.  A run request whose target state is not RUNNING queues no
    message and creates no Task row, for any list of documents and
    whatever the answer. *)
Theorem run_never_enqueues doc_ids r delete user w :
  r ≠ TaskStatus_value RUNNING →
  queue (handle (run doc_ids r delete user) w).2 = queue w ∧
  ∀ t, t ∈ tasks (handle (run doc_ids r delete user) w).2 → t ∈ tasks w.
Proof.
  intros Hr. apply (preserves_handle no_new_work). unfold run.
  frame preserves_bind; [apply auth_loop_preserves; typeclasses eauto|].
  intros _ w1 _.
  frame preserves_try_except; [|intros; frame preserves_pure].
  frame preserves_bind; [|intros; frame preserves_pure].
  frame preserves_for_each. intros id m w0 _. by apply run_one_no_new_work.
Qed.

Lemma doc_update_same_holdings id info w :
  same_holdings w (DocumentService.update_by_id id info w).2.
Proof.
  unfold DocumentService.update_by_id. case_match; [|by repeat split].
  repeat split; simpl; rewrite map_map; apply map_ext; intros d;
    unfold DocumentService.update_row;
    destruct (bool_decide (doc_id d = id)); try done.
  - apply set_doc_fields_id.
  - apply set_doc_fields_kb_id.
Qed.

Lemma run_dispatch_same_holdings id tenant_id doc w :
  preserves_at same_holdings (run_dispatch id tenant_id doc) w.
Proof.
  unfold run_dispatch. destruct (truthy_opt _).
  - frame preserves_bind; [apply preserves_call; by repeat split|].
    intros tid w1 _. apply preserves_write. by repeat split.
  - frame preserves_bind; [frame preserves_read|].
    intros a w1 _. apply preserves_write. by repeat split.
Qed.

Lemma run_start_same_holdings id tenant_id doc m w :
  preserves_at same_holdings (run_start id tenant_id doc m) w.
Proof.
  unfold run_start. case_bool_decide.
  - destruct (negb _); [frame preserves_pure|].
    frame preserves_bind.
    { destruct (m !! doc_kb_id doc); [frame preserves_pure|].
      frame preserves_bind; [frame preserves_read|].
      intros c w1 _. frame preserves_bind; [|intros; frame preserves_pure].
      frame preserves_when. intros _. apply preserves_write. by repeat split. }
    intros m' w1 _.
    frame preserves_bind; [apply run_dispatch_same_holdings|].
    intros; frame preserves_pure.
  - frame preserves_bind; [apply run_dispatch_same_holdings|].
    intros; frame preserves_pure.
Qed.

Lemma run_one_same_holdings r delete id m w :
  preserves_at same_holdings (run_one r delete id m) w.
Proof.
  unfold run_one.
  frame preserves_bind; [frame preserves_read|].
  intros tenant w1 _.
  destruct (negb (truthy_opt tenant)); [frame preserves_return|].
  frame preserves_bind; [frame preserves_read|].
  intros [doc|] w2 _; [|frame preserves_return].
  frame preserves_bind.
  { case_bool_decide; [|frame preserves_pure].
    case_bool_decide; [|frame preserves_return].
    apply preserves_write. by repeat split. }
  intros _ w3 _.
  frame preserves_bind.
  { frame preserves_when. intros _. apply preserves_write.
    unfold DocumentService.clear_chunk_num_when_rerun. case_match; by repeat split. }
  intros _ w4 _.
  frame preserves_bind.
  { apply preserves_call. apply doc_update_same_holdings. }
  intros _ w5 _.
  frame preserves_bind.
  { frame preserves_when. intros _.
    frame preserves_bind; [apply preserves_write; by repeat split|].
    intros _ w6 _.
    frame preserves_bind; [frame preserves_read|].
    intros exist w7 _. frame preserves_when. intros _.
    apply preserves_write. by repeat split. }
  intros _ w6 _.
  case_bool_decide; [apply run_start_same_holdings|frame preserves_pure].
Qed.

(** X22.  A run request, also with [delete] set, neither adds nor removes
    a document row or moves it to another knowledge base, and leaves the
    file records, the file linkage and the blobs as they are. *)
Theorem run_keeps_holdings doc_ids r delete user w :
  same_holdings w (handle (run doc_ids r delete user) w).2.
Proof.
  apply preserves_handle. unfold run.
  frame preserves_bind; [apply auth_loop_preserves; typeclasses eauto|].
  intros _ w1 _.
  frame preserves_try_except; [|intros; frame preserves_pure].
  frame preserves_bind; [|intros; frame preserves_pure].
  frame preserves_for_each. intros id m w0 _. apply run_one_same_holdings.
Qed.
End run_more.

Lemma rm_unauthorized_witness :
  handle (document_app.rm (E:=sample_more.env_guarded) ["D1"; "D2"] "u") sample.world
    = (Responded document_app.no_authorization, sample.world).
Proof.
  apply (rm_unauthorized (E:=sample_more.env_guarded) ["D1"; "D2"] "u"
           sample.world "D2"); [right; left|reflexivity].
Defined.

Lemma rm_keeps_blob_without_linkage_witness :
  ∃ w',
    handle (document_app.rm (E:=sample.env) ["D1"] "u") sample.world
      = (Responded (get_json_result (DBool true) None None), w') ∧
    DocumentService.get_by_id "D1" w' = None ∧
    blobs w' = [("K1", "D1.pdf"); ("folder", "d2.pdf")].
Proof.
  apply (rm_keeps_blob_without_linkage (E:=sample.env) "D1" "u" sample.world
           (sample.doc "D1" "K1" "3") "T"); reflexivity.
Defined.

Lemma run_unauthorized_witness :
  handle (document_app.run (E:=sample_more.env_guarded) ["D1"; "D2"] "1" true "u")
    sample.world
    = (Responded document_app.no_authorization, sample.world).
Proof.
  apply (run_unauthorized (E:=sample_more.env_guarded) ["D1"; "D2"] "1" true "u"
           sample.world "D2"); [right; left|reflexivity].
Defined.

Lemma run_never_enqueues_witness :
  queue (handle (document_app.run (E:=sample.env) ["D2"; "D1"] "2" true "u")
           sample.world).2 = queue sample.world ∧
  ∀ t, t ∈ tasks (handle (document_app.run (E:=sample.env) ["D2"; "D1"] "2" true "u")
                    sample.world).2 → t ∈ tasks sample.world.
Proof.
  apply (run_never_enqueues (E:=sample.env) ["D2"; "D1"] "2" true "u" sample.world).
  intros H. vm_compute in H. discriminate H.
Defined.

(** ** Running and cancelling documents, step by step *)

Section run_steps.
Context {E : Env}.
Import document_app.

Lemma doc_update_documents id info w d :
  doc_update_ok id = true → DocumentService.get_by_id id w = Some d →
  documents (DocumentService.update_by_id id info w).2
    = map (DocumentService.update_row id (set_doc_fields info)) (documents w).
Proof.
  intros Hok Hd. unfold DocumentService.update_by_id. by rewrite Hok, Hd.
Qed.

Lemma update_row_lookup id f j w :
  (∀ d, doc_id (f d) = doc_id d) →
  List.find (λ d, bool_decide (doc_id d = j))
    (map (DocumentService.update_row id f) (documents w))
  = DocumentService.update_row id f <$> DocumentService.get_by_id j w.
Proof.
  intros Hf. unfold DocumentService.get_by_id. apply find_map_stable.
  intros d. unfold DocumentService.update_row.
  destruct (bool_decide (doc_id d = id)); [|done]. by rewrite Hf.
Qed.

(** Cancelling a running document: the iteration goes through. *)
Lemma run_one_cancel_running id delete m w doc tenant_id :
  DocumentService.get_tenant_id id w = Some tenant_id →
  truthy tenant_id = true →
  DocumentService.get_by_id id w = Some doc →
  doc_run doc = TaskStatus_value RUNNING →
  doc_update_ok id = true →
  ∃ w1,
    run_one (TaskStatus_value CANCEL) delete id m w = Next m w1 ∧
    tasks w1 = List.filter (λ t, negb (bool_decide (task_doc_id t = id))) (tasks w) ∧
    documents w1
      = map (DocumentService.update_row id
               (set_doc_fields (run_info (TaskStatus_value CANCEL) delete)))
          (documents w) ∧
    knowledgebases w1 = knowledgebases w.
Proof.
  intros Hten Htruthy Hdoc Hrun Hok.
  assert (TaskStatus_value CANCEL ≠ TaskStatus_value RUNNING) as Hcr
    by (by apply status_value_ne).
  unfold run_one, bind, read, return_, write, when, call, pure.
  rewrite Hten. simpl. rewrite Htruthy. simpl. rewrite Hdoc.
  rewrite bool_decide_eq_true_2 by done.
  rewrite bool_decide_eq_true_2 by done.
  rewrite (bool_decide_eq_false_2 _ Hcr).
  rewrite andb_false_r. simpl.
  set (info := run_info (TaskStatus_value CANCEL) delete).
  set (wA := TaskService.cancel_all_task_of id w).
  assert (DocumentService.get_by_id id wA = Some doc) as HdocA by exact Hdoc.
  pose proof (doc_update_documents id info wA doc Hok HdocA) as Hdocs.
  pose proof (doc_update_tasks id info wA) as Htasks.
  pose proof (doc_update_kbs id info wA) as Hkbs.
  destruct (DocumentService.update_by_id id info wA) as [upd wB].
  simpl in Hdocs, Htasks, Hkbs.
  destruct delete; simpl.
  - unfold bind, read, write, when, pure.
    destruct (docStoreConn.indexExist _ _ _); simpl;
      (eexists; split; [reflexivity|]); simpl; rewrite Htasks, Hdocs, Hkbs; simpl;
      by rewrite filter_filter_same.
  - eexists. split; [reflexivity|]. by rewrite Htasks, Hdocs, Hkbs.
Qed.

(** Cancelling a document that is not running: the iteration returns the
    conflict and writes nothing. *)
Lemma run_one_cancel_conflict id delete m w doc tenant_id :
  DocumentService.get_tenant_id id w = Some tenant_id →
  truthy tenant_id = true →
  DocumentService.get_by_id id w = Some doc →
  doc_run doc ≠ TaskStatus_value RUNNING →
  run_one (TaskStatus_value CANCEL) delete id m w
    = Return (get_data_error_result
                "Cannot cancel a task that is not in RUNNING status") w.
Proof.
  intros Hten Htruthy Hdoc Hrun.
  unfold run_one, bind, read, return_.
  rewrite Hten. simpl. rewrite Htruthy. simpl. rewrite Hdoc.
  rewrite bool_decide_eq_true_2 by done.
  by rewrite bool_decide_eq_false_2 by done.
Qed.

(** X23.  A request to cancel several documents is not atomic: when the
    first document is running and the second is not, the answer is the
    state-conflict error, yet the Task rows of the first document are
    already deleted and its run-state is already CANCEL. *)
Theorem cancel_not_atomic id1 id2 delete user w d1 d2 t1 t2 :
  id1 ≠ id2 →
  doc_accessible w id1 user = true →
  doc_accessible w id2 user = true →
  DocumentService.get_tenant_id id1 w = Some t1 → truthy t1 = true →
  DocumentService.get_by_id id1 w = Some d1 →
  doc_run d1 = TaskStatus_value RUNNING →
  doc_update_ok id1 = true →
  DocumentService.get_tenant_id id2 w = Some t2 → truthy t2 = true →
  DocumentService.get_by_id id2 w = Some d2 →
  doc_run d2 ≠ TaskStatus_value RUNNING →
  ∃ w' d1',
    handle (run [id1; id2] (TaskStatus_value CANCEL) delete user) w
      = (Responded (get_data_error_result
           "Cannot cancel a task that is not in RUNNING status"), w') ∧
    (∀ t, t ∈ tasks w' → task_doc_id t ≠ id1) ∧
    DocumentService.get_by_id id1 w' = Some d1' ∧
    doc_run d1' = TaskStatus_value CANCEL.
Proof.
  intros Hne Hacc1 Hacc2 Hten1 Htr1 Hdoc1 Hrun1 Hok Hten2 Htr2 Hdoc2 Hrun2.
  pose proof (doc_get_by_id_id _ _ _ Hdoc1) as Hid1.
  pose proof (doc_get_by_id_id _ _ _ Hdoc2) as Hid2.
  destruct (run_one_cancel_running id1 delete ∅ w d1 t1 Hten1 Htr1 Hdoc1 Hrun1 Hok)
    as (w1 & Hone & Ht & Hd & Hk).
  set (f := set_doc_fields (run_info (TaskStatus_value CANCEL) delete)) in *.
  assert (∀ j, DocumentService.get_by_id j w1
               = DocumentService.update_row id1 f <$> DocumentService.get_by_id j w)
    as Hlook.
  { intros j. unfold DocumentService.get_by_id at 1. rewrite Hd.
    apply update_row_lookup. intros d. apply set_doc_fields_id. }
  assert (DocumentService.get_by_id id2 w1 = Some d2) as Hdoc2'.
  { rewrite Hlook, Hdoc2. simpl. unfold DocumentService.update_row.
    rewrite bool_decide_eq_false_2; [done|]. congruence. }
  assert (DocumentService.get_tenant_id id2 w1 = Some t2) as Hten2'.
  { unfold DocumentService.get_tenant_id in *. rewrite Hdoc2'. rewrite Hdoc2 in Hten2.
    unfold KnowledgebaseService.get_by_id in *. by rewrite Hk. }
  exists w1, (f d1). split; [|split; [|split]].
  - unfold handle, run, for_each, bind, read, try_except, pure, return_.
    rewrite Hacc1. simpl. rewrite Hacc2. simpl. rewrite Hone.
    by rewrite (run_one_cancel_conflict id2 delete ∅ w1 d2 t2 Hten2' Htr2 Hdoc2' Hrun2).
  - intros t Hin. rewrite Ht in Hin.
    apply list_elem_of_In, filter_In in Hin as [_ Hn].
    by apply negb_true_iff, bool_decide_eq_false in Hn.
  - rewrite Hlook, Hdoc1. simpl. unfold DocumentService.update_row.
    by rewrite bool_decide_eq_true_2.
  - unfold f, run_info. by destruct (_ && _).
Qed.

(** The routing queues one message and creates one Task row. *)
Lemma run_dispatch_frame id tenant_id doc w :
  doc_id doc = id →
  ∃ w2 t b n,
    run_dispatch id tenant_id doc w = Next tt w2 ∧
    tasks w2 = (tasks w ++ [t])%list ∧ task_doc_id t = id ∧
    queue w2
      = (queue w ++
         [if truthy_opt (doc_pipeline_id doc)
          then QPipeline tenant_id (default "" (doc_pipeline_id doc))
                 (get_uuid (uuids w)) id
          else QParse doc tenant_id b n 0])%list ∧
    documents w2 = documents w ∧ index_entries w2 = index_entries w ∧
    knowledgebases w2 = knowledgebases w.
Proof.
  intros Hid. unfold run_dispatch, bind, call, read, write.
  destruct (truthy_opt (doc_pipeline_id doc)); simpl.
  - eexists _, _, "", "". split; [reflexivity|]. simpl. by repeat split.
  - eexists _, _, _, _. split; [reflexivity|]. simpl. by repeat split.
Qed.

Lemma run_start_frame id tenant_id doc m w :
  doc_id doc = id →
  doc_parser_id doc ≠ ParserType_TABLE ∨ truthy (doc_kb_id doc) = true →
  ∃ m' w2 t b n,
    run_start id tenant_id doc m w = Next m' w2 ∧
    tasks w2 = (tasks w ++ [t])%list ∧ task_doc_id t = id ∧
    queue w2
      = (queue w ++
         [if truthy_opt (doc_pipeline_id doc)
          then QPipeline tenant_id (default "" (doc_pipeline_id doc))
                 (get_uuid (uuids w)) id
          else QParse doc tenant_id b n 0])%list ∧
    documents w2 = documents w ∧ index_entries w2 = index_entries w ∧
    (doc_parser_id doc ≠ ParserType_TABLE → knowledgebases w2 = knowledgebases w).
Proof.
  intros Hid Hkb. unfold run_start, bind, read, write, when, pure.
  destruct (bool_decide (doc_parser_id doc = ParserType_TABLE)) eqn:Hp.
  - apply bool_decide_eq_true in Hp. destruct Hkb as [Hkb|Hkb]; [done|].
    rewrite Hkb. simpl.
    destruct (m !! doc_kb_id doc); simpl.
    + destruct (run_dispatch_frame id tenant_id doc w Hid)
        as (w2 & t & b & n & -> & Ht & Hd & Hq & Hdo & Hi & Hk).
      by eexists _, _, t, b, n.
    + destruct (bool_decide _); simpl.
      * destruct (run_dispatch_frame id tenant_id doc
                    (KnowledgebaseService.delete_field_map (doc_kb_id doc) w) Hid)
          as (w2 & t & b & n & -> & Ht & Hd & Hq & Hdo & Hi & Hk).
        by eexists _, _, t, b, n.
      * destruct (run_dispatch_frame id tenant_id doc w Hid)
          as (w2 & t & b & n & -> & Ht & Hd & Hq & Hdo & Hi & Hk).
        by eexists _, _, t, b, n.
  - destruct (run_dispatch_frame id tenant_id doc w Hid)
      as (w2 & t & b & n & -> & Ht & Hd & Hq & Hdo & Hi & Hk).
    by eexists _, _, t, b, n.
Qed.

(** A request to run a document reaches the routing after the update of
    the row and, with [delete], the removal of the old Task rows and
    index records. *)
Lemma run_one_running delete id m w doc tenant_id :
  DocumentService.get_tenant_id id w = Some tenant_id →
  truthy tenant_id = true →
  DocumentService.get_by_id id w = Some doc →
  ∃ w1,
    run_one (TaskStatus_value RUNNING) delete id m w
      = run_start id tenant_id doc m w1 ∧
    queue w1 = queue w ∧ uuids w1 = uuids w ∧
    documents w1
      = documents (DocumentService.update_by_id id
                     (run_info (TaskStatus_value RUNNING) delete) w).2 ∧
    (delete = false → tasks w1 = tasks w ∧ index_entries w1 = index_entries w) ∧
    (delete = false ∨ doc_run doc ≠ TaskStatus_value DONE →
     knowledgebases w1 = knowledgebases w).
Proof.
  intros Hten Htruthy Hdoc.
  pose proof (doc_get_by_id_id _ _ _ Hdoc) as Hid.
  set (info := run_info (TaskStatus_value RUNNING) delete).
  unfold run_one, bind, read, return_, write, when, call, pure.
  rewrite Hten. simpl. rewrite Htruthy. simpl. rewrite Hdoc.
  rewrite (bool_decide_eq_false_2 (TaskStatus_value RUNNING = TaskStatus_value CANCEL))
    by (by apply status_value_ne).
  rewrite (bool_decide_eq_true_2 (TaskStatus_value RUNNING = TaskStatus_value RUNNING))
    by done.
  rewrite andb_true_r. rewrite Hid. fold info.
  assert (∀ wA,
            documents wA = documents w → tasks wA = tasks w →
            index_entries wA = index_entries w → queue wA = queue w →
            uuids wA = uuids w →
            ∃ w1,
              match
                (let '(a0, w'0) := DocumentService.update_by_id id info wA in
                 Next a0 w'0)
              with
              | Next _ w'0 =>
                  match
                    (if delete
                     then
                      λ w0 : World,
                        (if docStoreConn.indexExist (index_name tenant_id)
                              (doc_kb_id doc) (TaskService.filter_delete id w0)
                         then
                          λ w2 : World,
                            Next ()
                              (docStoreConn.delete
                                 (λ e : IndexEntry, bool_decide (ie_doc_id e = id))
                                 (index_name tenant_id) (doc_kb_id doc) w2)
                         else λ w2 : World, Next () w2)
                          (TaskService.filter_delete id w0)
                     else λ w0 : World, Next () w0) w'0
                  with
                  | Next _ w'1 => run_start id tenant_id doc m w'1
                  | Return r w'1 => Return r w'1
                  | Raise e w'1 => Raise e w'1
                  end
              | Return r w'0 => Return r w'0
              | Raise e w'0 => Raise e w'0
              end = run_start id tenant_id doc m w1 ∧
              queue w1 = queue w ∧ uuids w1 = uuids w ∧
              documents w1 = documents (DocumentService.update_by_id id info w).2 ∧
              (delete = false → tasks w1 = tasks w ∧ index_entries w1 = index_entries w) ∧
              knowledgebases w1 = knowledgebases wA) as Hrest.
  { intros wA HdA HtA HiA HqA HuA.
    assert (documents (DocumentService.update_by_id id info wA).2
            = documents (DocumentService.update_by_id id info w).2 ∧
            tasks (DocumentService.update_by_id id info wA).2 = tasks w ∧
            index_entries (DocumentService.update_by_id id info wA).2
              = index_entries w ∧
            queue (DocumentService.update_by_id id info wA).2 = queue w ∧
            uuids (DocumentService.update_by_id id info wA).2 = uuids w ∧
            knowledgebases (DocumentService.update_by_id id info wA).2
              = knowledgebases wA) as HB.
    { unfold DocumentService.update_by_id, DocumentService.get_by_id.
      rewrite HdA. destruct (_ && _); simpl; by rewrite ?HdA. }
    destruct (DocumentService.update_by_id id info wA) as [upd wB].
    simpl in HB. destruct HB as (HdB & HtB & HiB & HqB & HuB & HkB).
    destruct delete; simpl.
    - destruct (docStoreConn.indexExist _ _ _); simpl;
        (eexists; split; [reflexivity|]); simpl; by repeat split.
    - eexists; split; [reflexivity|]. by repeat split. }
  destruct (delete && bool_decide (doc_run doc = TaskStatus_value DONE)) eqn:Hc.
  - assert (documents (DocumentService.clear_chunk_num_when_rerun id w) = documents w ∧
            tasks (DocumentService.clear_chunk_num_when_rerun id w) = tasks w ∧
            index_entries (DocumentService.clear_chunk_num_when_rerun id w)
              = index_entries w ∧
            queue (DocumentService.clear_chunk_num_when_rerun id w) = queue w ∧
            uuids (DocumentService.clear_chunk_num_when_rerun id w) = uuids w)
      as (HdA & HtA & HiA & HqA & HuA)
      by (unfold DocumentService.clear_chunk_num_when_rerun; by rewrite Hdoc).
    destruct (Hrest _ HdA HtA HiA HqA HuA) as (w1 & Hrun & Hq & Hu & Hd & Ht & Hk).
    exists w1. split; [exact Hrun|]. repeat split; try done; try (by apply Ht).
    intros [->|Hn]; [done|]. by rewrite (bool_decide_eq_false_2 _ Hn), andb_false_r in Hc.
  - destruct (Hrest w eq_refl eq_refl eq_refl eq_refl eq_refl)
      as (w1 & Hrun & Hq & Hu & Hd & Ht & Hk).
    exists w1. split; [exact Hrun|]. repeat split; try done; by apply Ht.
Qed.

Lemma run_single id r delete user w :
  doc_accessible w id user = true →
  handle (run [id] r delete user) w
  = handle (try_except
              (let* _ := run_one r delete id ∅ in
               pure (get_json_result (DBool true) None None))
              (λ e, pure (server_error_response e))) w.
Proof.
  intros Hacc. unfold handle, run, for_each, bind, read, try_except, pure, return_.
  rewrite Hacc. simpl. by destruct (run_one r delete id ∅ w).
Qed.

Lemma run_single_started id delete user w doc tenant_id :
  doc_accessible w id user = true →
  DocumentService.get_tenant_id id w = Some tenant_id →
  truthy tenant_id = true →
  DocumentService.get_by_id id w = Some doc →
  doc_parser_id doc ≠ ParserType_TABLE ∨ truthy (doc_kb_id doc) = true →
  ∃ w1 w' t b n,
    handle (run [id] (TaskStatus_value RUNNING) delete user) w
      = (Responded (get_json_result (DBool true) None None), w') ∧
    tasks w' = (tasks w1 ++ [t])%list ∧ task_doc_id t = id ∧
    queue w'
      = (queue w ++
         [if truthy_opt (doc_pipeline_id doc)
          then QPipeline tenant_id (default "" (doc_pipeline_id doc))
                 (get_uuid (uuids w)) id
          else QParse doc tenant_id b n 0])%list ∧
    documents w'
      = documents (DocumentService.update_by_id id
                     (run_info (TaskStatus_value RUNNING) delete) w).2 ∧
    index_entries w' = index_entries w1 ∧
    (delete = false → tasks w1 = tasks w ∧ index_entries w1 = index_entries w) ∧
    (doc_parser_id doc ≠ ParserType_TABLE →
     delete = false ∨ doc_run doc ≠ TaskStatus_value DONE →
     knowledgebases w' = knowledgebases w).
Proof.
  intros Hacc Hten Htruthy Hdoc Hkb.
  pose proof (doc_get_by_id_id _ _ _ Hdoc) as Hid.
  destruct (run_one_running delete id ∅ w doc tenant_id Hten Htruthy Hdoc)
    as (w1 & Hone & Hq1 & Hu1 & Hd1 & Ht1 & Hk1).
  destruct (run_start_frame id tenant_id doc ∅ w1 Hid Hkb)
    as (m' & w2 & t & b & n & Hst & Ht2 & Htd & Hq2 & Hd2 & Hi2 & Hk2).
  exists w1, w2, t, b, n. split.
  - rewrite (run_single id _ delete user w Hacc).
    unfold handle, try_except, bind, pure. by rewrite Hone, Hst.
  - rewrite Hq2, Hq1, Hu1, Hd2, Hd1. repeat split; try done; try (by apply Ht1).
    intros Hp Hc. rewrite (Hk2 Hp). by apply Hk1.
Qed.

Lemma run_info_plain r : run_info r false = [F_run r; F_progress 0].
Proof. unfold run_info. by rewrite andb_false_r. Qed.

(** X24.  A request to run a document without [delete] keeps what is
    there: the old Task rows and all index records stay, one Task row
    for the document is added, and of the document only [run] and
    [progress] are written: every other field of its row keeps its
    value, and no other row of the document table is written. *)
Theorem run_without_delete id user w doc tenant_id :
  doc_accessible w id user = true →
  DocumentService.get_tenant_id id w = Some tenant_id →
  truthy tenant_id = true →
  DocumentService.get_by_id id w = Some doc →
  truthy (doc_kb_id doc) = true →
  doc_update_ok id = true →
  ∃ w' t d',
    handle (run [id] (TaskStatus_value RUNNING) false user) w
      = (Responded (get_json_result (DBool true) None None), w') ∧
    tasks w' = (tasks w ++ [t])%list ∧ task_doc_id t = id ∧
    index_entries w' = index_entries w ∧
    DocumentService.get_by_id id w' = Some d' ∧
    doc_run d' = TaskStatus_value RUNNING ∧ doc_progress d' = 0%Q ∧
    doc_chunk_num d' = doc_chunk_num doc ∧
    doc_token_num d' = doc_token_num doc ∧
    doc_progress_msg d' = doc_progress_msg doc ∧
    d' = {| doc_id := doc_id doc; doc_kb_id := doc_kb_id doc;
            doc_parser_id := doc_parser_id doc;
            doc_pipeline_id := doc_pipeline_id doc;
            doc_run := TaskStatus_value RUNNING;
            doc_status := doc_status doc;
            doc_progress := 0;
            doc_progress_msg := doc_progress_msg doc;
            doc_chunk_num := doc_chunk_num doc;
            doc_token_num := doc_token_num doc;
            doc_process_duration := doc_process_duration doc;
            doc_location := doc_location doc |} ∧
    documents w'
      = map (λ d, if bool_decide (doc_id d = id)
                  then set_doc_field (F_progress 0)
                         (set_doc_field (F_run (TaskStatus_value RUNNING)) d)
                  else d) (documents w).
Proof.
  intros Hacc Hten Htruthy Hdoc Hkb Hok.
  pose proof (doc_get_by_id_id _ _ _ Hdoc) as Hid.
  destruct (run_single_started id false user w doc tenant_id Hacc Hten Htruthy Hdoc
              (or_intror Hkb))
    as (w1 & w' & t & b & n & Hh & Ht & Htd & _ & Hd & Hi & H1 & _).
  destruct (H1 eq_refl) as [Ht1 Hi1].
  exists w', t, (set_doc_fields [F_run (TaskStatus_value RUNNING); F_progress 0] doc).
  split; [exact Hh|]. rewrite Ht, Ht1, Hi, Hi1.
  rewrite Hd, run_info_plain, (doc_update_documents id _ w doc Hok Hdoc).
  repeat split; try done.
  - unfold DocumentService.get_by_id at 1. rewrite Hd, run_info_plain.
    rewrite (doc_update_documents id _ w doc Hok Hdoc).
    rewrite update_row_lookup by (intros d; apply set_doc_fields_id).
    rewrite Hdoc. simpl. unfold DocumentService.update_row.
    by rewrite Hid, bool_decide_eq_true_2.
Qed.

(** X25.  A request to run a document queues exactly one message: for a
    document with a pipeline id a pipeline job with a fresh id, and
    otherwise a parse job with priority 0 that carries the row as it was
    read before the update, while the stored row has the new fields. *)
Theorem run_routing id delete user w doc tenant_id :
  doc_accessible w id user = true →
  DocumentService.get_tenant_id id w = Some tenant_id →
  truthy tenant_id = true →
  DocumentService.get_by_id id w = Some doc →
  truthy (doc_kb_id doc) = true →
  doc_update_ok id = true →
  ∃ w' b n,
    handle (run [id] (TaskStatus_value RUNNING) delete user) w
      = (Responded (get_json_result (DBool true) None None), w') ∧
    queue w'
      = (queue w ++
         [if truthy_opt (doc_pipeline_id doc)
          then QPipeline tenant_id (default "" (doc_pipeline_id doc))
                 (get_uuid (uuids w)) id
          else QParse doc tenant_id b n 0])%list ∧
    DocumentService.get_by_id id w'
      = Some (set_doc_fields (run_info (TaskStatus_value RUNNING) delete) doc).
Proof.
  intros Hacc Hten Htruthy Hdoc Hkb Hok.
  pose proof (doc_get_by_id_id _ _ _ Hdoc) as Hid.
  destruct (run_single_started id delete user w doc tenant_id Hacc Hten Htruthy Hdoc
              (or_intror Hkb))
    as (w1 & w' & t & b & n & Hh & _ & _ & Hq & Hd & _).
  exists w', b, n. split; [exact Hh|]. split; [exact Hq|].
  unfold DocumentService.get_by_id at 1. rewrite Hd.
  rewrite (doc_update_documents id _ w doc Hok Hdoc).
  rewrite update_row_lookup by (intros d; apply set_doc_fields_id).
  rewrite Hdoc. simpl. unfold DocumentService.update_row.
  by rewrite Hid, bool_decide_eq_true_2.
Qed.

(** X26.  A rerun with [delete] of a document whose run-state is not
    DONE resets the chunk and token counts of the document to zero but
    leaves the knowledge bases, and so their counters, as they are. *)
Theorem rerun_unfinished_keeps_counters id user w doc tenant_id :
  doc_accessible w id user = true →
  DocumentService.get_tenant_id id w = Some tenant_id →
  truthy tenant_id = true →
  DocumentService.get_by_id id w = Some doc →
  doc_parser_id doc ≠ ParserType_TABLE →
  doc_run doc ≠ TaskStatus_value DONE →
  doc_update_ok id = true →
  ∃ w' d',
    handle (run [id] (TaskStatus_value RUNNING) true user) w
      = (Responded (get_json_result (DBool true) None None), w') ∧
    knowledgebases w' = knowledgebases w ∧
    DocumentService.get_by_id id w' = Some d' ∧
    doc_chunk_num d' = 0%Z ∧ doc_token_num d' = 0%Z.
Proof.
  intros Hacc Hten Htruthy Hdoc Hp Hrun Hok.
  pose proof (doc_get_by_id_id _ _ _ Hdoc) as Hid.
  destruct (run_single_started id true user w doc tenant_id Hacc Hten Htruthy Hdoc
              (or_introl Hp))
    as (w1 & w' & t & b & n & Hh & _ & _ & _ & Hd & _ & _ & Hk).
  exists w', (set_doc_fields (run_info (TaskStatus_value RUNNING) true) doc).
  split; [exact Hh|]. split; [apply Hk; [done|by right]|]. split.
  - unfold DocumentService.get_by_id at 1. rewrite Hd.
    rewrite (doc_update_documents id _ w doc Hok Hdoc).
    rewrite update_row_lookup by (intros d; apply set_doc_fields_id).
    rewrite Hdoc. simpl. unfold DocumentService.update_row.
    by rewrite Hid, bool_decide_eq_true_2.
  - unfold run_info. rewrite bool_decide_eq_true_2 by done. by simpl.
Qed.
End run_steps.

Lemma cancel_not_atomic_witness :
  ∃ w' d1',
    handle (document_app.run (E:=sample.env) ["D2"; "D1"] "2" false "u") sample.world
      = (Responded (get_data_error_result
           "Cannot cancel a task that is not in RUNNING status"), w') ∧
    (∀ t, t ∈ tasks w' → task_doc_id t ≠ "D2") ∧
    DocumentService.get_by_id "D2" w' = Some d1' ∧
    doc_run d1' = "2".
Proof.
  apply (cancel_not_atomic (E:=sample.env) "D2" "D1" false "u" sample.world
           (sample.doc "D2" "K1" "1") (sample.doc "D1" "K1" "3") "T" "T");
    try reflexivity; discriminate.
Defined.

Lemma run_without_delete_witness :
  ∃ w' t d',
    handle (document_app.run (E:=sample.env) ["D1"] "1" false "u") sample.world
      = (Responded (get_json_result (DBool true) None None), w') ∧
    tasks w' = (tasks sample.world ++ [t])%list ∧ task_doc_id t = "D1" ∧
    index_entries w' = index_entries sample.world ∧
    DocumentService.get_by_id "D1" w' = Some d' ∧
    doc_run d' = "1" ∧ doc_progress d' = 0%Q ∧
    doc_chunk_num d' = 4%Z ∧ doc_token_num d' = 40%Z ∧
    doc_progress_msg d' = "done" ∧
    doc_status d' = "1" ∧ doc_process_duration d' = 5%Q ∧
    documents w'
      = [d'; sample.doc "D2" "K1" "1"; sample.doc "D3" "K2" "0";
         sample.doc "D4" "K4" "3"].
Proof.
  destruct (run_without_delete (E:=sample.env) "D1" "u" sample.world
              (sample.doc "D1" "K1" "3") "T")
    as (w' & t & d' & Hh & Ht & Htd & Hi & Hget & Hr & Hp & Hc & Hk & Hm & Hd' & Hdocs);
    [reflexivity..|].
  exists w', t, d'.
  split; [exact Hh|]. split; [exact Ht|]. split; [exact Htd|].
  split; [exact Hi|]. split; [exact Hget|]. split; [exact Hr|].
  split; [exact Hp|]. split; [exact Hc|]. split; [exact Hk|].
  split; [exact Hm|]. rewrite Hdocs, Hd'. repeat split.
Defined.

Lemma run_routing_witness :
  ∃ w' b n,
    handle (document_app.run (E:=sample.env) ["D3"] "1" true "u") sample.world
      = (Responded (get_json_result (DBool true) None None), w') ∧
    queue w' = [QParse (sample.doc "D3" "K2" "0") "T" b n 0] ∧
    DocumentService.get_by_id "D3" w'
      = Some (set_doc_fields (document_app.run_info (E:=sample.env) "1" true)
                (sample.doc "D3" "K2" "0")).
Proof.
  apply (run_routing (E:=sample.env) "D3" true "u" sample.world
           (sample.doc "D3" "K2" "0") "T"); reflexivity.
Defined.

Lemma rerun_unfinished_keeps_counters_witness :
  ∃ w' d',
    handle (document_app.run (E:=sample.env) ["D3"] "1" true "u") sample.world
      = (Responded (get_json_result (DBool true) None None), w') ∧
    knowledgebases w' = knowledgebases sample.world ∧
    DocumentService.get_by_id "D3" w' = Some d' ∧
    doc_chunk_num d' = 0%Z ∧ doc_token_num d' = 0%Z.
Proof.
  apply (rerun_unfinished_keeps_counters (E:=sample.env) "D3" "u" sample.world
           (sample.doc "D3" "K2" "0") "T"); try reflexivity; discriminate.
Defined.

(** ** The filters of the log listings *)

Lemma invalid_among_spec valid l x :
  x ∈ kb_app.invalid_among valid l ↔ x ∈ l ∧ x ∉ valid.
Proof.
  unfold kb_app.invalid_among. rewrite elem_of_remove_dups.
  rewrite list_elem_of_In, filter_In, <- list_elem_of_In.
  rewrite negb_true_iff, bool_decide_eq_false. done.
Qed.

Lemma is_empty_false {A} (l : list A) x : x ∈ l → kb_app.is_empty l = false.
Proof. intros Hin. destruct l; [by apply elem_of_nil in Hin|done]. Qed.

Section logs_status.
Context {E : Env}.
Import kb_app.

(** X27.  A status filter with a value outside of [VALID_TASK_STATUS] is
    refused by both log listings before the log service is asked; the
    message names every invalid value of the filter once, and no valid
    one. *)
Theorem invalid_status_rejected operation_status types suffix kb_id keywords
    page page_size orderby desc create_date_from create_date_to w s :
  truthy kb_id = true →
  str_gt create_date_to create_date_from = false →
  s ∈ operation_status → s ∉ VALID_TASK_STATUS →
  ∃ l,
    handle (list_pipeline_logs operation_status types suffix kb_id keywords page
              page_size orderby desc create_date_from create_date_to) w
      = (Responded (get_data_error_result
           ("Invalid filter operation_status status conditions: " ++ join ", " l)), w) ∧
    handle (list_pipeline_dataset_logs operation_status kb_id page page_size
              orderby desc create_date_from create_date_to) w
      = (Responded (get_data_error_result
           ("Invalid filter operation_status status conditions: " ++ join ", " l)), w) ∧
    NoDup l ∧ ∀ x, x ∈ l ↔ x ∈ operation_status ∧ x ∉ VALID_TASK_STATUS.
Proof.
  intros Hkb Hdate Hin Hno.
  exists (invalid_among VALID_TASK_STATUS operation_status).
  assert (is_empty operation_status = false) as He1 by (by eapply is_empty_false).
  assert (is_empty (invalid_among VALID_TASK_STATUS operation_status) = false) as He2.
  { apply (is_empty_false _ s). by apply invalid_among_spec. }
  split; [|split; [|split]].
  - unfold handle, list_pipeline_logs, return_.
    by rewrite Hkb, Hdate, He1, He2.
  - unfold handle, list_pipeline_dataset_logs, return_.
    by rewrite Hkb, Hdate, He1, He2.
  - apply NoDup_remove_dups.
  - intros x. apply invalid_among_spec.
Qed.
End logs_status.

Lemma invalid_status_rejected_witness :
  ∃ l,
    handle (kb_app.list_pipeline_logs (E:=sample.env) ["9"; "1"; "9"] [] [] "K1" ""
              0 0 "create_time" true "" "") sample.world
      = (Responded (get_data_error_result
           ("Invalid filter operation_status status conditions: " ++ join ", " l)),
         sample.world) ∧
    handle (kb_app.list_pipeline_dataset_logs (E:=sample.env) ["9"; "1"; "9"] "K1"
              0 0 "create_time" true "" "") sample.world
      = (Responded (get_data_error_result
           ("Invalid filter operation_status status conditions: " ++ join ", " l)),
         sample.world) ∧
    NoDup l ∧
    ∀ x, x ∈ l ↔ x ∈ ["9"; "1"; "9"] ∧ x ∉ VALID_TASK_STATUS (Env:=sample.env).
Proof.
  apply (invalid_status_rejected (E:=sample.env) ["9"; "1"; "9"] [] [] "K1" ""
           0 0 "create_time" true "" "" sample.world "9"); [reflexivity..|left|].
  intros Hin. repeat (apply elem_of_cons in Hin as [Hin|Hin]; [discriminate Hin|]).
  by apply elem_of_nil in Hin.
Defined.
